(** * Conversation orchestration core of the chat server

    A shallow embedding of the socket handlers of the chat server
    (sheet and web-page context assembly, the per-turn message handler,
    variable extraction, spreadsheet export and session teardown) together
    with the properties of them that the specification states.

    JavaScript strings are modelled by [string]; its characters stand for
    the UTF-16 code units that [length] and [slice] count. *)

From Stdlib Require Import String Ascii List ZArith NArith Lia Bool Arith.
From Stdlib Require Import Sorted Permutation DecimalString.
Import ListNotations.
Open Scope string_scope.

Set Implicit Arguments.

(** ** JavaScript values and objects *)

Module Js.

(** The line feed of the template literals. *)
Definition nl : string := String (ascii_of_nat 10) EmptyString.

(** [Array.prototype.join] on an array of strings. *)
Fixpoint join (sep : string) (l : list string) : string :=
  match l with
  | [] => ""
  | x :: rest =>
      match rest with
      | [] => x
      | _ :: _ => x ++ sep ++ join sep rest
      end
  end.

(** [String.prototype.slice (0, n)] for [0 <= n]. *)
Definition slice0 (n : nat) (s : string) : string := substring 0 n s.

(** [arr.map((x, index) => f x index)]. *)
Fixpoint mapi_from {A B : Type} (i : nat) (f : A -> nat -> B) (l : list A) : list B :=
  match l with
  | [] => []
  | x :: rest => f x i :: mapi_from (S i) f rest
  end.

Definition mapi {A B : Type} (f : A -> nat -> B) (l : list A) : list B :=
  mapi_from 0 f l.

(** [x || ''] where [x] is a string or [undefined]: both [undefined] and
    the empty string are falsy. *)
Definition or_empty (x : option string) : string :=
  match x with
  | Some EmptyString => ""
  | Some s => s
  | None => ""
  end.

(** What [JSON.parse] can put in a property.  Numbers are restricted to
    integers; a nested object is kept without its content, which
    [String] does not look at. *)
#[warnings="-register-all"]
Inductive value : Type :=
| VStr (s : string)
| VNum (n : Z)
| VBool (b : bool)
| VNull
| VArr (items : list value)
| VObj.

(** [String(v)]. *)
Fixpoint ToString (v : value) : string :=
  match v with
  | VStr s => s
  | VNum n => NilZero.string_of_int (Z.to_int n)
  | VBool true => "true"
  | VBool false => "false"
  | VNull => "null"
  | VArr items =>
      join "," (map (fun x => match x with
                              | VNull => ""
                              | _ => ToString x
                              end) items)
  | VObj => "[object Object]"
  end.

(** An ordinary object: its own enumerable data properties, in creation
    order, one entry per key. *)
Definition object : Type := list (string * value).

Definition hasOwn (o : object) (k : string) : bool :=
  existsb (fun p => String.eqb (fst p) k) o.

(** The property names every ordinary object inherits from
    [Object.prototype]. *)
Definition Object_prototype : list string :=
  [ "constructor"; "__defineGetter__"; "__defineSetter__"; "hasOwnProperty";
    "__lookupGetter__"; "__lookupSetter__"; "isPrototypeOf";
    "propertyIsEnumerable"; "toString"; "valueOf"; "__proto__";
    "toLocaleString" ].

Definition inherited (k : string) : bool :=
  existsb (String.eqb k) Object_prototype.

(** [k in o]: own properties and the prototype chain. *)
Definition has (k : string) (o : object) : bool :=
  hasOwn o k || inherited k.

(** Creation of the own data property [k], or update of its value in
    place.  This is what [JSON.parse] does for each member, and what
    [o[k] = v] does for a key that is not inherited. *)
Fixpoint define (o : object) (k : string) (v : value) : object :=
  match o with
  | [] => [(k, v)]
  | (k', v') :: rest =>
      if String.eqb k' k then (k, v) :: rest
      else (k', v') :: define rest k v
  end.

(** The object [JSON.parse] builds from the members of a JSON object, in
    the order of the text: a repeated key keeps its first position and
    its last value. *)
Definition parse_members (members : list (string * value)) : object :=
  fold_left (fun o p => define o (fst p) (snd p)) members [].

(** Array indices: canonical decimal strings of the integers below
    [2^32 - 1]. *)
Definition digit (c : ascii) : option N :=
  let n := N_of_ascii c in
  if ((48 <=? n) && (n <=? 57))%N then Some (n - 48)%N else None.

Fixpoint digits (acc : N) (s : string) : option N :=
  match s with
  | EmptyString => Some acc
  | String c rest =>
      match digit c with
      | Some d => digits (10 * acc + d)%N rest
      | None => None
      end
  end.

Definition array_index (s : string) : option N :=
  match s with
  | EmptyString => None
  | String c rest =>
      if Ascii.eqb c "0"%char then
        match rest with EmptyString => Some 0%N | _ => None end
      else
        match digits 0 s with
        | Some n => if (n <=? 4294967294)%N then Some n else None
        | None => None
        end
  end.

Definition is_index (p : string * value) : bool :=
  match array_index (fst p) with Some _ => true | None => false end.

Definition index_of (p : string * value) : N :=
  match array_index (fst p) with Some n => n | None => 0%N end.

Fixpoint insert_index (p : string * value) (l : list (string * value)) :=
  match l with
  | [] => [p]
  | q :: rest =>
      if (index_of p <=? index_of q)%N then p :: l
      else q :: insert_index p rest
  end.

Definition sort_index (l : list (string * value)) : list (string * value) :=
  fold_right insert_index [] l.

(** [Object.entries(o)]: array-index keys first, in ascending numeric
    order, then the other keys in creation order. *)
Definition entries (o : object) : list (string * value) :=
  sort_index (filter is_index o) ++ filter (fun p => negb (is_index p)) o.

Definition keys (o : object) : list string := map fst (entries o).

End Js.

(** ** The database, the outside world and the handlers' effects *)

(** A row of the [Message] table. *)
Record Message : Type := mkMessage {
  msg_sessionId : string;
  role : string;
  content : string;
  msg_timestamp : nat
}.

(** A row of the [ChatVariable] table. *)
Record ChatVariable : Type := mkChatVariable {
  sessionId : string;
  variableName : string;
  variableValue : string;
  timestamp : nat
}.

(** The single row of the [GlobalSettings] table.  The array columns and
    the target spreadsheet may be null. *)
Record GlobalSettings : Type := mkGlobalSettings {
  prompt : string;
  knowledgeBaseSheetIds : option (list string);
  knowledgeBaseUrls : option (list string);
  extractionHeaders : option (list string);
  targetSpreadsheetId : option string
}.

(** A role-tagged message of a completion request. *)
Record ChatMsg : Type := mkChatMsg {
  cm_role : string;
  cm_content : string
}.

(** The awaited calls to the outside services. *)
Inductive Request : Type :=
| SheetsValuesGet (spreadsheetId : string)
| AxiosGet (url : string)
| ChatCompletionsCreate (messages : list ChatMsg) (json_object : bool)
| SheetsValuesAppend (spreadsheetId : string) (row : list string).

(** What a handler does that the outside can observe, in order: a request
    is issued, an issued request settles (fulfilled or rejected), an event
    is emitted on the socket, an error is written to the console. *)
Inductive Event : Type :=
| Issued (r : Request)
| Settled (r : Request) (fulfilled : bool)
| SocketEmit (event : string) (payload : string)
| ConsoleError (label : string).

(** The state the handlers act on: the tables, the clock that stamps new
    rows, and the trace of what has been observed so far. *)
Record World : Type := mkWorld {
  ChatSessions : list string;
  Messages : list Message;
  ChatVariables : list ChatVariable;
  Settings : option GlobalSettings;
  now : nat;
  trace : list Event
}.

(** The answers of the outside services during one run of a handler. *)
Inductive SheetReply : Type :=
| SheetRejected
| SheetValues (values : option (list (list string))).

Record Webpage : Type := mkWebpage {
  title : string;
  body_text : string
}.

Inductive CompletionReply : Type :=
| CompletionRejected
| CompletionContent (message_content : option string).

(** The extraction request asks for a JSON object; its answer is the
    outcome of [JSON.parse] on the returned content. *)
Inductive ExtractionReply : Type :=
| ExtractionRejected
| ExtractionMalformed
| ExtractionObject (members : list (string * Js.value)).

Record Env : Type := mkEnv {
  sheets_values_get : string -> SheetReply;
  webpage_of : string -> option Webpage;
  chat_completion : list ChatMsg -> CompletionReply;
  extraction_completion : list ChatMsg -> ExtractionReply;
  sheets_values_append : string -> list string -> bool
}.

(** A run either returns or throws; the state it leaves is kept in both
    cases (nothing is rolled back). *)
Inductive Outcome (A : Type) : Type :=
| Return (a : A)
| Throw (error : string).
Arguments Return {A} a.
Arguments Throw {A} error.

Definition M (A : Type) : Type := World -> Outcome A * World.

Definition ret {A : Type} (a : A) : M A := fun w => (Return a, w).

Definition throw {A : Type} (error : string) : M A := fun w => (Throw error, w).

Definition bind {A B : Type} (c : M A) (k : A -> M B) : M B :=
  fun w =>
    match c w with
    | (Return a, w') => k a w'
    | (Throw e, w') => (Throw e, w')
    end.

(** [try { c } catch (error) { handler error }]. *)
Definition try_catch {A : Type} (c : M A) (handler : string -> M A) : M A :=
  fun w =>
    match c w with
    | (Return a, w') => (Return a, w')
    | (Throw e, w') => handler e w'
    end.

Notation "x <- c ;; k" := (bind c (fun x => k))
  (at level 61, c at next level, right associativity).
Notation "c ;;; k" := (bind c (fun _ => k))
  (at level 61, right associativity).

Definition observe (e : Event) : M unit :=
  fun w => (Return tt,
            mkWorld (ChatSessions w) (Messages w) (ChatVariables w) (Settings w)
                    (now w) (trace w ++ [e])).

Definition socket_emit (event payload : string) : M unit :=
  observe (SocketEmit event payload).

Definition console_error (label : string) : M unit :=
  observe (ConsoleError label).

(** An awaited request: it is issued, and the handler resumes when it has
    settled. *)
Definition await {A : Type} (r : Request) (answer : option A) : M A :=
  observe (Issued r) ;;;
  match answer with
  | Some a => observe (Settled r true) ;;; ret a
  | None => observe (Settled r false) ;;; throw "rejected"
  end.

(** *** The tables

    The database calls are taken to succeed.  A new row is stamped with
    the clock, which then moves on: two rows are never created at the same
    instant. *)

Definition ChatSession_findByPk (id : string) : M (option string) :=
  fun w => (Return (find (String.eqb id) (ChatSessions w)), w).

(** [ChatSession.create]: the session id is the primary key. *)
Definition ChatSession_create (id : string) : M string :=
  fun w =>
    if existsb (String.eqb id) (ChatSessions w)
    then (Throw "SequelizeUniqueConstraintError", w)
    else (Return id,
          mkWorld (ChatSessions w ++ [id]) (Messages w) (ChatVariables w)
                  (Settings w) (now w) (trace w)).

Definition ChatSession_destroy (id : string) : M unit :=
  fun w => (Return tt,
            mkWorld (filter (fun s => negb (String.eqb s id)) (ChatSessions w))
                    (Messages w) (ChatVariables w) (Settings w) (now w) (trace w)).

Definition GlobalSettings_findByPk : M (option GlobalSettings) :=
  fun w => (Return (Settings w), w).

Definition Message_create (sid role_ content_ : string) : M unit :=
  fun w => (Return tt,
            mkWorld (ChatSessions w)
                    (Messages w ++ [mkMessage sid role_ content_ (now w)])
                    (ChatVariables w) (Settings w) (S (now w)) (trace w)).

Definition Message_destroy (sid : string) : M unit :=
  fun w => (Return tt,
            mkWorld (ChatSessions w)
                    (filter (fun m => negb (String.eqb (msg_sessionId m) sid)) (Messages w))
                    (ChatVariables w) (Settings w) (now w) (trace w)).

Definition ChatVariable_create (sid name value : string) : M unit :=
  fun w => (Return tt,
            mkWorld (ChatSessions w) (Messages w)
                    (ChatVariables w ++ [mkChatVariable sid name value (now w)])
                    (Settings w) (S (now w)) (trace w)).

(** [ORDER BY timestamp]: a stable insertion sort of the rows in table
    order; [before a b] tells that [a] may stay in front of [b]. *)
Fixpoint insert_by {A : Type} (before : A -> A -> bool) (x : A) (l : list A) : list A :=
  match l with
  | [] => [x]
  | y :: rest => if before x y then x :: l else y :: insert_by before x rest
  end.

Definition order_by {A : Type} (before : A -> A -> bool) (l : list A) : list A :=
  fold_right (insert_by before) [] l.

(** [Message.findAll({ where: { sessionId }, order: [['timestamp', 'ASC']] })]. *)
Definition Message_findAll (sid : string) : M (list Message) :=
  fun w => (Return (order_by (fun a b => Nat.leb (msg_timestamp a) (msg_timestamp b))
                             (filter (fun m => String.eqb (msg_sessionId m) sid) (Messages w))),
            w).

(** [ChatVariable.findAll({ where: { sessionId }, order: [['timestamp', 'DESC']] })]. *)
Definition ChatVariable_findAll (sid : string) : M (list ChatVariable) :=
  fun w => (Return (order_by (fun a b => Nat.leb (timestamp b) (timestamp a))
                             (filter (fun v => String.eqb (sessionId v) sid) (ChatVariables w))),
            w).

(** ** Knowledge context *)

(** [fetchSheetData]: the rows of range [A:Z], or the rejection logged and
    thrown again. *)
Definition fetchSheetData (env : Env) (sheetId : string)
  : M (option (list (list string))) :=
  try_catch
    (await (SheetsValuesGet sheetId)
           match sheets_values_get env sheetId with
           | SheetValues values => Some values
           | SheetRejected => None
           end)
    (fun error => console_error "Error fetching sheet data:" ;;; throw error).

(** [headers.map((header, index) => `${header}: ${row[index] || ''}`).join(', ')]. *)
Definition row_cells (headers row : list string) : list string :=
  Js.mapi (fun header index => header ++ ": " ++ Js.or_empty (nth_error row index))
          headers.

Definition rowData (headers row : list string) : string :=
  Js.join ", " (row_cells headers row).

(** The body of [if (sheetData && sheetData.length)]: the sheet's label,
    then one line per row after the first; nothing is added when there are
    no values. *)
Definition add_sheet (allContext sheetId : string)
  (sheetData : option (list (list string))) : string :=
  match sheetData with
  | Some (headers :: rows) =>
      fold_left (fun acc row => acc ++ (rowData headers row ++ Js.nl)) rows
                (allContext ++ (Js.nl ++ "Data from Sheet " ++ sheetId ++ ":" ++ Js.nl))
  | Some [] => allContext
  | None => allContext
  end.

(** The body of [for (const sheetId of sheetIds)]: each fetch is awaited
    before the next one starts, and a rejected fetch is logged and leaves
    the context as it was. *)
Fixpoint sheets_loop (env : Env) (sheetIds : list string) (allContext : string)
  : M string :=
  match sheetIds with
  | [] => ret allContext
  | sheetId :: rest =>
      allContext' <-
        try_catch
          (sheetData <- fetchSheetData env sheetId ;;
           ret (add_sheet allContext sheetId sheetData))
          (fun _ => console_error ("Error fetching data from sheet " ++ sheetId ++ ":") ;;;
                    ret allContext) ;;
      sheets_loop env rest allContext'
  end.

Definition formatAllSheetDataForContext (env : Env) (sheetIds : option (list string))
  : M string :=
  match sheetIds with
  | None => ret ""
  | Some [] => ret ""
  | Some ids => sheets_loop env ids ("Knowledge Base Information:" ++ Js.nl)
  end.

(** [fetchWebpageContent]: the title and the visible text of the page, as
    cheerio gives them once scripts and styles are removed and white space
    is collapsed and trimmed; a rejected request is logged and thrown
    again. *)
Definition fetchWebpageContent (env : Env) (url : string) : M Webpage :=
  try_catch
    (await (AxiosGet url) (webpage_of env url))
    (fun error => console_error "Error fetching webpage:" ;;; throw error).

Fixpoint webpages_loop (env : Env) (urls : list string) (allContext : string)
  : M string :=
  match urls with
  | [] => ret allContext
  | url :: rest =>
      allContext' <-
        try_catch
          (webpageData <- fetchWebpageContent env url ;;
           ret (allContext
                ++ (Js.nl ++ "Content from " ++ url ++ ":" ++ Js.nl)
                ++ ("Title: " ++ title webpageData ++ Js.nl)
                ++ ("Content: " ++ body_text webpageData ++ Js.nl)))
          (fun _ => console_error ("Error fetching content from " ++ url ++ ":") ;;;
                    ret allContext) ;;
      webpages_loop env rest allContext'
  end.

Definition formatAllWebpageContentForContext (env : Env) (urls : option (list string))
  : M string :=
  match urls with
  | None => ret ""
  | Some [] => ret ""
  | Some us => webpages_loop env us ("Webpage Knowledge Base:" ++ Js.nl)
  end.

(** ** The message handler *)

Definition MAX_LENGTH : nat := 500.

(** The limit on the length of the assistant's answer. *)
Definition limit_length (assistantMessageRaw : string) : string :=
  if Nat.ltb MAX_LENGTH (String.length assistantMessageRaw)
  then Js.slice0 MAX_LENGTH assistantMessageRaw ++ "..."
  else assistantMessageRaw.

(** [ids && ids.length > 0]. *)
Definition configured (ids : option (list string)) : bool :=
  match ids with
  | Some (_ :: _) => true
  | _ => false
  end.

(** [openai.chat.completions.create({ model, messages })] followed by
    [completion.choices[0].message.content]. *)
Definition create_completion (env : Env) (messages : list ChatMsg)
  : M (option string) :=
  await (ChatCompletionsCreate messages false)
        match chat_completion env messages with
        | CompletionContent c => Some c
        | CompletionRejected => None
        end.

(** [socket.on('message', ...)] for the socket [socket_id] and the text
    [data.message]. *)
Definition on_message (env : Env) (socket_id : string) (data_message : string)
  : M unit :=
  try_catch
    (session <- ChatSession_findByPk socket_id ;;
     match session with
     | None => ret tt
     | Some session_sessionId =>
         Message_create session_sessionId "user" data_message ;;;
         messages <- Message_findAll session_sessionId ;;
         let formattedMessages :=
           map (fun msg => mkChatMsg (role msg) (content msg)) messages in
         globalSettings <- GlobalSettings_findByPk ;;
         match globalSettings with
         | None => throw "TypeError"
         | Some gs =>
             let formattedMessages := mkChatMsg "system" (prompt gs) :: formattedMessages in
             formattedMessages <-
               (if configured (knowledgeBaseSheetIds gs) then
                  try_catch
                    (knowledgeContext <-
                       formatAllSheetDataForContext env (knowledgeBaseSheetIds gs) ;;
                     ret (mkChatMsg "system"
                            ("Additional Context:" ++ Js.nl ++ knowledgeContext)
                          :: formattedMessages))
                    (fun _ => console_error "Error fetching knowledge bases:" ;;;
                              ret formattedMessages)
                else ret formattedMessages) ;;
             formattedMessages <-
               (if configured (knowledgeBaseUrls gs) then
                  try_catch
                    (webpageContext <-
                       formatAllWebpageContentForContext env (knowledgeBaseUrls gs) ;;
                     ret (mkChatMsg "system"
                            ("Additional Context:" ++ Js.nl ++ webpageContext)
                          :: formattedMessages))
                    (fun _ => console_error "Error fetching webpage content:" ;;;
                              ret formattedMessages)
                else ret formattedMessages) ;;
             socket_emit "typing" "assistant" ;;;
             completion <- create_completion env formattedMessages ;;
             match completion with
             | None => throw "TypeError"
             | Some assistantMessageRaw =>
                 let assistantMessage := limit_length assistantMessageRaw in
                 socket_emit "stopTyping" "assistant" ;;;
                 Message_create session_sessionId "assistant" assistantMessage ;;;
                 socket_emit "response" assistantMessage
             end
         end
     end)
    (fun _ => console_error "Error:" ;;;
              socket_emit "error" "An error occurred").

(** [socket.on('startChat', ...)]. *)
Definition on_startChat (socket_id : string) : M unit :=
  try_catch
    (ChatSession_create socket_id ;;; ret tt)
    (fun _ => console_error "Error creating session:").

(** ** Variable extraction *)

(** [globalSettings?.extractionHeaders || []]. *)
Definition headers_of (globalSettings : option GlobalSettings) : list string :=
  match globalSettings with
  | Some gs =>
      match extractionHeaders gs with
      | Some headers => headers
      | None => []
      end
  | None => []
  end.

Definition extractionPrompt (headers : list string) : string :=
  "Analyze the following chat conversation and extract information for these specific fields: "
  ++ Js.join ", " headers ++ ". " ++ Js.nl
  ++ "Format the response as a JSON object where each key must exactly match one of these field names: "
  ++ Js.join ", " headers ++ ". " ++ Js.nl
  ++ "If a field's information is not found in the conversation, set its value to an empty string."
  ++ Js.nl
  ++ "Only include the specified fields in the response.".

(** The extraction request and [JSON.parse] of the content it returns. *)
Definition create_extraction (env : Env) (messages : list ChatMsg) : M Js.object :=
  reply <- await (ChatCompletionsCreate messages true)
                 match extraction_completion env messages with
                 | ExtractionRejected => None
                 | r => Some r
                 end ;;
  match reply with
  | ExtractionObject members => ret (Js.parse_members members)
  | _ => throw "SyntaxError"
  end.

(** [headers.filter(header => !(header in extractedVariables))]. *)
Definition missingHeaders (headers : list string) (extractedVariables : Js.object)
  : list string :=
  filter (fun header => negb (Js.has header extractedVariables)) headers.

(** [missingHeaders.forEach(header => { extractedVariables[header] = ''; })]. *)
Definition add_missing (headers : list string) (extractedVariables : Js.object)
  : Js.object :=
  fold_left (fun o header => Js.define o header (Js.VStr ""))
            (missingHeaders headers extractedVariables) extractedVariables.

(** [for (const [variableName, variableValue] of Object.entries(...))]. *)
Fixpoint save_variables (sid : string) (entries : list (string * Js.value)) : M unit :=
  match entries with
  | [] => ret tt
  | (name, value) :: rest =>
      ChatVariable_create sid name (Js.ToString value) ;;;
      save_variables sid rest
  end.

Definition analyzeChatForVariables (env : Env) (sid : string) : M Js.object :=
  try_catch
    (globalSettings <- GlobalSettings_findByPk ;;
     let headers := headers_of globalSettings in
     match headers with
     | [] => ret []
     | _ :: _ =>
         messages <- Message_findAll sid ;;
         let chatText := Js.join Js.nl (map content messages) in
         extractedVariables <-
           create_extraction env [mkChatMsg "system" (extractionPrompt headers);
                                  mkChatMsg "user" chatText] ;;
         let extractedVariables := add_missing headers extractedVariables in
         save_variables sid (Js.entries extractedVariables) ;;;
         ret extractedVariables
     end)
    (fun error => console_error "Error analyzing chat for variables:" ;;;
                  throw error).

(** ** Spreadsheet export *)

(** [globalSettings?.targetSpreadsheetId], truthy: neither null nor the
    empty string. *)
Definition target_of (globalSettings : option GlobalSettings)
  : option (GlobalSettings * string) :=
  match globalSettings with
  | Some gs =>
      match targetSpreadsheetId gs with
      | Some (String c rest) => Some (gs, String c rest)
      | Some EmptyString => None
      | None => None
      end
  | None => None
  end.

(** [headers.map(header => ...)]: for each header the value of the first
    of [variables] with that name, or the empty string. *)
Definition export_rowData (headers : list string) (variables : list ChatVariable)
  : list string :=
  map (fun header =>
         match find (fun v => String.eqb (variableName v) header) variables with
         | Some variable => variableValue variable
         | None => ""
         end) headers.

Definition writeVariablesToSpreadsheet (env : Env) (sid : string) : M unit :=
  try_catch
    (globalSettings <- GlobalSettings_findByPk ;;
     match target_of globalSettings with
     | None => ret tt
     | Some (gs, target) =>
         variables <- ChatVariable_findAll sid ;;
         match variables with
         | [] => ret tt
         | _ :: _ =>
             let headers := headers_of (Some gs) in
             let row := export_rowData headers variables in
             await (SheetsValuesAppend target row)
                   (if sheets_values_append env target row then Some tt else None)
         end
     end)
    (fun _ => console_error "Error writing to spreadsheet:").

(** ** Session teardown *)

(** The steps both teardown handlers run, in this order. *)
Definition teardown (env : Env) (sid : string) : M unit :=
  analyzeChatForVariables env sid ;;;
  writeVariablesToSpreadsheet env sid ;;;
  Message_destroy sid ;;;
  ChatSession_destroy sid.

(** [data.sessionId || socket.id]. *)
Definition or_socket_id (data_sessionId : option string) (socket_id : string) : string :=
  match data_sessionId with
  | Some (String c rest) => String c rest
  | Some EmptyString => socket_id
  | None => socket_id
  end.

(** [socket.on('deleteSession', ...)]. *)
Definition on_deleteSession (env : Env) (socket_id : string)
  (data_sessionId : option string) : M unit :=
  let sid := or_socket_id data_sessionId socket_id in
  try_catch
    (teardown env sid ;;;
     socket_emit "sessionDeleted" sid)
    (fun _ => console_error "Error deleting session via websocket:" ;;;
              socket_emit "error" "Error deleting session").

(** [socket.on('disconnect', ...)]. *)
Definition on_disconnect (env : Env) (socket_id : string) : M unit :=
  try_catch
    (teardown env socket_id)
    (fun _ => console_error "Error in disconnect handler:").

(** The state a handler leaves, and what it added to the trace. *)
Definition exec {A : Type} (c : M A) (w : World) : World := snd (c w).

Definition result {A : Type} (c : M A) (w : World) : Outcome A := fst (c w).

(** ** Descriptions of the runs

    Closed forms of what the loops compute and observe; the lemmas below
    show that the handlers run to them. *)

(** The world with more events observed. *)
Definition add_trace (w : World) (tr : list Event) : World :=
  mkWorld (ChatSessions w) (Messages w) (ChatVariables w) (Settings w) (now w)
          (trace w ++ tr).

(** What the fetch of one sheet shows to the outside. *)
Definition sheet_events (env : Env) (sheetId : string) : list Event :=
  match sheets_values_get env sheetId with
  | SheetValues _ =>
      [Issued (SheetsValuesGet sheetId); Settled (SheetsValuesGet sheetId) true]
  | SheetRejected =>
      [Issued (SheetsValuesGet sheetId); Settled (SheetsValuesGet sheetId) false;
       ConsoleError "Error fetching sheet data:";
       ConsoleError ("Error fetching data from sheet " ++ sheetId ++ ":")]
  end.

Definition sheets_trace (env : Env) (sheetIds : list string) : list Event :=
  flat_map (sheet_events env) sheetIds.

Definition sheets_context (env : Env) (sheetIds : list string) (allContext : string)
  : string :=
  fold_left (fun acc sheetId =>
               match sheets_values_get env sheetId with
               | SheetValues values => add_sheet acc sheetId values
               | SheetRejected => acc
               end) sheetIds allContext.

Definition webpage_events (env : Env) (url : string) : list Event :=
  match webpage_of env url with
  | Some _ => [Issued (AxiosGet url); Settled (AxiosGet url) true]
  | None =>
      [Issued (AxiosGet url); Settled (AxiosGet url) false;
       ConsoleError "Error fetching webpage:";
       ConsoleError ("Error fetching content from " ++ url ++ ":")]
  end.

Definition webpages_trace (env : Env) (urls : list string) : list Event :=
  flat_map (webpage_events env) urls.

Definition webpages_context (env : Env) (urls : list string) (allContext : string)
  : string :=
  fold_left (fun acc url =>
               match webpage_of env url with
               | Some webpageData =>
                   acc ++ (Js.nl ++ "Content from " ++ url ++ ":" ++ Js.nl)
                       ++ ("Title: " ++ title webpageData ++ Js.nl)
                       ++ ("Content: " ++ body_text webpageData ++ Js.nl)
               | None => acc
               end) urls allContext.

(** The knowledge block of the sheets, and of the web pages. *)
Definition sheets_block (env : Env) (sheetIds : list string) : string :=
  sheets_context env sheetIds ("Knowledge Base Information:" ++ Js.nl).

Definition webpages_block (env : Env) (urls : list string) : string :=
  webpages_context env urls ("Webpage Knowledge Base:" ++ Js.nl).

Definition ids_of (ids : option (list string)) : list string :=
  match ids with
  | Some l => l
  | None => []
  end.

(** The message list a turn sends to the completion backend, given the
    session's history (the new user message included). *)
Definition turn_messages (env : Env) (gs : GlobalSettings) (history : list Message)
  : list ChatMsg :=
  let base :=
    mkChatMsg "system" (prompt gs)
    :: map (fun msg => mkChatMsg (role msg) (content msg)) history in
  let with_sheets :=
    if configured (knowledgeBaseSheetIds gs)
    then mkChatMsg "system"
           ("Additional Context:" ++ Js.nl
            ++ sheets_block env (ids_of (knowledgeBaseSheetIds gs)))
         :: base
    else base in
  if configured (knowledgeBaseUrls gs)
  then mkChatMsg "system"
         ("Additional Context:" ++ Js.nl
          ++ webpages_block env (ids_of (knowledgeBaseUrls gs)))
       :: with_sheets
  else with_sheets.

(** What the context assembly of a turn shows to the outside. *)
Definition context_trace (env : Env) (gs : GlobalSettings) : list Event :=
  sheets_trace env (ids_of (knowledgeBaseSheetIds gs))
  ++ webpages_trace env (ids_of (knowledgeBaseUrls gs)).

(** The session's history once the user's message is stored. *)
Definition history_with (w : World) (sid text : string) : list Message :=
  order_by (fun a b => Nat.leb (msg_timestamp a) (msg_timestamp b))
    (filter (fun m => String.eqb (msg_sessionId m) sid)
            (Messages w ++ [mkMessage sid "user" text (now w)])).

(** Requests in flight after a trace, and the most that were in flight at
    any point of it. *)
Fixpoint in_flight_from (n : nat) (tr : list Event) : nat :=
  match tr with
  | [] => n
  | Issued _ :: rest => in_flight_from (S n) rest
  | Settled _ _ :: rest => in_flight_from (pred n) rest
  | _ :: rest => in_flight_from n rest
  end.

Definition in_flight (tr : list Event) : nat := in_flight_from 0 tr.

Fixpoint max_in_flight_from (n : nat) (tr : list Event) : nat :=
  match tr with
  | [] => n
  | Issued _ :: rest => Nat.max n (max_in_flight_from (S n) rest)
  | Settled _ _ :: rest => Nat.max n (max_in_flight_from (pred n) rest)
  | _ :: rest => max_in_flight_from n rest
  end.

Definition max_in_flight (tr : list Event) : nat := max_in_flight_from 0 tr.

(** The requests of each kind a trace shows. *)
Definition is_extraction_request (e : Event) : bool :=
  match e with
  | Issued (ChatCompletionsCreate _ true) => true
  | _ => false
  end.

Definition is_append_request (e : Event) : bool :=
  match e with
  | Issued (SheetsValuesAppend _ _) => true
  | _ => false
  end.

Definition is_error (e : Event) : bool :=
  match e with
  | ConsoleError _ => true
  | SocketEmit event _ => String.eqb event "error"
  | _ => false
  end.

Definition count (p : Event -> bool) (tr : list Event) : nat :=
  List.length (filter p tr).

(** The rows one extraction stores, stamped from time [t] on. *)
Fixpoint stamped (sid : string) (entries : list (string * Js.value)) (t : nat)
  : list ChatVariable :=
  match entries with
  | [] => []
  | (name, value) :: rest =>
      mkChatVariable sid name (Js.ToString value) t :: stamped sid rest (S t)
  end.

(** The world after the user's message of a turn is stored and the
    context is assembled, with further events [tr] observed. *)
Definition after_user (w : World) (sid text : string) (tr : list Event) : World :=
  mkWorld (ChatSessions w)
          (Messages w ++ [mkMessage sid "user" text (now w)])
          (ChatVariables w) (Settings w) (S (now w)) (trace w ++ tr).

(** The world after a whole turn. *)
Definition after_turn (w : World) (sid text answer : string) (tr : list Event)
  : World :=
  mkWorld (ChatSessions w)
          ((Messages w ++ [mkMessage sid "user" text (now w)])
           ++ [mkMessage sid "assistant" answer (S (now w))])
          (ChatVariables w) (Settings w) (S (S (now w))) (trace w ++ tr).

(** The text of all the strings of a list, one after the other. *)
Definition concat_all (l : list string) : string := fold_right append "" l.

(** What the sheet [sheetId] contributes to the knowledge block: its label
    and its rows when it could be fetched, nothing otherwise. *)
Definition rendered_sheet (env : Env) (sheetId : string) : string :=
  match sheets_values_get env sheetId with
  | SheetValues values => add_sheet "" sheetId values
  | SheetRejected => ""
  end.

(** Two requests overlap in a trace when both are in flight at some point
    of it. *)
Definition overlapping (tr : list Event) : Prop := 2 <= max_in_flight tr.

(** The rows [writeVariablesToSpreadsheet] reads for a session: the latest
    first. *)
Definition session_variables (w : World) (sid : string) : list ChatVariable :=
  order_by (fun a b => Nat.leb (timestamp b) (timestamp a))
           (filter (fun v => String.eqb (sessionId v) sid) (ChatVariables w)).

(** What the append of an exported row shows to the outside. *)
Definition append_events (env : Env) (target : string) (row : list string)
  : list Event :=
  if sheets_values_append env target row
  then [Issued (SheetsValuesAppend target row);
        Settled (SheetsValuesAppend target row) true]
  else [Issued (SheetsValuesAppend target row);
        Settled (SheetsValuesAppend target row) false;
        ConsoleError "Error writing to spreadsheet:"].

(** The session's history as [Message.findAll] returns it. *)
Definition session_history (w : World) (sid : string) : list Message :=
  order_by (fun a b => Nat.leb (msg_timestamp a) (msg_timestamp b))
           (filter (fun m => String.eqb (msg_sessionId m) sid) (Messages w)).

(** The two messages of the extraction request of a session. *)
Definition extraction_messages (w : World) (sid : string) (headers : list string)
  : list ChatMsg :=
  [mkChatMsg "system" (extractionPrompt headers);
   mkChatMsg "user" (Js.join Js.nl (map content (session_history w sid)))].

(** The world after an extraction has stored [entries] and [tr] has been
    observed. *)
Definition after_extraction (w : World) (sid : string)
  (entries : list (string * Js.value)) (tr : list Event) : World :=
  mkWorld (ChatSessions w) (Messages w)
          (ChatVariables w ++ stamped sid entries (now w))
          (Settings w) (now w + List.length entries) (trace w ++ tr).

(** What the export of a session shows to the outside. *)
Definition export_trace (env : Env) (sid : string) (w : World) : list Event :=
  match target_of (Settings w) with
  | None => []
  | Some (gs, target) =>
      match session_variables w sid with
      | [] => []
      | _ :: _ =>
          append_events env target
            (export_rowData (headers_of (Some gs)) (session_variables w sid))
      end
  end.

(** The world once the messages and the session of [sid] are deleted. *)
Definition destroyed (sid : string) (w : World) : World :=
  mkWorld (filter (fun s => negb (String.eqb s sid)) (ChatSessions w))
          (filter (fun m => negb (String.eqb (msg_sessionId m) sid)) (Messages w))
          (ChatVariables w) (Settings w) (now w) (trace w).

(** The world after the extraction of a session whose backend answered
    with the object of [members]. *)
Definition extracted (w : World) (sid : string) (headers : list string)
  (members : list (string * Js.value)) : World :=
  after_extraction w sid
    (Js.entries (add_missing headers (Js.parse_members members)))
    [Issued (ChatCompletionsCreate (extraction_messages w sid headers) true);
     Settled (ChatCompletionsCreate (extraction_messages w sid headers) true) true].

(** The world after the teardown that follows such an extraction. *)
Definition torn_down (env : Env) (w : World) (sid : string) (headers : list string)
  (members : list (string * Js.value)) : World :=
  destroyed sid
    (add_trace (extracted w sid headers members)
               (export_trace env sid (extracted w sid headers members))).

(** ** Sample data *)

Module Sample.

Definition settings : GlobalSettings :=
  mkGlobalSettings "You are a helpful assistant." (Some ["s1"; "s2"; "s3"])
                   (Some ["https://a.example"]) (Some ["name"; "email"]) (Some "T").

(** A world where the socket [sock] has started a chat. *)
Definition world : World := mkWorld ["sock"] [] [] (Some settings) 0 [].

Definition sheet : list (list string) :=
  [["item"; "price"; "stock"]; ["tea"; "3"]; ["mug"; ""; "7"; "extra"]].

(** The sheet [s2] cannot be fetched, the others can; the completion
    backend answers. *)
Definition env : Env :=
  mkEnv (fun sheetId => if String.eqb sheetId "s2" then SheetRejected
                        else SheetValues (Some sheet))
        (fun _ => Some (mkWebpage "A" "about a"))
        (fun _ => CompletionContent (Some "Hello!"))
        (fun _ => ExtractionObject [("email", Js.VStr "a@x.com");
                                    ("age", Js.VNum 41)])
        (fun _ _ => true).

(** The same, with a completion backend that rejects the call. *)
Definition env_down : Env :=
  mkEnv (sheets_values_get env) (webpage_of env)
        (fun _ => CompletionRejected)
        (extraction_completion env) (sheets_values_append env).

Fixpoint repeat_char (c : ascii) (n : nat) : string :=
  match n with
  | O => EmptyString
  | S k => String c (repeat_char c k)
  end.

(** The same, with a completion backend that answers 503 characters. *)
Definition env_long : Env :=
  mkEnv (sheets_values_get env) (webpage_of env)
        (fun _ => CompletionContent (Some (repeat_char "a" 500 ++ "bcd")))
        (extraction_completion env) (sheets_values_append env).

(** Two sheets that can both be fetched. *)
Definition two_sheets : option (list string) := Some ["s1"; "s3"].

(** Stored variables of the session [sock]: a name and an e-mail address
    written in this order, and in the other order; a name written twice. *)
Definition name_then_email : World :=
  mkWorld [] []
          [mkChatVariable "sock" "name" "Ann" 4;
           mkChatVariable "other" "name" "Zed" 5;
           mkChatVariable "sock" "email" "a@x.com" 6]
          (Some settings) 7 [].

Definition email_then_name : World :=
  mkWorld [] []
          [mkChatVariable "sock" "email" "a@x.com" 4;
           mkChatVariable "other" "name" "Zed" 5;
           mkChatVariable "sock" "name" "Ann" 6]
          (Some settings) 7 [].

Definition name_twice : World :=
  mkWorld [] []
          [mkChatVariable "sock" "name" "Ann" 4;
           mkChatVariable "sock" "name" "Anna" 9;
           mkChatVariable "sock" "name" "" 6]
          (Some settings) 10 [].

(** A field list with a name that every object inherits, and a backend
    that answers the name alone. *)
Definition settings_inherited : GlobalSettings :=
  mkGlobalSettings "You are a helpful assistant." None None
                   (Some ["name"; "constructor"]) (Some "T").

Definition world_inherited : World :=
  mkWorld ["sock"] [mkMessage "sock" "user" "I am Ann" 0] []
          (Some settings_inherited) 1 [].

Definition env_inherited : Env :=
  mkEnv (sheets_values_get env) (webpage_of env) (chat_completion env)
        (fun _ => ExtractionObject [("name", Js.VStr "Ann")])
        (sheets_values_append env).

(** A session with one exchange. *)
Definition world_chat : World :=
  mkWorld ["sock"]
          [mkMessage "sock" "user" "I am Ann" 0;
           mkMessage "sock" "assistant" "Hello Ann" 1] []
          (Some settings) 2 [].

End Sample.

(** ** Administration routes *)

(** The JSON bodies the routes answer with. *)
Inductive Body : Type :=
| JsonError (error : string)
| JsonSuccess
| JsonPrompt (prompt_ : string)
| JsonSuccessSheetIds (sheetIds : list string)
| JsonSheetIds (sheetIds : list string)
| JsonSuccessUrls (urls : option (list string))
| JsonUrls (urls : list string)
| JsonVariables (variables : list ChatVariable)
| JsonExtractionSettings (headers : list string) (target : option string)
| JsonSuccessHeaders (headers : option (list string))
| JsonSuccessTarget (target : option string).

(** [res.status(status).json(body)]; [res.json(body)] answers 200. *)
Record Response : Type := mkResponse {
  status : nat;
  body : Body
}.

(** [globalSettings.save()]. *)
Definition GlobalSettings_save (gs : GlobalSettings) : M unit :=
  fun w => (Return tt,
            mkWorld (ChatSessions w) (Messages w) (ChatVariables w) (Some gs)
                    (now w) (trace w)).

Definition set_prompt (gs : GlobalSettings) (p : string) : GlobalSettings :=
  mkGlobalSettings p (knowledgeBaseSheetIds gs) (knowledgeBaseUrls gs)
                   (extractionHeaders gs) (targetSpreadsheetId gs).

Definition set_sheetIds (gs : GlobalSettings) (ids : option (list string))
  : GlobalSettings :=
  mkGlobalSettings (prompt gs) ids (knowledgeBaseUrls gs)
                   (extractionHeaders gs) (targetSpreadsheetId gs).

Definition set_urls (gs : GlobalSettings) (urls : option (list string))
  : GlobalSettings :=
  mkGlobalSettings (prompt gs) (knowledgeBaseSheetIds gs) urls
                   (extractionHeaders gs) (targetSpreadsheetId gs).

Definition set_headers (gs : GlobalSettings) (headers : option (list string))
  : GlobalSettings :=
  mkGlobalSettings (prompt gs) (knowledgeBaseSheetIds gs) (knowledgeBaseUrls gs)
                   headers (targetSpreadsheetId gs).

Definition set_target (gs : GlobalSettings) (target : option string)
  : GlobalSettings :=
  mkGlobalSettings (prompt gs) (knowledgeBaseSheetIds gs) (knowledgeBaseUrls gs)
                   (extractionHeaders gs) target.

Definition not_found : Response :=
  mkResponse 404 (JsonError "Global settings not found").

Definition server_error : Response := mkResponse 500 (JsonError "Server error").

(** [arr.includes(x)] and [arr.filter(y => y !== x)] on arrays of strings. *)
Definition includes (arr : list string) (x : string) : bool :=
  existsb (String.eqb x) arr.

Definition without (arr : list string) (x : string) : list string :=
  filter (fun y => negb (String.eqb y x)) arr.

(** [app.delete('/api/sessions/:sessionId', ...)]: the teardown of the
    named session, answered with success, or with 500 when a step throws. *)
Definition delete_session (env : Env) (sid : string) : M Response :=
  try_catch
    (teardown env sid ;;;
     ret (mkResponse 200 JsonSuccess))
    (fun _ => console_error "Error deleting session:" ;;;
              ret server_error).

(** [app.post('/api/prompt', ...)]. *)
Definition post_prompt (p : string) : M Response :=
  try_catch
    (globalSettings <- GlobalSettings_findByPk ;;
     match globalSettings with
     | None => ret not_found
     | Some gs =>
         GlobalSettings_save (set_prompt gs p) ;;;
         ret (mkResponse 200 JsonSuccess)
     end)
    (fun _ => console_error "Error updating prompt:" ;;; ret server_error).

(** [app.get('/api/prompt', ...)]. *)
Definition get_prompt : M Response :=
  try_catch
    (globalSettings <- GlobalSettings_findByPk ;;
     match globalSettings with
     | None => ret not_found
     | Some gs => ret (mkResponse 200 (JsonPrompt (prompt gs)))
     end)
    (fun _ => console_error "Error fetching prompt:" ;;; ret server_error).

(** [app.post('/api/knowledge-base', ...)] for the body [{ sheetId, action }].
    [accessible] is the outcome of [sheets.spreadsheets.get] for the sheet,
    a call the trace does not record. *)
Definition post_knowledge_base (accessible : bool) (sheetId action : string)
  : M Response :=
  try_catch
    (globalSettings <- GlobalSettings_findByPk ;;
     match globalSettings with
     | None => ret not_found
     | Some gs =>
         if negb accessible then
           console_error "Error validating sheet access:" ;;;
           ret (mkResponse 400 (JsonError "Invalid or inaccessible Google Sheet ID"))
         else
           gs <-
             (if String.eqb action "add" then
                match knowledgeBaseSheetIds gs with
                | None => throw "TypeError"
                | Some ids =>
                    if negb (includes ids sheetId)
                    then ret (set_sheetIds gs
                                (Some (ids_of (knowledgeBaseSheetIds gs) ++ [sheetId])%list))
                    else ret gs
                end
              else if String.eqb action "remove" then
                ret (set_sheetIds gs
                       (Some (without (ids_of (knowledgeBaseSheetIds gs)) sheetId)))
              else ret gs) ;;
           GlobalSettings_save gs ;;;
           ret (mkResponse 200
                  (JsonSuccessSheetIds (ids_of (knowledgeBaseSheetIds gs))))
     end)
    (fun _ => console_error "Error updating knowledge base:" ;;; ret server_error).

(** [app.get('/api/knowledge-base', ...)]. *)
Definition get_knowledge_base : M Response :=
  try_catch
    (globalSettings <- GlobalSettings_findByPk ;;
     match globalSettings with
     | None => ret not_found
     | Some gs =>
         ret (mkResponse 200 (JsonSheetIds (ids_of (knowledgeBaseSheetIds gs))))
     end)
    (fun _ => console_error "Error fetching knowledge base:" ;;; ret server_error).

(** [app.post('/api/knowledge-base-url', ...)] for the body [{ url, action }]:
    the page is fetched first, and the list is read without a default. *)
Definition post_knowledge_base_url (env : Env) (url action : string)
  : M Response :=
  try_catch
    (globalSettings <- GlobalSettings_findByPk ;;
     match globalSettings with
     | None => ret not_found
     | Some gs =>
         valid <- try_catch (fetchWebpageContent env url ;;; ret true)
                            (fun _ => ret false) ;;
         if negb valid then
           ret (mkResponse 400 (JsonError "Invalid or inaccessible URL"))
         else
           gs <-
             (if String.eqb action "add" then
                match knowledgeBaseUrls gs with
                | None => throw "TypeError"
                | Some urls =>
                    if negb (includes urls url)
                    then ret (set_urls gs (Some (urls ++ [url])%list))
                    else ret gs
                end
              else if String.eqb action "remove" then
                match knowledgeBaseUrls gs with
                | None => throw "TypeError"
                | Some urls => ret (set_urls gs (Some (without urls url)))
                end
              else ret gs) ;;
           GlobalSettings_save gs ;;;
           ret (mkResponse 200 (JsonSuccessUrls (knowledgeBaseUrls gs)))
     end)
    (fun _ => console_error "Error updating webpage knowledge base:" ;;;
              ret server_error).

(** [app.get('/api/knowledge-base-url', ...)]. *)
Definition get_knowledge_base_url : M Response :=
  try_catch
    (globalSettings <- GlobalSettings_findByPk ;;
     match globalSettings with
     | None => ret not_found
     | Some gs => ret (mkResponse 200 (JsonUrls (ids_of (knowledgeBaseUrls gs))))
     end)
    (fun _ => console_error "Error fetching webpage knowledge base:" ;;;
              ret server_error).

(** [app.get('/api/sessions/:sessionId/variables', ...)]. *)
Definition get_variables (sid : string) : M Response :=
  try_catch
    (variables <- ChatVariable_findAll sid ;;
     ret (mkResponse 200 (JsonVariables variables)))
    (fun _ => console_error "Error fetching variables:" ;;; ret server_error).

(** [app.get('/api/extraction-settings', ...)]. *)
Definition get_extraction_settings : M Response :=
  try_catch
    (globalSettings <- GlobalSettings_findByPk ;;
     match globalSettings with
     | None => ret not_found
     | Some gs =>
         ret (mkResponse 200
                (JsonExtractionSettings (headers_of (Some gs))
                                        (targetSpreadsheetId gs)))
     end)
    (fun _ => console_error "Error fetching extraction settings:" ;;;
              ret server_error).

(** [app.post('/api/extraction-headers', ...)] for the body [{ headers }]. *)
Definition post_extraction_headers (headers : list string) : M Response :=
  try_catch
    (globalSettings <- GlobalSettings_findByPk ;;
     match globalSettings with
     | None => ret not_found
     | Some gs =>
         let gs := set_headers gs (Some headers) in
         GlobalSettings_save gs ;;;
         ret (mkResponse 200 (JsonSuccessHeaders (extractionHeaders gs)))
     end)
    (fun _ => console_error "Error updating extraction headers:" ;;;
              ret server_error).

(** [app.post('/api/target-spreadsheet', ...)] for the body
    [{ spreadsheetId }]; [accessible] is the outcome of
    [sheets.spreadsheets.get], as above. *)
Definition post_target_spreadsheet (accessible : bool) (spreadsheetId : string)
  : M Response :=
  try_catch
    (globalSettings <- GlobalSettings_findByPk ;;
     match globalSettings with
     | None => ret not_found
     | Some gs =>
         if negb accessible then
           console_error "Error validating sheet access:" ;;;
           ret (mkResponse 400 (JsonError "Invalid or inaccessible Google Sheet ID"))
         else
           let gs := set_target gs (Some spreadsheetId) in
           GlobalSettings_save gs ;;;
           ret (mkResponse 200 (JsonSuccessTarget (targetSpreadsheetId gs)))
     end)
    (fun _ => console_error "Error updating target spreadsheet:" ;;;
              ret server_error).

(** [formatWebpageContentForContext]: the text of one page. *)
Definition formatWebpageContentForContext (webpageData : Webpage) : string :=
  "Webpage Knowledge Base:" ++ Js.nl
  ++ "Title: " ++ title webpageData ++ Js.nl
  ++ "Content: " ++ body_text webpageData.

(** What the page [url] contributes to the knowledge block. *)
Definition rendered_webpage (env : Env) (url : string) : string :=
  match webpage_of env url with
  | Some webpageData =>
      (Js.nl ++ "Content from " ++ url ++ ":" ++ Js.nl)
      ++ ("Title: " ++ title webpageData ++ Js.nl)
      ++ ("Content: " ++ body_text webpageData ++ Js.nl)
  | None => ""
  end.

(** The world with other settings. *)
Definition with_settings (w : World) (gs : GlobalSettings) : World :=
  mkWorld (ChatSessions w) (Messages w) (ChatVariables w) (Some gs)
          (now w) (trace w).

(** The requests for an answer of the assistant in a trace. *)
Definition is_chat_request (e : Event) : bool :=
  match e with
  | Issued (ChatCompletionsCreate _ false) => true
  | _ => false
  end.

(** The context blocks a turn puts in front of the system prompt. *)
Definition context_messages (env : Env) (gs : GlobalSettings) : list ChatMsg :=
  ((if configured (knowledgeBaseUrls gs)
    then [mkChatMsg "system"
            ("Additional Context:" ++ Js.nl
             ++ webpages_block env (ids_of (knowledgeBaseUrls gs)))]
    else [])
   ++ (if configured (knowledgeBaseSheetIds gs)
       then [mkChatMsg "system"
               ("Additional Context:" ++ Js.nl
                ++ sheets_block env (ids_of (knowledgeBaseSheetIds gs)))]
       else []))%list.

(** A message as the completion request carries it. *)
Definition formatted (msg : Message) : ChatMsg :=
  mkChatMsg (role msg) (content msg).

(** Whether the fetch of a sheet, or of a page, is fulfilled. *)
Definition sheet_fetched (env : Env) (sheetId : string) : bool :=
  match sheets_values_get env sheetId with
  | SheetValues _ => true
  | SheetRejected => false
  end.

Definition page_fetched (env : Env) (url : string) : bool :=
  match webpage_of env url with
  | Some _ => true
  | None => false
  end.

Definition is_console_error (e : Event) : bool :=
  match e with
  | ConsoleError _ => true
  | _ => false
  end.

(** What a teardown of [sid] may change between two worlds: it leaves the
    settings, stores variables of [sid] only, never removes a stored
    variable, and neither adds a session or a message nor removes those of
    another session. *)
Definition torn_apart (sid : string) (w w' : World) : Prop :=
  Settings w' = Settings w
  /\ (exists stored,
        ChatVariables w' = (ChatVariables w ++ stored)%list
        /\ forall v, In v stored -> sessionId v = sid)
  /\ (forall s, In s (ChatSessions w') -> In s (ChatSessions w))
  /\ (forall m, In m (Messages w') -> In m (Messages w))
  /\ (forall s, s <> sid -> In s (ChatSessions w) -> In s (ChatSessions w'))
  /\ (forall m, msg_sessionId m <> sid -> In m (Messages w) -> In m (Messages w')).

(** * Properties *)

(** ** JavaScript values *)

Example js_entries_order :
  Js.keys (Js.parse_members [("b", Js.VNull); ("10", Js.VNull); ("a", Js.VNull);
                              ("2", Js.VNull); ("b", Js.VBool true); ("01", Js.VNull)])
  = ["2"; "10"; "b"; "a"; "01"].
Proof. reflexivity. Qed.

Example js_tostring :
  map Js.ToString [Js.VStr "x"; Js.VNum (-12); Js.VNum 0; Js.VNull;
                   Js.VArr [Js.VNum 1; Js.VNull; Js.VStr "a"]; Js.VObj]
  = ["x"; "-12"; "0"; "null"; "1,,a"; "[object Object]"].
Proof. reflexivity. Qed.

Example js_in_inherited :
  Js.has "constructor" [] = true /\ Js.has "name" [] = false.
Proof. split; reflexivity. Qed.

(** ** Running the effects *)

Lemma add_trace_nil (w : World) : add_trace w [] = w.
Proof. destruct w; unfold add_trace; simpl; now rewrite app_nil_r. Qed.

Lemma add_trace_app (w : World) (a b : list Event) :
  add_trace (add_trace w a) b = add_trace w (a ++ b).
Proof. unfold add_trace; simpl; now rewrite app_assoc. Qed.

Lemma observe_run (e : Event) (w : World) :
  observe e w = (Return tt, add_trace w [e]).
Proof. reflexivity. Qed.

Lemma await_fulfilled {A : Type} (r : Request) (a : A) (w : World) :
  await r (Some a) w = (Return a, add_trace w [Issued r; Settled r true]).
Proof.
  unfold await, bind. rewrite !observe_run, add_trace_app. reflexivity.
Qed.

Lemma await_rejected {A : Type} (r : Request) (w : World) :
  await r (@None A) w = (Throw "rejected", add_trace w [Issued r; Settled r false]).
Proof.
  unfold await, bind. rewrite !observe_run, add_trace_app. reflexivity.
Qed.

Lemma fetchSheetData_run (env : Env) (sheetId : string) (w : World) :
  fetchSheetData env sheetId w =
  (match sheets_values_get env sheetId with
   | SheetValues values => Return values
   | SheetRejected => Throw "rejected"
   end,
   add_trace w (match sheets_values_get env sheetId with
                | SheetValues _ =>
                    [Issued (SheetsValuesGet sheetId);
                     Settled (SheetsValuesGet sheetId) true]
                | SheetRejected =>
                    [Issued (SheetsValuesGet sheetId);
                     Settled (SheetsValuesGet sheetId) false;
                     ConsoleError "Error fetching sheet data:"]
                end)).
Proof.
  unfold fetchSheetData, try_catch.
  destruct (sheets_values_get env sheetId).
  - rewrite await_rejected. unfold bind, console_error, throw.
    rewrite observe_run, add_trace_app. reflexivity.
  - rewrite await_fulfilled. reflexivity.
Qed.

Lemma sheets_loop_run (env : Env) (sheetIds : list string) :
  forall (allContext : string) (w : World),
    sheets_loop env sheetIds allContext w =
    (Return (sheets_context env sheetIds allContext),
     add_trace w (sheets_trace env sheetIds)).
Proof.
  induction sheetIds as [|sheetId rest IH]; intros allContext w.
  - simpl. unfold ret. now rewrite add_trace_nil.
  - simpl. unfold bind at 1. unfold try_catch, bind at 1.
    rewrite fetchSheetData_run. unfold sheet_events.
    destruct (sheets_values_get env sheetId).
    + unfold bind, console_error, ret. rewrite observe_run, IH.
      rewrite !add_trace_app. reflexivity.
    + unfold ret. rewrite IH, add_trace_app. reflexivity.
Qed.

Lemma formatAllSheetDataForContext_run (env : Env) (sheetId : string)
  (rest : list string) (w : World) :
  formatAllSheetDataForContext env (Some (sheetId :: rest)) w =
  (Return (sheets_block env (sheetId :: rest)),
   add_trace w (sheets_trace env (sheetId :: rest))).
Proof. unfold formatAllSheetDataForContext. now rewrite sheets_loop_run. Qed.

Lemma fetchWebpageContent_run (env : Env) (url : string) (w : World) :
  fetchWebpageContent env url w =
  (match webpage_of env url with
   | Some page => Return page
   | None => Throw "rejected"
   end,
   add_trace w (match webpage_of env url with
                | Some _ => [Issued (AxiosGet url); Settled (AxiosGet url) true]
                | None => [Issued (AxiosGet url); Settled (AxiosGet url) false;
                           ConsoleError "Error fetching webpage:"]
                end)).
Proof.
  unfold fetchWebpageContent, try_catch.
  destruct (webpage_of env url).
  - rewrite await_fulfilled. reflexivity.
  - rewrite await_rejected. unfold bind, console_error, throw.
    rewrite observe_run, add_trace_app. reflexivity.
Qed.

Lemma webpages_loop_run (env : Env) (urls : list string) :
  forall (allContext : string) (w : World),
    webpages_loop env urls allContext w =
    (Return (webpages_context env urls allContext),
     add_trace w (webpages_trace env urls)).
Proof.
  induction urls as [|url rest IH]; intros allContext w.
  - simpl. unfold ret. now rewrite add_trace_nil.
  - simpl. unfold bind at 1. unfold try_catch, bind at 1.
    rewrite fetchWebpageContent_run. unfold webpage_events.
    destruct (webpage_of env url).
    + unfold ret. rewrite IH, add_trace_app. reflexivity.
    + unfold bind, console_error, ret. rewrite observe_run, IH.
      rewrite !add_trace_app. reflexivity.
Qed.

Lemma formatAllWebpageContentForContext_run (env : Env) (url : string)
  (rest : list string) (w : World) :
  formatAllWebpageContentForContext env (Some (url :: rest)) w =
  (Return (webpages_block env (url :: rest)),
   add_trace w (webpages_trace env (url :: rest))).
Proof. unfold formatAllWebpageContentForContext. now rewrite webpages_loop_run. Qed.

Lemma find_session (sid : string) (l : list string) :
  In sid l -> find (String.eqb sid) l = Some sid.
Proof.
  induction l as [|x l IH]; simpl; [tauto|].
  intros [->|H].
  - now rewrite String.eqb_refl.
  - destruct (String.eqb sid x) eqn:E.
    + apply String.eqb_eq in E. now subst.
    + auto.
Qed.

Lemma on_message_run (env : Env) (sid text : string) (w : World)
  (gs : GlobalSettings) :
  In sid (ChatSessions w) ->
  Settings w = Some gs ->
  let request :=
    ChatCompletionsCreate (turn_messages env gs (history_with w sid text)) false in
  let before :=
    (context_trace env gs ++ [SocketEmit "typing" "assistant"; Issued request])%list in
  on_message env sid text w =
  (Return tt,
   match chat_completion env (turn_messages env gs (history_with w sid text)) with
   | CompletionContent (Some assistantMessageRaw) =>
       after_turn w sid text (limit_length assistantMessageRaw)
         (before ++ [Settled request true;
                     SocketEmit "stopTyping" "assistant";
                     SocketEmit "response" (limit_length assistantMessageRaw)])
   | CompletionContent None =>
       after_user w sid text
         (before ++ [Settled request true;
                     ConsoleError "Error:";
                     SocketEmit "error" "An error occurred"])
   | CompletionRejected =>
       after_user w sid text
         (before ++ [Settled request false;
                     ConsoleError "Error:";
                     SocketEmit "error" "An error occurred"])
   end).
Proof.
  intros Hsession Hsettings request before.
  unfold on_message. unfold try_catch at 1.
  unfold bind at 1. unfold ChatSession_findByPk.
  rewrite (find_session _ _ Hsession).
  unfold bind at 1. unfold Message_create at 1.
  unfold bind at 1. unfold Message_findAll at 1.
  unfold bind at 1. unfold GlobalSettings_findByPk at 1.
  cbn [Settings Messages ChatSessions ChatVariables now trace].
  rewrite Hsettings.
  fold (history_with w sid text).
  set (w1 := mkWorld _ _ _ _ _ _).
  assert (Hw1 : forall tr, add_trace w1 tr = after_user w sid text tr).
  { intros tr. unfold after_user, add_trace, w1. simpl. now rewrite Hsettings. }
  set (base := mkChatMsg "system" (prompt gs) :: _).
  unfold bind at 1.
  assert (Hsheets :
    (if configured (knowledgeBaseSheetIds gs)
     then try_catch
            (knowledgeContext <-
               formatAllSheetDataForContext env (knowledgeBaseSheetIds gs) ;;
             ret (mkChatMsg "system"
                    ("Additional Context:" ++ Js.nl ++ knowledgeContext) :: base))
            (fun _ => console_error "Error fetching knowledge bases:" ;;; ret base)
     else ret base) w1
    = (Return (if configured (knowledgeBaseSheetIds gs)
               then mkChatMsg "system"
                      ("Additional Context:" ++ Js.nl
                       ++ sheets_block env (ids_of (knowledgeBaseSheetIds gs)))
                    :: base
               else base),
       add_trace w1 (sheets_trace env (ids_of (knowledgeBaseSheetIds gs))))).
  { destruct (knowledgeBaseSheetIds gs) as [[|s0 ss]|]; unfold configured, ids_of; cbv iota.
    - unfold ret. now rewrite add_trace_nil.
    - unfold try_catch, bind. rewrite formatAllSheetDataForContext_run. reflexivity.
    - unfold ret. now rewrite add_trace_nil. }
  rewrite Hsheets. clear Hsheets.
  set (with_sheets := if configured (knowledgeBaseSheetIds gs) then _ else _).
  unfold bind at 1.
  assert (Hpages :
    forall w2,
    (if configured (knowledgeBaseUrls gs)
     then try_catch
            (webpageContext <-
               formatAllWebpageContentForContext env (knowledgeBaseUrls gs) ;;
             ret (mkChatMsg "system"
                    ("Additional Context:" ++ Js.nl ++ webpageContext) :: with_sheets))
            (fun _ => console_error "Error fetching webpage content:" ;;;
                      ret with_sheets)
     else ret with_sheets) w2
    = (Return (turn_messages env gs (history_with w sid text)),
       add_trace w2 (webpages_trace env (ids_of (knowledgeBaseUrls gs))))).
  { intros w2. unfold turn_messages. fold base. fold with_sheets.
    destruct (knowledgeBaseUrls gs) as [[|u0 us]|]; unfold configured, ids_of; cbv iota.
    - unfold ret. now rewrite add_trace_nil.
    - unfold try_catch, bind. rewrite formatAllWebpageContentForContext_run.
      reflexivity.
    - unfold ret. now rewrite add_trace_nil. }
  rewrite Hpages. clear Hpages.
  rewrite add_trace_app. fold (context_trace env gs).
  unfold bind at 1. unfold socket_emit at 1. rewrite observe_run, add_trace_app.
  unfold bind at 1. unfold create_completion.
  destruct (chat_completion env (turn_messages env gs (history_with w sid text)))
    as [|[raw|]].
  - rewrite await_rejected, add_trace_app.
    unfold bind, console_error, socket_emit. rewrite !observe_run, !add_trace_app.
    rewrite Hw1. subst before request. now rewrite <- !app_assoc.
  - rewrite await_fulfilled, add_trace_app.
    unfold bind, socket_emit, Message_create. rewrite !observe_run.
    subst before request. unfold after_turn, add_trace. simpl.
    rewrite Hsettings, <- !app_assoc. reflexivity.
  - rewrite await_fulfilled, add_trace_app.
    unfold throw, bind, console_error, socket_emit.
    rewrite !observe_run, !add_trace_app.
    rewrite Hw1. subst before request. now rewrite <- !app_assoc.
Qed.

(** ** The turn: truncation and failure of the completion call *)

Lemma slice0_prefix (n : nat) :
  forall s : string,
    n <= String.length s ->
    exists rest, s = Js.slice0 n s ++ rest /\ String.length (Js.slice0 n s) = n.
Proof.
  unfold Js.slice0.
  induction n as [|n IH]; intros s Hn.
  - exists s. destruct s; simpl; auto.
  - destruct s as [|c s]; simpl in Hn; [lia|].
    destruct (IH s) as [rest [Hs Hl]]; [lia|].
    exists rest. simpl. split; [now rewrite <- Hs | now rewrite Hl].
Qed.

Lemma In_insert_by {A : Type} (before : A -> A -> bool) (x y : A) (l : list A) :
  In y (insert_by before x l) <-> y = x \/ In y l.
Proof.
  induction l as [|z l IH]; simpl.
  - intuition.
  - destruct (before x z); simpl; rewrite ?IH; intuition.
Qed.

Lemma In_order_by {A : Type} (before : A -> A -> bool) (y : A) (l : list A) :
  In y (order_by before l) <-> In y l.
Proof.
  induction l as [|x l IH]; simpl; [tauto|].
  rewrite In_insert_by, IH. intuition.
Qed.

(** C3. When the completion backend answers a turn with a text, the
    assistant message that is stored and the one that is emitted are the
    same text: the first 500 characters of the answer followed by the
    marker "..." when the answer is longer than 500 characters, and the
    answer itself otherwise. *)
Theorem C3_truncation (env : Env) (sid text : string) (w : World)
  (gs : GlobalSettings) (assistantMessageRaw : string) :
  In sid (ChatSessions w) ->
  Settings w = Some gs ->
  chat_completion env (turn_messages env gs (history_with w sid text))
    = CompletionContent (Some assistantMessageRaw) ->
  exists assistantMessage : string,
    (Messages (exec (on_message env sid text) w)
     = (Messages w ++ [mkMessage sid "user" text (now w)])
       ++ [mkMessage sid "assistant" assistantMessage (S (now w))])%list
    /\ (exists tr, trace (exec (on_message env sid text) w)
                   = (trace w ++ tr ++ [SocketEmit "response" assistantMessage])%list)
    /\ (MAX_LENGTH < String.length assistantMessageRaw ->
        exists first rest,
          assistantMessageRaw = first ++ rest
          /\ String.length first = MAX_LENGTH
          /\ assistantMessage = first ++ "...")
    /\ (String.length assistantMessageRaw <= MAX_LENGTH ->
        assistantMessage = assistantMessageRaw).
Proof.
  intros Hsession Hsettings Hanswer.
  exists (limit_length assistantMessageRaw).
  unfold exec. rewrite (on_message_run env sid text w Hsession Hsettings).
  rewrite Hanswer. cbn [snd after_turn Messages trace].
  split; [reflexivity|]. split.
  - match goal with
    | |- context [Settled ?r true] =>
        exists ((context_trace env gs ++ [SocketEmit "typing" "assistant"; Issued r])
                ++ [Settled r true; SocketEmit "stopTyping" "assistant"])%list
    end.
    now rewrite <- !app_assoc.
  - unfold limit_length. split; intros Hlen.
    + apply Nat.ltb_lt in Hlen as Hlt. rewrite Hlt.
      destruct (slice0_prefix (n:=MAX_LENGTH) assistantMessageRaw) as [rest [Hs Hl]];
        [lia|].
      exists (Js.slice0 MAX_LENGTH assistantMessageRaw), rest. auto.
    + destruct (Nat.ltb_spec MAX_LENGTH (String.length assistantMessageRaw));
        [lia | reflexivity].
Qed.

Lemma C3_truncation_witness :
  exists assistantMessage : string,
    (Messages (exec (on_message Sample.env_long "sock" "hi") Sample.world)
     = (Messages Sample.world ++ [mkMessage "sock" "user" "hi" (now Sample.world)])
       ++ [mkMessage "sock" "assistant" assistantMessage (S (now Sample.world))])%list
    /\ (exists tr, trace (exec (on_message Sample.env_long "sock" "hi") Sample.world)
                   = (trace Sample.world ++ tr
                      ++ [SocketEmit "response" assistantMessage])%list)
    /\ (MAX_LENGTH < String.length (Sample.repeat_char "a" 500 ++ "bcd") ->
        exists first rest,
          Sample.repeat_char "a" 500 ++ "bcd" = first ++ rest
          /\ String.length first = MAX_LENGTH
          /\ assistantMessage = first ++ "...")
    /\ (String.length (Sample.repeat_char "a" 500 ++ "bcd") <= MAX_LENGTH ->
        assistantMessage = Sample.repeat_char "a" 500 ++ "bcd").
Proof.
  apply (@C3_truncation Sample.env_long "sock" "hi" Sample.world Sample.settings
           (Sample.repeat_char "a" 500 ++ "bcd")).
  - simpl. auto.
  - reflexivity.
  - reflexivity.
Defined.

Example limit_length_long :
  limit_length (Sample.repeat_char "a" 500 ++ "bcd") = Sample.repeat_char "a" 500 ++ "..."
  /\ limit_length (Sample.repeat_char "a" 500) = Sample.repeat_char "a" 500
  /\ limit_length "Hello!" = "Hello!".
Proof. repeat split; vm_compute; reflexivity. Qed.

(** C7. When the completion call of a turn is rejected, the handler emits
    the error event to the caller and the only message the turn has stored
    is the user's: no assistant message is added. *)
Theorem C7_completion_failure (env : Env) (sid text : string) (w : World)
  (gs : GlobalSettings) :
  In sid (ChatSessions w) ->
  Settings w = Some gs ->
  chat_completion env (turn_messages env gs (history_with w sid text))
    = CompletionRejected ->
  (exists tr, trace (exec (on_message env sid text) w)
              = (trace w ++ tr ++ [SocketEmit "error" "An error occurred"])%list)
  /\ (forall m, In m (Messages (exec (on_message env sid text) w)) ->
                role m = "assistant" -> In m (Messages w))
  /\ List.length (filter (fun m => String.eqb (role m) "assistant")
                         (Messages (exec (on_message env sid text) w)))
     = List.length (filter (fun m => String.eqb (role m) "assistant") (Messages w)).
Proof.
  intros Hsession Hsettings Hfail.
  unfold exec. rewrite (on_message_run env sid text w Hsession Hsettings).
  rewrite Hfail. cbn [snd after_user Messages trace].
  split; [|split].
  - match goal with
    | |- context [Settled ?r false] =>
        exists ((context_trace env gs ++ [SocketEmit "typing" "assistant"; Issued r])
                ++ [Settled r false; ConsoleError "Error:"])%list
    end.
    now rewrite <- !app_assoc.
  - intros m Hm Hrole. apply in_app_or in Hm as [Hm|[<-|[]]]; [assumption|].
    discriminate Hrole.
  - rewrite filter_app. simpl. now rewrite app_nil_r.
Qed.

Lemma C7_completion_failure_witness :
  (exists tr, trace (exec (on_message Sample.env_down "sock" "hi") Sample.world)
              = (trace Sample.world ++ tr
                 ++ [SocketEmit "error" "An error occurred"])%list)
  /\ (forall m, In m (Messages (exec (on_message Sample.env_down "sock" "hi")
                                     Sample.world)) ->
                role m = "assistant" -> In m (Messages Sample.world))
  /\ List.length (filter (fun m => String.eqb (role m) "assistant")
                         (Messages (exec (on_message Sample.env_down "sock" "hi")
                                         Sample.world)))
     = List.length (filter (fun m => String.eqb (role m) "assistant")
                           (Messages Sample.world)).
Proof.
  apply (@C7_completion_failure Sample.env_down "sock" "hi" Sample.world
           Sample.settings).
  - simpl. auto.
  - reflexivity.
  - reflexivity.
Defined.

(** C10. When the completion call of a turn is rejected, the user message
    stored at the start of the turn stays in the table and in the history
    of the session: the turn stores the user's side alone. *)
Theorem C10_user_message_kept (env : Env) (sid text : string) (w : World)
  (gs : GlobalSettings) :
  In sid (ChatSessions w) ->
  Settings w = Some gs ->
  chat_completion env (turn_messages env gs (history_with w sid text))
    = CompletionRejected ->
  Messages (exec (on_message env sid text) w)
  = (Messages w ++ [mkMessage sid "user" text (now w)])%list
  /\ exists history,
       result (Message_findAll sid) (exec (on_message env sid text) w)
       = Return history
       /\ In (mkMessage sid "user" text (now w)) history.
Proof.
  intros Hsession Hsettings Hfail.
  unfold exec. rewrite (on_message_run env sid text w Hsession Hsettings).
  rewrite Hfail. cbn [snd after_user Messages].
  split; [reflexivity|].
  eexists. split; [reflexivity|].
  cbn [after_user Messages]. apply In_order_by.
  apply filter_In. split.
  - apply in_or_app. right. simpl. auto.
  - simpl. apply String.eqb_refl.
Qed.

Lemma C10_user_message_kept_witness :
  Messages (exec (on_message Sample.env_down "sock" "hi") Sample.world)
  = (Messages Sample.world ++ [mkMessage "sock" "user" "hi" (now Sample.world)])%list
  /\ exists history,
       result (Message_findAll "sock")
              (exec (on_message Sample.env_down "sock" "hi") Sample.world)
       = Return history
       /\ In (mkMessage "sock" "user" "hi" (now Sample.world)) history.
Proof.
  apply (@C10_user_message_kept Sample.env_down "sock" "hi" Sample.world
           Sample.settings).
  - simpl. auto.
  - reflexivity.
  - reflexivity.
Defined.

(** ** The knowledge block of the sheets *)

Lemma string_app_assoc (a b c : string) : (a ++ b) ++ c = a ++ (b ++ c).
Proof. induction a as [|x a IH]; simpl; [reflexivity | now rewrite IH]. Qed.

Lemma string_app_nil_r (a : string) : a ++ "" = a.
Proof. induction a as [|x a IH]; simpl; [reflexivity | now rewrite IH]. Qed.

Lemma concat_all_app (l1 l2 : list string) :
  concat_all (l1 ++ l2) = concat_all l1 ++ concat_all l2.
Proof.
  induction l1 as [|x l1 IH]; simpl; [reflexivity|].
  now rewrite IH, string_app_assoc.
Qed.

Lemma fold_rows_app (headers : list string) (rows : list (list string)) :
  forall acc : string,
    fold_left (fun acc row => acc ++ (rowData headers row ++ Js.nl)) rows acc
    = acc ++ concat_all (map (fun row => rowData headers row ++ Js.nl) rows).
Proof.
  induction rows as [|row rows IH]; intros acc; simpl.
  - now rewrite string_app_nil_r.
  - now rewrite IH, string_app_assoc.
Qed.

Lemma add_sheet_app (allContext sheetId : string)
  (sheetData : option (list (list string))) :
  add_sheet allContext sheetId sheetData
  = allContext ++ add_sheet "" sheetId sheetData.
Proof.
  destruct sheetData as [[|headers rows]|]; simpl;
    try now rewrite string_app_nil_r.
  rewrite !fold_rows_app. simpl. now rewrite string_app_assoc.
Qed.

Lemma sheets_context_rendered (env : Env) (sheetIds : list string) :
  forall allContext : string,
    sheets_context env sheetIds allContext
    = allContext ++ concat_all (map (rendered_sheet env) sheetIds).
Proof.
  unfold sheets_context.
  induction sheetIds as [|sheetId rest IH]; intros allContext; simpl.
  - now rewrite string_app_nil_r.
  - rewrite IH. unfold rendered_sheet at 2.
    destruct (sheets_values_get env sheetId).
    + reflexivity.
    + now rewrite add_sheet_app, string_app_assoc.
Qed.

(** C6. When one of the configured sheets cannot be fetched and the others
    can, the knowledge block is the label followed by what each of the
    other sheets renders to, in configured order, and nothing for the
    failed one; the block is sent to the completion backend as a system
    message, and the turn ends with the assistant's answer stored and
    emitted. *)
Theorem C6_failed_sheet_omitted (env : Env) (sid text : string) (w : World)
  (gs : GlobalSettings) (before : list string) (failed : string)
  (after : list string) (assistantMessageRaw : string) :
  In sid (ChatSessions w) ->
  Settings w = Some gs ->
  knowledgeBaseSheetIds gs = Some (before ++ failed :: after)%list ->
  sheets_values_get env failed = SheetRejected ->
  (forall sheetId, In sheetId (before ++ after) ->
                   exists values, sheets_values_get env sheetId = SheetValues values) ->
  chat_completion env (turn_messages env gs (history_with w sid text))
    = CompletionContent (Some assistantMessageRaw) ->
  let block :=
    ("Knowledge Base Information:" ++ Js.nl)
    ++ concat_all (map (rendered_sheet env) (before ++ after)) in
  result (formatAllSheetDataForContext env (knowledgeBaseSheetIds gs)) w
  = Return block
  /\ In (mkChatMsg "system" ("Additional Context:" ++ Js.nl ++ block))
        (turn_messages env gs (history_with w sid text))
  /\ In (Issued (ChatCompletionsCreate
                   (turn_messages env gs (history_with w sid text)) false))
        (trace (exec (on_message env sid text) w))
  /\ In (mkMessage sid "assistant" (limit_length assistantMessageRaw) (S (now w)))
        (Messages (exec (on_message env sid text) w))
  /\ exists tr, trace (exec (on_message env sid text) w)
                = (trace w ++ tr
                   ++ [SocketEmit "response" (limit_length assistantMessageRaw)])%list.
Proof.
  intros Hsession Hsettings Hids Hfailed Hothers Hanswer block.
  assert (Hblock : sheets_block env (before ++ failed :: after) = block).
  { unfold sheets_block. rewrite sheets_context_rendered. subst block.
    rewrite !map_app, !concat_all_app. simpl.
    unfold rendered_sheet at 2. now rewrite Hfailed. }
  assert (Hcons : exists x l, (before ++ failed :: after)%list = x :: l).
  { destruct before; simpl; eauto. }
  destruct Hcons as [x [l Hcons]].
  split; [|split].
  - rewrite Hids, Hcons. unfold result.
    rewrite formatAllSheetDataForContext_run. simpl. now rewrite <- Hcons, Hblock.
  - unfold turn_messages. rewrite Hids. unfold ids_of.
    rewrite Hblock.
    assert (Hconf : configured (Some (before ++ failed :: after)%list) = true)
      by now rewrite Hcons.
    rewrite Hconf.
    destruct (configured (knowledgeBaseUrls gs)); simpl; auto.
  - unfold exec. rewrite (on_message_run env sid text w Hsession Hsettings).
    rewrite Hanswer. cbn [snd after_turn Messages trace].
    split; [|split].
    + apply in_or_app. right. apply in_or_app. left.
      apply in_or_app. right. simpl. auto.
    + apply in_or_app. right. simpl. auto.
    + match goal with
      | |- context [Settled ?r true] =>
          exists ((context_trace env gs ++ [SocketEmit "typing" "assistant"; Issued r])
                  ++ [Settled r true; SocketEmit "stopTyping" "assistant"])%list
      end.
      now rewrite <- !app_assoc.
Qed.

Lemma C6_failed_sheet_omitted_witness :
  let block :=
    ("Knowledge Base Information:" ++ Js.nl)
    ++ concat_all (map (rendered_sheet Sample.env) (["s1"] ++ ["s3"])) in
  result (formatAllSheetDataForContext Sample.env
            (knowledgeBaseSheetIds Sample.settings)) Sample.world
  = Return block
  /\ In (mkChatMsg "system" ("Additional Context:" ++ Js.nl ++ block))
        (turn_messages Sample.env Sample.settings
           (history_with Sample.world "sock" "hi"))
  /\ In (Issued (ChatCompletionsCreate
                   (turn_messages Sample.env Sample.settings
                      (history_with Sample.world "sock" "hi")) false))
        (trace (exec (on_message Sample.env "sock" "hi") Sample.world))
  /\ In (mkMessage "sock" "assistant" (limit_length "Hello!") (S (now Sample.world)))
        (Messages (exec (on_message Sample.env "sock" "hi") Sample.world))
  /\ exists tr, trace (exec (on_message Sample.env "sock" "hi") Sample.world)
                = (trace Sample.world ++ tr
                   ++ [SocketEmit "response" (limit_length "Hello!")])%list.
Proof.
  apply (@C6_failed_sheet_omitted Sample.env "sock" "hi" Sample.world
           Sample.settings ["s1"] "s2" ["s3"] "Hello!").
  - simpl. auto.
  - reflexivity.
  - reflexivity.
  - reflexivity.
  - simpl. intros sheetId [<-|[<-|[]]]; eexists; reflexivity.
  - reflexivity.
Defined.

Example sample_knowledge_block :
  result (formatAllSheetDataForContext Sample.env (Some ["s1"; "s2"; "s3"]))
         Sample.world
  = Return ("Knowledge Base Information:" ++ Js.nl
            ++ Js.nl ++ "Data from Sheet s1:" ++ Js.nl
            ++ "item: tea, price: 3, stock: " ++ Js.nl
            ++ "item: mug, price: , stock: 7" ++ Js.nl
            ++ Js.nl ++ "Data from Sheet s3:" ++ Js.nl
            ++ "item: tea, price: 3, stock: " ++ Js.nl
            ++ "item: mug, price: , stock: 7" ++ Js.nl).
Proof. reflexivity. Qed.

(** ** Rendering of a sheet *)

Lemma mapi_from_seq {A B : Type} (f : A -> nat -> B) (d : A) (l : list A) :
  forall i : nat,
    Js.mapi_from i f l
    = map (fun index => f (nth (index - i) l d) index) (seq i (List.length l)).
Proof.
  induction l as [|x l IH]; intros i; simpl; [reflexivity|].
  rewrite Nat.sub_diag. f_equal. rewrite IH.
  apply map_ext_in. intros k Hk. apply in_seq in Hk.
  replace (k - i) with (S (k - S i)) by lia. reflexivity.
Qed.

Lemma or_empty_nth (row : list string) :
  forall index : nat, Js.or_empty (nth_error row index) = nth index row "".
Proof.
  induction row as [|c row IH]; intros [|index]; simpl; try reflexivity.
  - now destruct c.
  - apply IH.
Qed.

(** C8. A row of a fetched sheet is rendered over the headers of the first
    row: one "header: value" segment per header, joined by ", ", where the
    value is the row's cell at the header's position and the empty string
    when that cell is empty or missing.  The number of segments is the
    number of headers whatever the row's length, and the sheet's text is
    its label followed by these lines. *)
Theorem C8_row_rendering (sheetId : string) (headers : list string)
  (rows : list (list string)) (row : list string) :
  let segment (cells : list string) (index : nat) :=
    nth index headers "" ++ ": " ++ nth index cells "" in
  row_cells headers row = map (segment row) (seq 0 (List.length headers))
  /\ List.length (row_cells headers row) = List.length headers
  /\ rowData headers row = Js.join ", " (map (segment row) (seq 0 (List.length headers)))
  /\ add_sheet "" sheetId (Some (headers :: rows))
     = (Js.nl ++ "Data from Sheet " ++ sheetId ++ ":" ++ Js.nl)
       ++ concat_all
            (map (fun cells =>
                    Js.join ", " (map (segment cells) (seq 0 (List.length headers)))
                    ++ Js.nl) rows).
Proof.
  intros segment.
  assert (Hcells : forall cells,
             row_cells headers cells
             = map (segment cells) (seq 0 (List.length headers))).
  { intros cells. unfold row_cells, Js.mapi.
    rewrite (mapi_from_seq _ "" headers 0).
    apply map_ext. intros index. subst segment. cbv beta.
    now rewrite Nat.sub_0_r, or_empty_nth. }
  split; [apply Hcells|]. split; [|split].
  - now rewrite Hcells, length_map, length_seq.
  - unfold rowData. now rewrite Hcells.
  - unfold add_sheet. rewrite fold_rows_app.
    rewrite (map_ext (fun cells => rowData headers cells ++ Js.nl)
               (fun cells =>
                  Js.join ", " (map (segment cells) (seq 0 (List.length headers)))
                  ++ Js.nl)).
    + reflexivity.
    + intros cells. unfold rowData. now rewrite Hcells.
Qed.

Example row_rendering_sample :
  rowData ["item"; "price"; "stock"] ["tea"; "3"] = "item: tea, price: 3, stock: "
  /\ rowData ["item"; "price"; "stock"] ["mug"; ""; "7"; "extra"]
     = "item: mug, price: , stock: 7"
  /\ rowData ["item"; "price"; "stock"] [] = "item: , price: , stock: ".
Proof. repeat split. Qed.

(** ** Order of the fetches of a turn *)

Lemma in_flight_sheets (env : Env) (sheetIds : list string) (tl : list Event) :
  forall n : nat,
    in_flight_from n (sheets_trace env sheetIds ++ tl) = in_flight_from n tl.
Proof.
  induction sheetIds as [|sheetId rest IH]; intros n; [reflexivity|].
  unfold sheets_trace in *. simpl. rewrite <- app_assoc.
  unfold sheet_events at 1.
  destruct (sheets_values_get env sheetId); simpl; apply IH.
Qed.

Lemma in_flight_webpages (env : Env) (urls : list string) (tl : list Event) :
  forall n : nat,
    in_flight_from n (webpages_trace env urls ++ tl) = in_flight_from n tl.
Proof.
  induction urls as [|url rest IH]; intros n; [reflexivity|].
  unfold webpages_trace in *. simpl. rewrite <- app_assoc.
  unfold webpage_events at 1.
  destruct (webpage_of env url); simpl; apply IH.
Qed.

Lemma max_in_flight_sheets (env : Env) (sheetIds : list string) (tl : list Event) :
  max_in_flight_from 0 (sheets_trace env sheetIds ++ tl)
  <= Nat.max 1 (max_in_flight_from 0 tl).
Proof.
  unfold sheets_trace.
  induction sheetIds as [|sheetId rest IH]; [cbn -[Nat.max]; lia|].
  cbn [flat_map]. rewrite <- app_assoc.
  unfold sheet_events at 1.
  destruct (sheets_values_get env sheetId); cbn -[Nat.max]; lia.
Qed.

Lemma max_in_flight_webpages (env : Env) (urls : list string) (tl : list Event) :
  max_in_flight_from 0 (webpages_trace env urls ++ tl)
  <= Nat.max 1 (max_in_flight_from 0 tl).
Proof.
  unfold webpages_trace.
  induction urls as [|url rest IH]; [cbn -[Nat.max]; lia|].
  cbn [flat_map]. rewrite <- app_assoc.
  unfold webpage_events at 1.
  destruct (webpage_of env url); cbn -[Nat.max]; lia.
Qed.

Lemma issued_sheets (env : Env) (sheetIds : list string) (sheetId : string) :
  In sheetId sheetIds -> In (Issued (SheetsValuesGet sheetId)) (sheets_trace env sheetIds).
Proof.
  intros Hin. unfold sheets_trace. apply in_flat_map. exists sheetId.
  split; [assumption|]. unfold sheet_events.
  destruct (sheets_values_get env sheetId); simpl; auto.
Qed.

Lemma issued_webpages (env : Env) (urls : list string) (url : string) :
  In url urls -> In (Issued (AxiosGet url)) (webpages_trace env urls).
Proof.
  intros Hin. unfold webpages_trace. apply in_flat_map. exists url.
  split; [assumption|]. unfold webpage_events.
  destruct (webpage_of env url); simpl; auto.
Qed.

(** C9, as the code has it.  The fetches of a turn are made one at a time:
    each sheet, then each page, in configured order, every fetch issued
    only once the one before it has settled, so that at most one fetch is
    in flight at any point.  Every configured reference is fetched, and
    all the fetches have settled (fulfilled or rejected) when the prompt
    is sent to the completion backend. *)
Theorem C9_fetches_sequential_then_joined (env : Env) (sid text : string)
  (w : World) (gs : GlobalSettings) :
  In sid (ChatSessions w) ->
  Settings w = Some gs ->
  let fetches :=
    (flat_map (sheet_events env) (ids_of (knowledgeBaseSheetIds gs))
     ++ flat_map (webpage_events env) (ids_of (knowledgeBaseUrls gs)))%list in
  (exists rest,
     trace (exec (on_message env sid text) w)
     = (trace w ++ fetches
        ++ SocketEmit "typing" "assistant"
        :: Issued (ChatCompletionsCreate
                     (turn_messages env gs (history_with w sid text)) false)
        :: rest)%list)
  /\ max_in_flight fetches <= 1
  /\ in_flight fetches = 0
  /\ (forall sheetId, In sheetId (ids_of (knowledgeBaseSheetIds gs)) ->
                      In (Issued (SheetsValuesGet sheetId)) fetches)
  /\ (forall url, In url (ids_of (knowledgeBaseUrls gs)) ->
                  In (Issued (AxiosGet url)) fetches).
Proof.
  intros Hsession Hsettings fetches.
  assert (Hfetches : fetches = context_trace env gs) by reflexivity.
  split; [|split; [|split; [|split]]].
  - unfold exec. rewrite (on_message_run env sid text w Hsession Hsettings).
    rewrite Hfetches.
    destruct (chat_completion env (turn_messages env gs (history_with w sid text)))
      as [|[raw|]]; cbn [snd after_turn after_user trace];
      eexists; rewrite <- !app_assoc; reflexivity.
  - subst fetches. unfold max_in_flight.
    fold (sheets_trace env (ids_of (knowledgeBaseSheetIds gs))).
    fold (webpages_trace env (ids_of (knowledgeBaseUrls gs))).
    pose proof (max_in_flight_sheets env (ids_of (knowledgeBaseSheetIds gs))
                  (webpages_trace env (ids_of (knowledgeBaseUrls gs)))) as H1.
    pose proof (max_in_flight_webpages env (ids_of (knowledgeBaseUrls gs)) []) as H2.
    rewrite app_nil_r in H2. cbn -[Nat.max] in H2. lia.
  - subst fetches. unfold in_flight.
    fold (sheets_trace env (ids_of (knowledgeBaseSheetIds gs))).
    fold (webpages_trace env (ids_of (knowledgeBaseUrls gs))).
    rewrite in_flight_sheets.
    rewrite <- (app_nil_r (webpages_trace env _)).
    now rewrite in_flight_webpages.
  - intros sheetId Hin. apply in_or_app. left. now apply issued_sheets.
  - intros url Hin. apply in_or_app. right. now apply issued_webpages.
Qed.

Lemma C9_fetches_sequential_then_joined_witness :
  let fetches :=
    (flat_map (sheet_events Sample.env) (ids_of (knowledgeBaseSheetIds Sample.settings))
     ++ flat_map (webpage_events Sample.env)
          (ids_of (knowledgeBaseUrls Sample.settings)))%list in
  (exists rest,
     trace (exec (on_message Sample.env "sock" "hi") Sample.world)
     = (trace Sample.world ++ fetches
        ++ SocketEmit "typing" "assistant"
        :: Issued (ChatCompletionsCreate
                     (turn_messages Sample.env Sample.settings
                        (history_with Sample.world "sock" "hi")) false)
        :: rest)%list)
  /\ max_in_flight fetches <= 1
  /\ in_flight fetches = 0
  /\ (forall sheetId, In sheetId (ids_of (knowledgeBaseSheetIds Sample.settings)) ->
                      In (Issued (SheetsValuesGet sheetId)) fetches)
  /\ (forall url, In url (ids_of (knowledgeBaseUrls Sample.settings)) ->
                  In (Issued (AxiosGet url)) fetches).
Proof.
  apply (@C9_fetches_sequential_then_joined Sample.env "sock" "hi" Sample.world
           Sample.settings).
  - simpl. auto.
  - reflexivity.
Defined.

(** C9, as the specification has it, fails: with two sheets configured,
    the second fetch is issued after the first has settled, and no two
    fetches are ever in flight together. *)
Lemma C9_counterexample :
  trace (exec (formatAllSheetDataForContext Sample.env Sample.two_sheets) Sample.world)
  = [Issued (SheetsValuesGet "s1"); Settled (SheetsValuesGet "s1") true;
     Issued (SheetsValuesGet "s3"); Settled (SheetsValuesGet "s3") true]
  /\ ~ overlapping
         (trace (exec (formatAllSheetDataForContext Sample.env Sample.two_sheets)
                      Sample.world)).
Proof.
  split; [reflexivity|].
  unfold overlapping. vm_compute. lia.
Qed.

(** ** The exported row *)

Lemma order_by_desc_sorted (l : list ChatVariable) :
  StronglySorted (fun a b => timestamp b <= timestamp a)
    (order_by (fun a b => Nat.leb (timestamp b) (timestamp a)) l).
Proof.
  induction l as [|x l IH]; simpl; [constructor|].
  revert IH. generalize (order_by (fun a b => Nat.leb (timestamp b) (timestamp a)) l).
  clear l. intros l Hsorted.
  induction Hsorted as [|y l Hl IH Hy]; simpl.
  - repeat constructor.
  - destruct (Nat.leb_spec (timestamp y) (timestamp x)) as [Hle|Hlt].
    + constructor; [now constructor|].
      constructor; [assumption|].
      eapply Forall_impl; [|exact Hy]. simpl. intros z Hz. lia.
    + constructor; [assumption|].
      apply Forall_forall. intros z Hz.
      apply In_insert_by in Hz as [->|Hz]; [lia|].
      rewrite Forall_forall in Hy. now apply Hy.
Qed.

Lemma find_split {A : Type} (p : A -> bool) (l : list A) (x : A) :
  find p l = Some x ->
  exists l1 l2, l = (l1 ++ x :: l2)%list /\ p x = true
                /\ forall y, In y l1 -> p y = false.
Proof.
  induction l as [|a l IH]; simpl; [discriminate|].
  destruct (p a) eqn:Ha.
  - intros [= ->]. exists [], l. simpl. intuition.
  - intros Hfind. destruct (IH Hfind) as [l1 [l2 [-> [Hx Hl1]]]].
    exists (a :: l1), l2. simpl. intuition. now subst.
Qed.

Lemma sorted_after {A : Type} (R : A -> A -> Prop) (l1 l2 : list A) (x y : A) :
  StronglySorted R (l1 ++ x :: l2) -> In y l2 -> R x y.
Proof.
  induction l1 as [|a l1 IH]; simpl; intros Hs Hy.
  - inversion Hs as [|? ? _ Hall]; subst.
    rewrite Forall_forall in Hall. now apply Hall.
  - inversion Hs; subst. now apply IH.
Qed.

(** The row cell of a header is the value of the session's record of that
    name whose timestamp is above those of all the others. *)
Lemma find_latest (w : World) (sid header : string)
  (pre : list ChatVariable) (r : ChatVariable) (post : list ChatVariable) :
  ChatVariables w = (pre ++ r :: post)%list ->
  sessionId r = sid ->
  variableName r = header ->
  (forall r', In r' (pre ++ post) -> sessionId r' = sid ->
              variableName r' = header -> timestamp r' < timestamp r) ->
  find (fun v => String.eqb (variableName v) header) (session_variables w sid)
  = Some r.
Proof.
  intros Htable Hsid Hname Hlatest.
  assert (Hr : In r (session_variables w sid)).
  { apply In_order_by, filter_In. rewrite Htable. split.
    - apply in_or_app. right. now left.
    - now apply String.eqb_eq. }
  destruct (find _ (session_variables w sid)) as [x|] eqn:Hfind.
  - destruct (find_split _ _ Hfind) as [l1 [l2 [Hsplit [Hx Hl1]]]].
    apply String.eqb_eq in Hx.
    assert (Hx_in : In x (session_variables w sid)).
    { rewrite Hsplit. apply in_or_app. right. now left. }
    apply In_order_by, filter_In in Hx_in as [Hx_table Hx_sid].
    apply String.eqb_eq in Hx_sid.
    rewrite Htable in Hx_table.
    assert (Hcases : x = r \/ In x (pre ++ post)).
    { apply in_app_or in Hx_table as [H|[H|H]]; auto;
        right; apply in_or_app; auto. }
    destruct Hcases as [->|Hother]; [reflexivity|].
    specialize (Hlatest x Hother Hx_sid Hx).
    rewrite Hsplit in Hr. apply in_app_or in Hr as [Hr|[Hr|Hr]].
    + apply Hl1 in Hr. apply String.eqb_neq in Hr. contradiction.
    + now subst.
    + pose proof (order_by_desc_sorted
                    (filter (fun v => String.eqb (sessionId v) sid)
                            (ChatVariables w))) as Hsorted.
      fold (session_variables w sid) in Hsorted. rewrite Hsplit in Hsorted.
      pose proof (@sorted_after _ _ _ _ _ _ Hsorted Hr) as Hle. simpl in Hle. lia.
  - eapply find_none in Hfind; [|exact Hr].
    apply String.eqb_neq in Hfind. contradiction.
Qed.

Lemma find_unrecorded (w : World) (sid header : string) :
  (forall v, In v (ChatVariables w) -> sessionId v = sid ->
             variableName v <> header) ->
  find (fun v => String.eqb (variableName v) header) (session_variables w sid)
  = None.
Proof.
  intros Hnone.
  destruct (find _ (session_variables w sid)) as [x|] eqn:Hfind; [|reflexivity].
  apply find_some in Hfind as [Hin Hx].
  apply String.eqb_eq in Hx.
  apply In_order_by, filter_In in Hin as [Hin Hsid].
  apply String.eqb_eq in Hsid.
  now destruct (Hnone x Hin Hsid).
Qed.

Lemma writeVariablesToSpreadsheet_run (env : Env) (sid : string) (w : World)
  (gs : GlobalSettings) (target : string) :
  target_of (Settings w) = Some (gs, target) ->
  writeVariablesToSpreadsheet env sid w =
  (Return tt,
   match session_variables w sid with
   | [] => w
   | _ :: _ =>
       add_trace w
         (append_events env target
            (export_rowData (headers_of (Some gs)) (session_variables w sid)))
   end).
Proof.
  intros Htarget.
  unfold writeVariablesToSpreadsheet, try_catch.
  unfold bind at 1. unfold GlobalSettings_findByPk. rewrite Htarget.
  unfold bind at 1. unfold ChatVariable_findAll.
  fold (session_variables w sid).
  destruct (session_variables w sid) as [|v vs] eqn:Hvars; [reflexivity|].
  unfold append_events.
  destruct (sheets_values_append env target _).
  - now rewrite await_fulfilled.
  - rewrite await_rejected. unfold console_error.
    now rewrite observe_run, add_trace_app.
Qed.

Lemma writeVariablesToSpreadsheet_no_target (env : Env) (sid : string) (w : World) :
  target_of (Settings w) = None ->
  writeVariablesToSpreadsheet env sid w = (Return tt, w).
Proof.
  intros Htarget.
  unfold writeVariablesToSpreadsheet, try_catch.
  unfold bind at 1. unfold GlobalSettings_findByPk. now rewrite Htarget.
Qed.

Lemma append_events_issued (env : Env) (target t : string) (row r : list string) :
  In (Issued (SheetsValuesAppend t r)) (append_events env target row) ->
  t = target /\ r = row.
Proof.
  unfold append_events.
  destruct (sheets_values_append env target row); simpl; intros H;
    repeat (destruct H as [H|H]; [try discriminate H|]);
    try contradiction; injection H; auto.
Qed.

Lemma append_events_count (env : Env) (target : string) (row : list string) :
  count is_append_request (append_events env target row) = 1.
Proof.
  unfold append_events, count.
  now destruct (sheets_values_append env target row).
Qed.

(** C4. With a target spreadsheet configured, every row the export of a
    session appends goes to that spreadsheet and has one cell per
    configured field, in configured order: the cell of a field is the
    empty string when the session has no record of that name, and the
    value of the session's record of that name with the latest timestamp,
    wherever that record stands in the table.  Exactly one row is appended
    when the session has a record. *)
Theorem C4_export_row (env : Env) (sid : string) (w : World)
  (gs : GlobalSettings) (target : string) (added : list Event) :
  target_of (Settings w) = Some (gs, target) ->
  trace (exec (writeVariablesToSpreadsheet env sid) w) = (trace w ++ added)%list ->
  (forall t row,
      In (Issued (SheetsValuesAppend t row)) added ->
      t = target
      /\ List.length row = List.length (headers_of (Some gs))
      /\ forall index header,
           nth_error (headers_of (Some gs)) index = Some header ->
           ((forall v, In v (ChatVariables w) -> sessionId v = sid ->
                       variableName v <> header) ->
            nth_error row index = Some "")
           /\ (forall pre r post,
                  ChatVariables w = (pre ++ r :: post)%list ->
                  sessionId r = sid ->
                  variableName r = header ->
                  (forall r', In r' (pre ++ post) -> sessionId r' = sid ->
                              variableName r' = header ->
                              timestamp r' < timestamp r) ->
                  nth_error row index = Some (variableValue r)))
  /\ ((exists v, In v (ChatVariables w) /\ sessionId v = sid) ->
      count is_append_request added = 1).
Proof.
  intros Htarget Htrace.
  unfold exec in Htrace.
  rewrite (writeVariablesToSpreadsheet_run env sid w Htarget) in Htrace.
  cbn [snd] in Htrace.
  assert (Hadded :
    added = match session_variables w sid with
            | [] => []
            | _ :: _ =>
                append_events env target
                  (export_rowData (headers_of (Some gs)) (session_variables w sid))
            end).
  { destruct (session_variables w sid); cbn [add_trace trace] in Htrace.
    - rewrite <- (app_nil_r (trace w)) in Htrace at 1.
      now apply app_inv_head in Htrace.
    - now apply app_inv_head in Htrace. }
  clear Htrace. subst added. split.
  - intros t row Hrow.
    destruct (session_variables w sid) as [|v0 vs] eqn:Hvars; [contradiction|].
    rewrite <- Hvars in Hrow. clear Hvars v0 vs.
    apply append_events_issued in Hrow as [-> ->].
    split; [reflexivity|]. split.
    + unfold export_rowData. now rewrite length_map.
    + intros index header Hheader. unfold export_rowData.
      rewrite nth_error_map, Hheader. cbn [option_map]. split.
      * intros Hnone. now rewrite (@find_unrecorded w sid header Hnone).
      * intros pre r post Htable Hsid Hname Hlatest.
        now rewrite (@find_latest w sid header pre r post Htable Hsid Hname Hlatest).
  - intros [v [Hv Hsid]].
    assert (Hin : In v (session_variables w sid)).
    { apply In_order_by, filter_In. split; [assumption|]. now apply String.eqb_eq. }
    destruct (session_variables w sid); [contradiction|].
    apply append_events_count.
Qed.

Lemma C4_export_row_witness :
  (forall t row,
      In (Issued (SheetsValuesAppend t row))
         [Issued (SheetsValuesAppend "T" ["Anna"; ""]);
          Settled (SheetsValuesAppend "T" ["Anna"; ""]) true] ->
      t = "T"
      /\ List.length row = List.length (headers_of (Some Sample.settings))
      /\ forall index header,
           nth_error (headers_of (Some Sample.settings)) index = Some header ->
           ((forall v, In v (ChatVariables Sample.name_twice) -> sessionId v = "sock" ->
                       variableName v <> header) ->
            nth_error row index = Some "")
           /\ (forall pre r post,
                  ChatVariables Sample.name_twice = (pre ++ r :: post)%list ->
                  sessionId r = "sock" ->
                  variableName r = header ->
                  (forall r', In r' (pre ++ post) -> sessionId r' = "sock" ->
                              variableName r' = header ->
                              timestamp r' < timestamp r) ->
                  nth_error row index = Some (variableValue r)))
  /\ ((exists v, In v (ChatVariables Sample.name_twice) /\ sessionId v = "sock") ->
      count is_append_request
        [Issued (SheetsValuesAppend "T" ["Anna"; ""]);
         Settled (SheetsValuesAppend "T" ["Anna"; ""]) true] = 1).
Proof.
  apply (@C4_export_row Sample.env "sock" Sample.name_twice Sample.settings "T").
  - reflexivity.
  - reflexivity.
Defined.

(** The example of the specification: a name and an e-mail address give
    the row of the two values in field order, whichever was written
    first. *)
Example export_row_sample :
  trace (exec (writeVariablesToSpreadsheet Sample.env "sock") Sample.name_then_email)
  = [Issued (SheetsValuesAppend "T" ["Ann"; "a@x.com"]);
     Settled (SheetsValuesAppend "T" ["Ann"; "a@x.com"]) true]
  /\ trace (exec (writeVariablesToSpreadsheet Sample.env "sock") Sample.email_then_name)
     = [Issued (SheetsValuesAppend "T" ["Ann"; "a@x.com"]);
        Settled (SheetsValuesAppend "T" ["Ann"; "a@x.com"]) true].
Proof. split; reflexivity. Qed.

(** ** Objects *)

Lemma keys_define (o : Js.object) (k : string) (v : Js.value) (x : string) :
  In x (map fst (Js.define o k v)) <-> x = k \/ In x (map fst o).
Proof.
  induction o as [|[k' v'] o IH]; simpl.
  - intuition.
  - destruct (String.eqb_spec k' k) as [->|Hne]; simpl.
    + intuition.
    + rewrite IH. intuition.
Qed.

Lemma NoDup_define (o : Js.object) (k : string) (v : Js.value) :
  NoDup (map fst o) -> NoDup (map fst (Js.define o k v)).
Proof.
  induction o as [|[k' v'] o IH]; simpl; intros Hnd.
  - constructor; [intros []|constructor].
  - inversion Hnd as [|? ? Hnotin Hrest]; subst.
    destruct (String.eqb_spec k' k) as [->|Hne]; simpl.
    + now constructor.
    + constructor; [|now apply IH].
      rewrite keys_define. intros [->|Hin]; [now apply Hne|contradiction].
Qed.

Lemma In_define_same (o : Js.object) (k : string) (v : Js.value) :
  In (k, v) (Js.define o k v).
Proof.
  induction o as [|[k' v'] o IH]; simpl; [auto|].
  destruct (String.eqb k' k); simpl; auto.
Qed.

Lemma In_define_other (o : Js.object) (k k' : string) (v v' : Js.value) :
  In (k', v') o -> k' <> k -> In (k', v') (Js.define o k v).
Proof.
  induction o as [|[k0 v0] o IH]; simpl; [tauto|].
  intros [Heq|Hin] Hne.
  - injection Heq as -> ->.
    destruct (String.eqb_spec k' k) as [->|_]; [contradiction|]. now left.
  - destruct (String.eqb_spec k0 k) as [->|_]; simpl; auto.
Qed.

Lemma In_define_inv (o : Js.object) (k k' : string) (v v' : Js.value) :
  In (k', v') (Js.define o k v) -> (k' = k /\ v' = v) \/ In (k', v') o.
Proof.
  induction o as [|[k0 v0] o IH]; simpl.
  - intros [[= <- <-]|[]]. auto.
  - destruct (String.eqb_spec k0 k) as [->|Hne]; simpl.
    + intros [[= <- <-]|Hin]; auto.
    + intros [Heq|Hin]; auto. destruct (IH Hin); auto.
Qed.

Lemma hasOwn_keys (o : Js.object) (k : string) :
  Js.hasOwn o k = true <-> In k (map fst o).
Proof.
  unfold Js.hasOwn. rewrite existsb_exists, in_map_iff. split.
  - intros [p [Hp Heq]]. apply String.eqb_eq in Heq. eauto.
  - intros [p [Heq Hp]]. exists p. split; [assumption|]. now apply String.eqb_eq.
Qed.

Lemma keys_parse_members (members : list (string * Js.value)) (x : string) :
  In x (map fst (Js.parse_members members)) <-> In x (map fst members).
Proof.
  unfold Js.parse_members.
  assert (H : forall o,
             In x (map fst (fold_left (fun o p => Js.define o (fst p) (snd p))
                                      members o))
             <-> In x (map fst o) \/ In x (map fst members)).
  { induction members as [|[k v] members IH]; intros o; simpl.
    - tauto.
    - rewrite IH, keys_define. intuition. }
  rewrite H. simpl. tauto.
Qed.

Lemma NoDup_parse_members (members : list (string * Js.value)) :
  NoDup (map fst (Js.parse_members members)).
Proof.
  unfold Js.parse_members.
  assert (H : forall o, NoDup (map fst o) ->
             NoDup (map fst (fold_left (fun o p => Js.define o (fst p) (snd p))
                                       members o))).
  { induction members as [|[k v] members IH]; intros o Ho; simpl; [assumption|].
    apply IH. now apply NoDup_define. }
  apply H. constructor.
Qed.

Lemma In_insert_index (p q : string * Js.value) (l : list (string * Js.value)) :
  In q (Js.insert_index p l) <-> q = p \/ In q l.
Proof.
  induction l as [|z l IH]; simpl.
  - intuition.
  - destruct (N.leb (Js.index_of p) (Js.index_of z)); simpl; rewrite ?IH; intuition.
Qed.

Lemma In_entries (o : Js.object) (p : string * Js.value) :
  In p (Js.entries o) <-> In p o.
Proof.
  unfold Js.entries. rewrite in_app_iff.
  assert (Hsort : forall l, In p (Js.sort_index l) <-> In p l).
  { induction l as [|x l IH]; simpl; [tauto|].
    rewrite In_insert_index, IH. intuition. }
  rewrite Hsort, !filter_In.
  destruct (Js.is_index p); simpl; intuition discriminate.
Qed.

(** ** Extraction *)

Lemma save_variables_run (sid : string) (entries : list (string * Js.value)) :
  forall w : World,
    save_variables sid entries w = (Return tt, after_extraction w sid entries []).
Proof.
  induction entries as [|[name value] rest IH]; intros w.
  - simpl. unfold ret, after_extraction. simpl.
    rewrite !app_nil_r, Nat.add_0_r. now destruct w.
  - simpl. unfold bind, ChatVariable_create. rewrite IH.
    unfold after_extraction. simpl. rewrite <- !app_assoc. simpl.
    now rewrite Nat.add_succ_r.
Qed.

Lemma analyzeChatForVariables_run (env : Env) (sid : string) (w : World)
  (h : string) (hs : list string) :
  headers_of (Settings w) = h :: hs ->
  let request :=
    ChatCompletionsCreate (extraction_messages w sid (h :: hs)) true in
  analyzeChatForVariables env sid w =
  match extraction_completion env (extraction_messages w sid (h :: hs)) with
  | ExtractionRejected =>
      (Throw "rejected",
       add_trace w [Issued request; Settled request false;
                    ConsoleError "Error analyzing chat for variables:"])
  | ExtractionMalformed =>
      (Throw "SyntaxError",
       add_trace w [Issued request; Settled request true;
                    ConsoleError "Error analyzing chat for variables:"])
  | ExtractionObject members =>
      (Return (add_missing (h :: hs) (Js.parse_members members)),
       after_extraction w sid
         (Js.entries (add_missing (h :: hs) (Js.parse_members members)))
         [Issued request; Settled request true])
  end.
Proof.
  intros Hheaders request.
  unfold analyzeChatForVariables, try_catch.
  unfold bind at 1. unfold GlobalSettings_findByPk. rewrite Hheaders.
  unfold bind at 1. unfold Message_findAll.
  fold (session_history w sid).
  fold (extraction_messages w sid (h :: hs)).
  unfold bind at 1. unfold create_extraction. unfold bind at 1.
  destruct (extraction_completion env (extraction_messages w sid (h :: hs))).
  - rewrite await_rejected. unfold bind, console_error, throw.
    now rewrite observe_run, add_trace_app.
  - rewrite await_fulfilled. unfold throw, bind, console_error.
    now rewrite observe_run, add_trace_app.
  - rewrite await_fulfilled. unfold ret, bind. rewrite save_variables_run.
    unfold after_extraction, add_trace. simpl. now rewrite app_nil_r.
Qed.

Lemma analyzeChatForVariables_no_headers (env : Env) (sid : string) (w : World) :
  headers_of (Settings w) = [] ->
  analyzeChatForVariables env sid w = (Return [], w).
Proof.
  intros Hheaders.
  unfold analyzeChatForVariables, try_catch.
  unfold bind at 1. unfold GlobalSettings_findByPk. now rewrite Hheaders.
Qed.

Lemma stamped_In (sid : string) (entries : list (string * Js.value)) :
  forall (t : nat) (v : ChatVariable),
    In v (stamped sid entries t) ->
    sessionId v = sid
    /\ exists value, In (variableName v, value) entries
                     /\ variableValue v = Js.ToString value.
Proof.
  induction entries as [|[name value] rest IH]; intros t v; simpl; [tauto|].
  intros [<-|Hin].
  - simpl. split; [reflexivity|]. exists value. auto.
  - destruct (IH _ _ Hin) as [Hsid [value' [Hentry Hvalue]]].
    split; [assumption|]. exists value'. auto.
Qed.

Lemma In_stamped (sid name : string) (value : Js.value)
  (entries : list (string * Js.value)) :
  forall t : nat,
    In (name, value) entries ->
    exists t', In (mkChatVariable sid name (Js.ToString value) t')
                  (stamped sid entries t).
Proof.
  induction entries as [|[name' value'] rest IH]; intros t; simpl; [tauto|].
  intros [[= -> ->]|Hin].
  - exists t. now left.
  - destruct (IH (S t) Hin) as [t' Ht']. exists t'. now right.
Qed.

Lemma empty_kept (k : string) (rest : list string) :
  forall o : Js.object,
    In (k, Js.VStr "") o ->
    In (k, Js.VStr "")
       (fold_left (fun o header => Js.define o header (Js.VStr "")) rest o).
Proof.
  induction rest as [|r rest IH]; intros o Ho; simpl; [assumption|].
  apply IH. destruct (string_dec k r) as [->|Hne].
  - apply In_define_same.
  - now apply In_define_other.
Qed.

Lemma add_missing_fold (missing : list string) :
  forall o : Js.object,
    let o' := fold_left (fun o header => Js.define o header (Js.VStr "")) missing o in
    (forall k, In k (map fst o') <-> In k (map fst o) \/ In k missing)
    /\ (NoDup (map fst o) -> NoDup (map fst o'))
    /\ (forall k v, In (k, v) o' -> In (k, v) o \/ (In k missing /\ v = Js.VStr ""))
    /\ (forall k, In k missing -> In (k, Js.VStr "") o \/ ~ In k (map fst o) ->
                  In (k, Js.VStr "") o').
Proof.
  induction missing as [|header rest IH]; intros o; simpl.
  - repeat split; intros; tauto.
  - destruct (IH (Js.define o header (Js.VStr ""))) as [Hkeys [Hnd [Hinv Hnew]]].
    simpl in Hkeys, Hnd, Hinv, Hnew.
    split; [|split; [|split]].
    + intros k. rewrite Hkeys, keys_define. intuition.
    + intros Ho. now apply Hnd, NoDup_define.
    + intros k v Hin. destruct (Hinv _ _ Hin) as [Hd|[Hr ->]]; [|auto].
      apply In_define_inv in Hd as [[-> ->]|Ho]; auto.
    + intros k Hk Hcase.
      destruct (string_dec k header) as [->|Hne].
      * apply empty_kept, In_define_same.
      * destruct Hcase as [Hin|Hnot].
        -- apply empty_kept. now apply In_define_other.
        -- destruct Hk as [->|Hk]; [contradiction|].
           apply Hnew; [assumption|]. right. rewrite keys_define.
           intros [H|H]; contradiction.
Qed.

(** What [add_missing] leaves in the object: its keys are those of the
    answer and the missing headers; a header that no object inherits is a
    key, with the empty string when the answer has not got it. *)
Lemma add_missing_keys (headers : list string) (o : Js.object) (k : string) :
  In k (map fst (add_missing headers o)) ->
  In k (map fst o) \/ In k headers.
Proof.
  unfold add_missing. intros Hin.
  apply (proj1 (add_missing_fold (missingHeaders headers o) o)) in Hin
    as [Hin|Hin]; [now left|].
  right. unfold missingHeaders in Hin. now apply filter_In in Hin.
Qed.

Lemma add_missing_complete (headers : list string) (o : Js.object)
  (header : string) :
  In header headers ->
  Js.inherited header = false ->
  exists value, In (header, value) (add_missing headers o).
Proof.
  intros Hin Hinherited. unfold add_missing.
  destruct (add_missing_fold (missingHeaders headers o) o) as [Hkeys [_ [_ Hnew]]].
  cbv zeta in Hkeys, Hnew.
  destruct (Js.hasOwn o header) eqn:Hown.
  - apply hasOwn_keys in Hown.
    assert (Hk : In header
                   (map fst (fold_left
                               (fun o header => Js.define o header (Js.VStr ""))
                               (missingHeaders headers o) o)))
      by (apply Hkeys; now left).
    apply in_map_iff in Hk as [[k value] [Heq Hp]]. simpl in Heq. subst k.
    now exists value.
  - exists (Js.VStr ""). apply Hnew.
    + unfold missingHeaders. apply filter_In. split; [assumption|].
      unfold Js.has. now rewrite Hown, Hinherited.
    + right. intros Hk. apply hasOwn_keys in Hk. congruence.
Qed.

Lemma add_missing_empty (headers : list string) (o : Js.object)
  (header : string) (value : Js.value) :
  ~ In header (map fst o) ->
  In (header, value) (add_missing headers o) ->
  value = Js.VStr "".
Proof.
  intros Hnot Hin. unfold add_missing in Hin.
  destruct (add_missing_fold (missingHeaders headers o) o) as [_ [_ [Hinv _]]].
  cbv zeta in Hinv. destruct (Hinv _ _ Hin) as [Ho|[_ ->]]; [|reflexivity].
  destruct Hnot. apply in_map_iff. now exists (header, value).
Qed.

(** C1, as the code has it.  An extraction stores, for the session, one
    record per key of the object it ends with: the keys of the backend's
    answer and the configured fields the answer lacks.  So the stored
    names are within the configured fields and the answer's keys, and
    within the configured fields when the answer's keys are.  Every
    configured field that is not a name objects inherit is stored, and
    with the empty string when the answer has not got it.  The settings
    are left as they were for the export that follows. *)
Theorem C1_stored_names (env : Env) (sid : string) (w : World)
  (gs : GlobalSettings) (h : string) (hs : list string)
  (members : list (string * Js.value)) :
  Settings w = Some gs ->
  extractionHeaders gs = Some (h :: hs) ->
  extraction_completion env (extraction_messages w sid (h :: hs))
    = ExtractionObject members ->
  exists stored : list ChatVariable,
    ChatVariables (exec (analyzeChatForVariables env sid) w)
    = (ChatVariables w ++ stored)%list
    /\ Settings (exec (analyzeChatForVariables env sid) w) = Settings w
    /\ (forall v, In v stored ->
                  sessionId v = sid
                  /\ (In (variableName v) (h :: hs)
                      \/ In (variableName v) (map fst members)))
    /\ ((forall k, In k (map fst members) -> In k (h :: hs)) ->
        forall v, In v stored -> In (variableName v) (h :: hs))
    /\ (forall header,
           In header (h :: hs) ->
           Js.inherited header = false ->
           (exists v, In v stored /\ variableName v = header)
           /\ (~ In header (map fst members) ->
               forall v, In v stored -> variableName v = header ->
                         variableValue v = "")).
Proof.
  intros Hsettings Hheaders Hreply.
  assert (Hh : headers_of (Settings w) = h :: hs).
  { rewrite Hsettings. simpl. now rewrite Hheaders. }
  set (o := add_missing (h :: hs) (Js.parse_members members)).
  exists (stamped sid (Js.entries o) (now w)).
  unfold exec. rewrite (analyzeChatForVariables_run env sid w Hh), Hreply.
  fold o. cbn [snd after_extraction ChatVariables Settings].
  assert (Hnames : forall v, In v (stamped sid (Js.entries o) (now w)) ->
             sessionId v = sid
             /\ (In (variableName v) (h :: hs)
                 \/ In (variableName v) (map fst members))).
  { intros v Hv. apply stamped_In in Hv as [Hsid [value [Hentry _]]].
    split; [assumption|].
    apply (proj1 (In_entries o _)) in Hentry.
    assert (Hk : In (variableName v) (map fst o)).
    { apply in_map_iff. exists (variableName v, value).
      split; [reflexivity | exact Hentry]. }
    apply add_missing_keys in Hk as [Hk|Hk]; [right|now left].
    now apply keys_parse_members. }
  split; [reflexivity|]. split; [reflexivity|]. split; [exact Hnames|]. split.
  - intros Hsub v Hv. destruct (Hnames v Hv) as [_ [H|H]]; auto.
  - intros header Hin Hinherited. split.
    + destruct (add_missing_complete (h :: hs) (Js.parse_members members)
                  header Hin Hinherited) as [value Hvalue].
      fold o in Hvalue. apply (proj2 (In_entries o _)) in Hvalue.
      destruct (@In_stamped sid header value (Js.entries o) (now w) Hvalue)
        as [t Ht].
      eexists. split; [exact Ht|reflexivity].
    + intros Hnot v Hv Hname.
      apply stamped_In in Hv as [_ [value [Hentry Hvalue]]].
      apply (proj1 (In_entries o _)) in Hentry. rewrite Hname in Hentry.
      apply add_missing_empty in Hentry.
      * now rewrite Hvalue, Hentry.
      * now rewrite keys_parse_members.
Qed.

Lemma C1_stored_names_witness :
  exists stored : list ChatVariable,
    ChatVariables (exec (analyzeChatForVariables Sample.env "sock") Sample.world_chat)
    = (ChatVariables Sample.world_chat ++ stored)%list
    /\ Settings (exec (analyzeChatForVariables Sample.env "sock") Sample.world_chat)
       = Settings Sample.world_chat
    /\ (forall v, In v stored ->
                  sessionId v = "sock"
                  /\ (In (variableName v) ["name"; "email"]
                      \/ In (variableName v)
                            (map fst [("email", Js.VStr "a@x.com");
                                      ("age", Js.VNum 41)])))
    /\ ((forall k, In k (map fst [("email", Js.VStr "a@x.com"); ("age", Js.VNum 41)]) ->
                   In k ["name"; "email"]) ->
        forall v, In v stored -> In (variableName v) ["name"; "email"])
    /\ (forall header,
           In header ["name"; "email"] ->
           Js.inherited header = false ->
           (exists v, In v stored /\ variableName v = header)
           /\ (~ In header (map fst [("email", Js.VStr "a@x.com");
                                     ("age", Js.VNum 41)]) ->
               forall v, In v stored -> variableName v = header ->
                         variableValue v = "")).
Proof.
  apply (@C1_stored_names Sample.env "sock" Sample.world_chat Sample.settings
           "name" ["email"] [("email", Js.VStr "a@x.com"); ("age", Js.VNum 41)]).
  - reflexivity.
  - reflexivity.
  - reflexivity.
Defined.

(** C1, as the specification has it, fails: the backend answers with a key
    that is not a configured field, and the teardown stores a record of
    that name for the session. *)
Lemma C1_counterexample :
  In (mkChatVariable "sock" "age" "41" 3)
     (ChatVariables (exec (on_disconnect Sample.env "sock") Sample.world_chat))
  /\ ~ In "age"
       (headers_of (Settings (exec (on_disconnect Sample.env "sock")
                                   Sample.world_chat))).
Proof.
  split.
  - vm_compute. auto.
  - vm_compute. intros [H|[H|[]]]; discriminate H.
Qed.

(** C5 at a field list with a name that objects inherit: the backend
    answers with the name alone, [in] finds "constructor" on the
    prototype, so the field is not added to the result and no record is
    stored for it. *)
Lemma C5_inherited_field_dropped :
  In "constructor" (headers_of (Settings Sample.world_inherited))
  /\ result (analyzeChatForVariables Sample.env_inherited "sock")
            Sample.world_inherited
     = Return [("name", Js.VStr "Ann")]
  /\ Js.hasOwn [("name", Js.VStr "Ann")] "constructor" = false
  /\ ChatVariables (exec (analyzeChatForVariables Sample.env_inherited "sock")
                         Sample.world_inherited)
     = [mkChatVariable "sock" "name" "Ann" 1].
Proof.
  split; [simpl; auto|]. repeat split.
Qed.

(** ** Teardown *)

Lemma writeVariablesToSpreadsheet_trace (env : Env) (sid : string) (w : World) :
  writeVariablesToSpreadsheet env sid w
  = (Return tt, add_trace w (export_trace env sid w)).
Proof.
  unfold export_trace.
  destruct (target_of (Settings w)) as [[gs target]|] eqn:Htarget.
  - rewrite (writeVariablesToSpreadsheet_run env sid w Htarget).
    destruct (session_variables w sid); [now rewrite add_trace_nil | reflexivity].
  - rewrite (writeVariablesToSpreadsheet_no_target env sid w Htarget).
    now rewrite add_trace_nil.
Qed.

Lemma teardown_run (env : Env) (sid : string) (w : World) (h : string)
  (hs : list string) (members : list (string * Js.value)) :
  headers_of (Settings w) = h :: hs ->
  extraction_completion env (extraction_messages w sid (h :: hs))
    = ExtractionObject members ->
  teardown env sid w = (Return tt, torn_down env w sid (h :: hs) members).
Proof.
  intros Hheaders Hreply.
  unfold teardown. unfold bind at 1.
  rewrite (analyzeChatForVariables_run env sid w Hheaders), Hreply.
  fold (extracted w sid (h :: hs) members).
  unfold bind at 1. rewrite writeVariablesToSpreadsheet_trace.
  reflexivity.
Qed.

Lemma count_app (p : Event -> bool) (a b : list Event) :
  count p (a ++ b) = count p a + count p b.
Proof. unfold count. now rewrite filter_app, length_app. Qed.

Lemma export_trace_extraction (env : Env) (sid : string) (w : World) :
  count is_extraction_request (export_trace env sid w) = 0.
Proof.
  unfold export_trace, append_events.
  destruct (target_of (Settings w)) as [[gs target]|]; [|reflexivity].
  destruct (session_variables w sid); [reflexivity|].
  now destruct (sheets_values_append env target _).
Qed.

Lemma export_trace_append (env : Env) (sid : string) (w : World) :
  count is_append_request (export_trace env sid w)
  = match target_of (Settings w), session_variables w sid with
    | Some _, _ :: _ => 1
    | _, _ => 0
    end.
Proof.
  unfold export_trace.
  destruct (target_of (Settings w)) as [[gs target]|]; [|reflexivity].
  destruct (session_variables w sid); [reflexivity|].
  apply append_events_count.
Qed.

Lemma export_trace_errors (env : Env) (sid : string) (w : World) :
  (forall target row, sheets_values_append env target row = true) ->
  count is_error (export_trace env sid w) = 0.
Proof.
  intros Hok. unfold export_trace, append_events.
  destruct (target_of (Settings w)) as [[gs target]|]; [|reflexivity].
  destruct (session_variables w sid); [reflexivity|].
  now rewrite Hok.
Qed.

Lemma torn_down_facts (env : Env) (w : World) (sid : string)
  (headers : list string) (members : list (string * Js.value)) :
  let w' := torn_down env w sid headers members in
  Settings w' = Settings w
  /\ (exists stored, ChatVariables (extracted w sid headers members)
                     = (ChatVariables w ++ stored)%list
                     /\ ChatVariables w' = (ChatVariables w ++ stored)%list)
  /\ Settings (extracted w sid headers members) = Settings w
  /\ ~ In sid (ChatSessions w')
  /\ (forall m, In m (Messages w') -> msg_sessionId m <> sid)
  /\ trace w'
     = (trace w
        ++ [Issued (ChatCompletionsCreate (extraction_messages w sid headers) true);
            Settled (ChatCompletionsCreate (extraction_messages w sid headers) true)
                    true]
        ++ export_trace env sid (extracted w sid headers members))%list.
Proof.
  unfold torn_down, destroyed, extracted, after_extraction, add_trace.
  cbn [Settings ChatVariables ChatSessions Messages trace].
  split; [reflexivity|]. split; [eexists; split; reflexivity|].
  split; [reflexivity|]. split; [|split].
  - intros Hin. apply filter_In in Hin as [_ Hne].
    now rewrite String.eqb_refl in Hne.
  - intros m Hin Heq. apply filter_In in Hin as [_ Hne].
    now rewrite Heq, String.eqb_refl in Hne.
  - now rewrite <- app_assoc.
Qed.

Lemma on_deleteSession_run (env : Env) (sid : string) (w : World) (h : string)
  (hs : list string) (members : list (string * Js.value)) :
  headers_of (Settings w) = h :: hs ->
  extraction_completion env (extraction_messages w sid (h :: hs))
    = ExtractionObject members ->
  on_deleteSession env sid None w
  = (Return tt,
     add_trace (torn_down env w sid (h :: hs) members)
               [SocketEmit "sessionDeleted" sid]).
Proof.
  intros Hheaders Hreply.
  unfold on_deleteSession, or_socket_id, try_catch, bind.
  now rewrite (teardown_run env sid w Hheaders Hreply).
Qed.

Lemma on_disconnect_run (env : Env) (sid : string) (w : World) (h : string)
  (hs : list string) (members : list (string * Js.value)) :
  headers_of (Settings w) = h :: hs ->
  extraction_completion env (extraction_messages w sid (h :: hs))
    = ExtractionObject members ->
  on_disconnect env sid w = (Return tt, torn_down env w sid (h :: hs) members).
Proof.
  intros Hheaders Hreply.
  unfold on_disconnect, try_catch.
  now rewrite (teardown_run env sid w Hheaders Hreply).
Qed.

Lemma session_variables_mono (a b : World) (sid : string) :
  (forall v, In v (ChatVariables a) -> In v (ChatVariables b)) ->
  session_variables a sid <> [] -> session_variables b sid <> [].
Proof.
  intros Hsub Ha Hb.
  destruct (session_variables a sid) as [|v vs] eqn:Hvars; [now apply Ha|].
  assert (Hv : In v (session_variables a sid)) by (rewrite Hvars; now left).
  apply In_order_by, filter_In in Hv as [Hv Hsid].
  assert (Hv' : In v (session_variables b sid)).
  { apply In_order_by, filter_In. split; [now apply Hsub | assumption]. }
  now rewrite Hb in Hv'.
Qed.

(** C2, as the code has it.  Each teardown runs its own extraction and
    export: with extraction fields configured and a backend that answers,
    the deleteSession handler followed by the disconnect handler issue one
    extraction request each, the second over the history that the first
    has emptied, and when the first appended a row the second appends
    another.  The second teardown returns without an error logged or
    emitted, and leaves no session and no message of the session. *)
Theorem C2_teardown_twice (env1 env2 : Env) (sock : string) (w : World)
  (gs : GlobalSettings) (h : string) (hs : list string)
  (members1 members2 : list (string * Js.value)) :
  Settings w = Some gs ->
  extractionHeaders gs = Some (h :: hs) ->
  (forall msgs, extraction_completion env1 msgs = ExtractionObject members1) ->
  (forall msgs, extraction_completion env2 msgs = ExtractionObject members2) ->
  (forall target row, sheets_values_append env2 target row = true) ->
  let w1 := exec (on_deleteSession env1 sock None) w in
  let w2 := exec (on_disconnect env2 sock) w1 in
  exists first second : list Event,
    trace w1 = (trace w ++ first)%list
    /\ trace w2 = (trace w1 ++ second)%list
    /\ count is_extraction_request first = 1
    /\ count is_extraction_request second = 1
    /\ In (Issued (ChatCompletionsCreate
                     [mkChatMsg "system" (extractionPrompt (h :: hs));
                      mkChatMsg "user" ""] true)) second
    /\ (count is_append_request first = 1 -> count is_append_request second = 1)
    /\ count is_error second = 0
    /\ result (on_disconnect env2 sock) w1 = Return tt
    /\ ~ In sock (ChatSessions w2)
    /\ (forall m, In m (Messages w2) -> msg_sessionId m <> sock).
Proof.
  intros Hsettings Hheaders Hreply1 Hreply2 Hok w1 w2.
  assert (Hh : headers_of (Settings w) = h :: hs).
  { rewrite Hsettings. simpl. now rewrite Hheaders. }
  assert (Hw1 : w1 = add_trace (torn_down env1 w sock (h :: hs) members1)
                               [SocketEmit "sessionDeleted" sock]).
  { unfold w1, exec.
    now rewrite (on_deleteSession_run env1 sock w Hh (Hreply1 _)). }
  destruct (torn_down_facts env1 w sock (h :: hs) members1)
    as [Hs1 [[stored1 [Hx1 Hv1]] [Hsx1 [_ [Hm1 Ht1]]]]].
  assert (Hh1 : headers_of (Settings w1) = h :: hs).
  { rewrite Hw1. cbn [add_trace Settings]. now rewrite Hs1. }
  assert (Hrun2 : on_disconnect env2 sock w1
                  = (Return tt, torn_down env2 w1 sock (h :: hs) members2)).
  { exact (on_disconnect_run env2 sock w1 Hh1 (Hreply2 _)). }
  assert (Hw2 : w2 = torn_down env2 w1 sock (h :: hs) members2).
  { unfold w2, exec. now rewrite Hrun2. }
  destruct (torn_down_facts env2 w1 sock (h :: hs) members2)
    as [Hs2 [[stored2 [Hx2 Hv2]] [Hsx2 [Hgone2 [Hm2 Ht2]]]]].
  assert (Hempty : session_history w1 sock = []).
  { unfold session_history.
    destruct (filter _ (Messages w1)) as [|m ms] eqn:Hfilter; [reflexivity|].
    assert (Hm : In m (filter (fun m => String.eqb (msg_sessionId m) sock)
                              (Messages w1))) by (rewrite Hfilter; now left).
    apply filter_In in Hm as [Hin Heq]. apply String.eqb_eq in Heq.
    rewrite Hw1 in Hin. cbn [add_trace Messages] in Hin.
    now destruct (Hm1 m Hin). }
  eexists. eexists.
  split; [|split].
  - rewrite Hw1. cbn [add_trace trace]. rewrite Ht1, <- !app_assoc. reflexivity.
  - rewrite Hw2. exact Ht2.
  - split; [|split; [|split; [|split; [|split; [|split; [|split]]]]]].
    + rewrite !count_app, export_trace_extraction. reflexivity.
    + rewrite !count_app, export_trace_extraction. reflexivity.
    + apply in_or_app. left. left.
      unfold extraction_messages. now rewrite Hempty.
    + rewrite !count_app, !export_trace_append.
      assert (Hsw1 : Settings w1 = Settings w).
      { rewrite Hw1. cbn [add_trace Settings]. exact Hs1. }
      rewrite Hsx1, Hsx2, Hsw1.
      unfold count at 1 2 3. cbn [is_append_request filter List.length Nat.add].
      destruct (target_of (Settings w)) as [[gs' target]|]; [|discriminate].
      destruct (session_variables (extracted w sock (h :: hs) members1) sock)
        as [|v vs] eqn:Hvars; [discriminate|].
      intros _.
      assert (Hne : session_variables (extracted w1 sock (h :: hs) members2) sock
                    <> []).
      { apply (@session_variables_mono (extracted w sock (h :: hs) members1)).
        - intros x Hx. rewrite Hx2. apply in_or_app. left.
          rewrite Hw1. cbn [add_trace ChatVariables]. now rewrite Hv1, <- Hx1.
        - now rewrite Hvars. }
      destruct (session_variables (extracted w1 sock (h :: hs) members2) sock);
        [contradiction | reflexivity].
    + rewrite !count_app, (export_trace_errors _ _ _ Hok). reflexivity.
    + unfold result. now rewrite Hrun2.
    + now rewrite Hw2.
    + now rewrite Hw2.
Qed.

Lemma C2_teardown_twice_witness :
  let w1 := exec (on_deleteSession Sample.env "sock" None) Sample.world_chat in
  let w2 := exec (on_disconnect Sample.env "sock") w1 in
  exists first second : list Event,
    trace w1 = (trace Sample.world_chat ++ first)%list
    /\ trace w2 = (trace w1 ++ second)%list
    /\ count is_extraction_request first = 1
    /\ count is_extraction_request second = 1
    /\ In (Issued (ChatCompletionsCreate
                     [mkChatMsg "system" (extractionPrompt ["name"; "email"]);
                      mkChatMsg "user" ""] true)) second
    /\ (count is_append_request first = 1 -> count is_append_request second = 1)
    /\ count is_error second = 0
    /\ result (on_disconnect Sample.env "sock") w1 = Return tt
    /\ ~ In "sock" (ChatSessions w2)
    /\ (forall m, In m (Messages w2) -> msg_sessionId m <> "sock").
Proof.
  apply (@C2_teardown_twice Sample.env Sample.env "sock" Sample.world_chat
           Sample.settings "name" ["email"]
           [("email", Js.VStr "a@x.com"); ("age", Js.VNum 41)]
           [("email", Js.VStr "a@x.com"); ("age", Js.VNum 41)]).
  - reflexivity.
  - reflexivity.
  - reflexivity.
  - reflexivity.
  - reflexivity.
Defined.

(** C2, as the specification has it, fails: the deleteSession handler
    followed by the disconnect handler issue two extraction requests,
    append two rows and store the variables twice. *)
Lemma C2_counterexample :
  let w2 := exec (on_disconnect Sample.env "sock")
                 (exec (on_deleteSession Sample.env "sock" None) Sample.world_chat) in
  count is_extraction_request (trace w2) = 2
  /\ count is_append_request (trace w2) = 2
  /\ filter is_append_request (trace w2)
     = [Issued (SheetsValuesAppend "T" [""; "a@x.com"]);
        Issued (SheetsValuesAppend "T" [""; "a@x.com"])]
  /\ List.length (ChatVariables w2) = 6.
Proof. repeat split. Qed.

(** * Further properties of the handlers *)

(** ** The message handler at its edges *)

Lemma find_no_session (sid : string) (l : list string) :
  ~ In sid l -> find (String.eqb sid) l = None.
Proof.
  intros Hnot. destruct (find (String.eqb sid) l) as [x|] eqn:Hfind; [|reflexivity].
  apply find_some in Hfind as [Hin Heq]. apply String.eqb_eq in Heq.
  subst. contradiction.
Qed.

Lemma on_message_unknown_run (env : Env) (sid text : string) (w : World) :
  ~ In sid (ChatSessions w) ->
  on_message env sid text w = (Return tt, w).
Proof.
  intros Hnot. unfold on_message. unfold try_catch at 1.
  unfold bind at 1. unfold ChatSession_findByPk.
  now rewrite (find_no_session _ _ Hnot).
Qed.

Lemma on_message_without_settings_run (env : Env) (sid text : string)
  (w : World) :
  In sid (ChatSessions w) ->
  Settings w = None ->
  on_message env sid text w
  = (Return tt,
     after_user w sid text
       [ConsoleError "Error:"; SocketEmit "error" "An error occurred"]).
Proof.
  intros Hsession Hsettings. unfold on_message. unfold try_catch at 1.
  unfold bind at 1. unfold ChatSession_findByPk.
  rewrite (find_session _ _ Hsession).
  unfold bind at 1. unfold Message_create at 1.
  unfold bind at 1. unfold Message_findAll at 1.
  unfold bind at 1. unfold GlobalSettings_findByPk at 1.
  cbn [Settings Messages ChatSessions ChatVariables now trace].
  rewrite Hsettings. unfold throw, bind, console_error, socket_emit.
  rewrite !observe_run, add_trace_app.
  unfold after_user, add_trace. simpl. now rewrite Hsettings.
Qed.

(** A message for a socket that has no session is dropped: nothing is
    stored, requested, logged or emitted. *)
Theorem on_message_unknown_session (env : Env) (sid text : string) (w : World) :
  ~ In sid (ChatSessions w) ->
  on_message env sid text w = (Return tt, w).
Proof.
  intros Hnot. unfold on_message. unfold try_catch at 1.
  unfold bind at 1. unfold ChatSession_findByPk.
  now rewrite (find_no_session _ _ Hnot).
Qed.

Lemma on_message_unknown_session_witness :
  on_message Sample.env "ghost" "hi" Sample.world = (Return tt, Sample.world).
Proof.
  apply on_message_unknown_session.
  simpl. intros [H|[]]. discriminate H.
Defined.

(** When the settings row is missing, the turn stores the user's message,
    then fails before any request is made: the error is logged and emitted
    and the world is otherwise as it was. *)
Theorem on_message_without_settings (env : Env) (sid text : string) (w : World) :
  In sid (ChatSessions w) ->
  Settings w = None ->
  on_message env sid text w
  = (Return tt,
     after_user w sid text
       [ConsoleError "Error:"; SocketEmit "error" "An error occurred"]).
Proof.
  intros Hsession Hsettings. unfold on_message. unfold try_catch at 1.
  unfold bind at 1. unfold ChatSession_findByPk.
  rewrite (find_session _ _ Hsession).
  unfold bind at 1. unfold Message_create at 1.
  unfold bind at 1. unfold Message_findAll at 1.
  unfold bind at 1. unfold GlobalSettings_findByPk at 1.
  cbn [Settings Messages ChatSessions ChatVariables now trace].
  rewrite Hsettings. unfold throw, bind, console_error, socket_emit.
  rewrite !observe_run, add_trace_app.
  unfold after_user, add_trace. simpl. now rewrite Hsettings.
Qed.

Lemma on_message_without_settings_witness :
  on_message Sample.env "sock" "hi"
    (mkWorld ["sock"] [] [] None 0 [])
  = (Return tt,
     after_user (mkWorld ["sock"] [] [] None 0 []) "sock" "hi"
       [ConsoleError "Error:"; SocketEmit "error" "An error occurred"]).
Proof.
  apply on_message_without_settings.
  - simpl. auto.
  - reflexivity.
Defined.

Lemma context_trace_no_emit (env : Env) (gs : GlobalSettings)
  (event payload : string) :
  ~ In (SocketEmit event payload) (context_trace env gs).
Proof.
  intros He. unfold context_trace in He. apply in_app_or in He as [He|He].
  - unfold sheets_trace in He. apply in_flat_map in He as [id [_ He]].
    unfold sheet_events in He.
    destruct (sheets_values_get env id); simpl in He;
      repeat (destruct He as [He|He]; [discriminate He|]); contradiction.
  - unfold webpages_trace in He. apply in_flat_map in He as [u [_ He]].
    unfold webpage_events in He.
    destruct (webpage_of env u); simpl in He;
      repeat (destruct He as [He|He]; [discriminate He|]); contradiction.
Qed.

(** A completion that comes back without a text (a null content) ends the
    turn like a rejected call: the error event is emitted, no response is
    emitted and no assistant message is stored. *)
Theorem on_message_null_content (env : Env) (sid text : string) (w : World)
  (gs : GlobalSettings) :
  In sid (ChatSessions w) ->
  Settings w = Some gs ->
  chat_completion env (turn_messages env gs (history_with w sid text))
    = CompletionContent None ->
  Messages (exec (on_message env sid text) w)
  = (Messages w ++ [mkMessage sid "user" text (now w)])%list
  /\ exists added,
       trace (exec (on_message env sid text) w) = (trace w ++ added)%list
       /\ In (SocketEmit "error" "An error occurred") added
       /\ forall payload, ~ In (SocketEmit "response" payload) added.
Proof.
  intros Hsession Hsettings Hnull.
  unfold exec. rewrite (on_message_run env sid text w Hsession Hsettings).
  rewrite Hnull. cbn [snd after_user Messages trace].
  split; [reflexivity|].
  eexists. split; [reflexivity|]. split.
  - apply in_or_app. right. simpl. auto.
  - intros payload He.
    apply in_app_or in He as [He|He].
    + apply in_app_or in He as [He|He].
      * now apply context_trace_no_emit in He.
      * simpl in He. repeat (destruct He as [He|He]; [discriminate He|]).
        contradiction.
    + simpl in He. repeat (destruct He as [He|He]; [discriminate He|]).
      contradiction.
Qed.

Lemma on_message_null_content_witness :
  Messages (exec (on_message
                    (mkEnv (sheets_values_get Sample.env) (webpage_of Sample.env)
                           (fun _ => CompletionContent None)
                           (extraction_completion Sample.env)
                           (sheets_values_append Sample.env))
                    "sock" "hi") Sample.world)
  = (Messages Sample.world ++ [mkMessage "sock" "user" "hi" (now Sample.world)])%list
  /\ exists added,
       trace (exec (on_message
                      (mkEnv (sheets_values_get Sample.env) (webpage_of Sample.env)
                             (fun _ => CompletionContent None)
                             (extraction_completion Sample.env)
                             (sheets_values_append Sample.env))
                      "sock" "hi") Sample.world)
       = (trace Sample.world ++ added)%list
       /\ In (SocketEmit "error" "An error occurred") added
       /\ forall payload, ~ In (SocketEmit "response" payload) added.
Proof.
  apply (@on_message_null_content _ "sock" "hi" Sample.world Sample.settings).
  - simpl. auto.
  - reflexivity.
  - reflexivity.
Defined.

(** ** History and the prompt of a turn *)

Lemma insert_by_snoc {A : Type} (before : A -> A -> bool) (a x : A) (l : list A) :
  before a x = true ->
  insert_by before a (l ++ [x]) = (insert_by before a l ++ [x])%list.
Proof.
  intros Hax. induction l as [|y l IH]; simpl.
  - now rewrite Hax.
  - destruct (before a y); simpl; [reflexivity | now rewrite IH].
Qed.

Lemma order_by_snoc {A : Type} (before : A -> A -> bool) (x : A) (l : list A) :
  (forall y, In y l -> before y x = true) ->
  order_by before (l ++ [x]) = (order_by before l ++ [x])%list.
Proof.
  induction l as [|a l IH]; intros Hall; simpl; [reflexivity|].
  rewrite IH by (intros y Hy; apply Hall; now right).
  apply insert_by_snoc. apply Hall. now left.
Qed.

Lemma history_with_snoc (w : World) (sid text : string) :
  (forall m, In m (Messages w) -> msg_sessionId m = sid ->
             msg_timestamp m <= now w) ->
  history_with w sid text
  = (session_history w sid ++ [mkMessage sid "user" text (now w)])%list.
Proof.
  intros Hnow. unfold history_with, session_history.
  rewrite filter_app. simpl. rewrite String.eqb_refl.
  apply order_by_snoc. intros m Hm. apply filter_In in Hm as [Hin Heq].
  apply String.eqb_eq in Heq. apply Nat.leb_le. simpl. now apply Hnow.
Qed.

Lemma context_trace_no_chat_request (env : Env) (gs : GlobalSettings) :
  count is_chat_request (context_trace env gs) = 0.
Proof.
  unfold context_trace, sheets_trace, webpages_trace.
  rewrite count_app. unfold count.
  assert (H1 : forall ids,
             filter is_chat_request (flat_map (sheet_events env) ids) = []).
  { induction ids as [|id ids IH]; [reflexivity|]. simpl.
    rewrite filter_app, IH, app_nil_r. unfold sheet_events.
    now destruct (sheets_values_get env id). }
  assert (H2 : forall us,
             filter is_chat_request (flat_map (webpage_events env) us) = []).
  { induction us as [|u us IH]; [reflexivity|]. simpl.
    rewrite filter_app, IH, app_nil_r. unfold webpage_events.
    now destruct (webpage_of env u). }
  now rewrite H1, H2.
Qed.

Lemma turn_messages_layout (env : Env) (gs : GlobalSettings)
  (history : list Message) :
  turn_messages env gs history
  = (context_messages env gs
     ++ mkChatMsg "system" (prompt gs) :: map formatted history)%list.
Proof.
  unfold turn_messages, context_messages.
  destruct (configured (knowledgeBaseUrls gs));
    destruct (configured (knowledgeBaseSheetIds gs)); reflexivity.
Qed.

Lemma turn_requests (env : Env) (sid text : string) (w : World)
  (gs : GlobalSettings) :
  In sid (ChatSessions w) ->
  Settings w = Some gs ->
  (forall m, In m (Messages w) -> msg_sessionId m = sid ->
             msg_timestamp m <= now w) ->
  filter is_chat_request (trace (exec (on_message env sid text) w))
  = (filter is_chat_request (trace w)
     ++ [Issued (ChatCompletionsCreate
                   (context_messages env gs
                    ++ [mkChatMsg "system" (prompt gs)]
                    ++ map formatted (session_history w sid)
                    ++ [mkChatMsg "user" text]) false)])%list.
Proof.
  intros Hsession Hsettings Hnow.
  assert (Hctx : filter is_chat_request (context_trace env gs) = []).
  { pose proof (context_trace_no_chat_request env gs) as H. unfold count in H.
    now destruct (filter is_chat_request (context_trace env gs)). }
  unfold exec. rewrite (on_message_run env sid text w Hsession Hsettings).
  rewrite turn_messages_layout, (@history_with_snoc w sid text Hnow), map_app.
  cbn [map formatted role content].
  match goal with
  | |- context [chat_completion env ?m] =>
      destruct (chat_completion env m) as [|[raw|]]
  end;
    cbn [snd after_turn after_user trace];
    rewrite !filter_app, Hctx; reflexivity.
Qed.

(** The request of a turn carries, in this order: the block of the web
    pages when URLs are configured, the block of the sheets when sheets
    are configured, the system prompt, the messages the session already
    has, oldest first with their roles, and last the new user message.
    A turn issues exactly one such request.  The clock is taken not to be
    behind the stored messages. *)
Theorem turn_request_layout (env : Env) (sid text : string) (w : World)
  (gs : GlobalSettings) :
  In sid (ChatSessions w) ->
  Settings w = Some gs ->
  (forall m, In m (Messages w) -> msg_sessionId m = sid ->
             msg_timestamp m <= now w) ->
  filter is_chat_request (trace (exec (on_message env sid text) w))
  = (filter is_chat_request (trace w)
     ++ [Issued (ChatCompletionsCreate
                   (context_messages env gs
                    ++ [mkChatMsg "system" (prompt gs)]
                    ++ map formatted (session_history w sid)
                    ++ [mkChatMsg "user" text]) false)])%list.
Proof.
  intros Hsession Hsettings Hnow.
  assert (Hctx : filter is_chat_request (context_trace env gs) = []).
  { pose proof (context_trace_no_chat_request env gs) as H. unfold count in H.
    now destruct (filter is_chat_request (context_trace env gs)). }
  unfold exec. rewrite (on_message_run env sid text w Hsession Hsettings).
  rewrite turn_messages_layout, (@history_with_snoc w sid text Hnow), map_app.
  cbn [map formatted role content].
  match goal with
  | |- context [chat_completion env ?m] =>
      destruct (chat_completion env m) as [|[raw|]]
  end;
    cbn [snd after_turn after_user trace];
    rewrite !filter_app, Hctx; reflexivity.
Qed.

Lemma turn_request_layout_witness :
  filter is_chat_request
    (trace (exec (on_message Sample.env "sock" "And you?") Sample.world_chat))
  = (filter is_chat_request (trace Sample.world_chat)
     ++ [Issued (ChatCompletionsCreate
                   (context_messages Sample.env Sample.settings
                    ++ [mkChatMsg "system" (prompt Sample.settings)]
                    ++ map formatted (session_history Sample.world_chat "sock")
                    ++ [mkChatMsg "user" "And you?"]) false)])%list.
Proof.
  apply (@turn_request_layout Sample.env "sock" "And you?" Sample.world_chat
           Sample.settings).
  - simpl. auto.
  - reflexivity.
  - simpl. intros m [<-|[<-|[]]] _; simpl; lia.
Defined.

Lemma session_history_after_turn (w : World) (sid text answer : string)
  (tr : list Event) :
  (forall m, In m (Messages w) -> msg_sessionId m = sid ->
             msg_timestamp m <= now w) ->
  session_history (after_turn w sid text answer tr) sid
  = (session_history w sid
     ++ [mkMessage sid "user" text (now w);
         mkMessage sid "assistant" answer (S (now w))])%list.
Proof.
  intros Hnow. unfold session_history, after_turn. cbn [Messages].
  rewrite !filter_app. simpl. rewrite String.eqb_refl.
  rewrite order_by_snoc.
  - rewrite order_by_snoc.
    + now rewrite <- app_assoc.
    + intros m Hm. apply filter_In in Hm as [Hin Heq].
      apply String.eqb_eq in Heq. apply Nat.leb_le. simpl. now apply Hnow.
  - intros m Hm. apply Nat.leb_le. simpl.
    apply in_app_or in Hm as [Hm|[<-|[]]]; [|simpl; lia].
    apply filter_In in Hm as [Hin Heq]. apply String.eqb_eq in Heq.
    specialize (Hnow m Hin Heq). lia.
Qed.

(** Two turns in a row on one session: the request of the second turn
    carries the first turn's user message and the assistant's (limited)
    answer to it, in this order, between the earlier history and the new
    user message. *)
Theorem second_turn_carries_first (env1 env2 : Env) (sid text1 text2 : string)
  (w : World) (gs : GlobalSettings) (raw1 : string) :
  In sid (ChatSessions w) ->
  Settings w = Some gs ->
  (forall m, In m (Messages w) -> msg_sessionId m = sid ->
             msg_timestamp m <= now w) ->
  chat_completion env1 (turn_messages env1 gs (history_with w sid text1))
    = CompletionContent (Some raw1) ->
  let w1 := exec (on_message env1 sid text1) w in
  filter is_chat_request (trace (exec (on_message env2 sid text2) w1))
  = (filter is_chat_request (trace w1)
     ++ [Issued (ChatCompletionsCreate
                   (context_messages env2 gs
                    ++ [mkChatMsg "system" (prompt gs)]
                    ++ map formatted (session_history w sid)
                    ++ [mkChatMsg "user" text1;
                        mkChatMsg "assistant" (limit_length raw1);
                        mkChatMsg "user" text2]) false)])%list.
Proof.
  intros Hsession Hsettings Hnow Hanswer w1.
  assert (Hw1 : exists tr, w1 = after_turn w sid text1 (limit_length raw1) tr).
  { unfold w1, exec. rewrite (on_message_run env1 sid text1 w Hsession Hsettings).
    rewrite Hanswer. eexists. reflexivity. }
  destruct Hw1 as [tr Hw1].
  rewrite (@turn_requests env2 sid text2 w1 gs).
  - rewrite Hw1, (@session_history_after_turn w sid text1 (limit_length raw1) tr Hnow).
    rewrite map_app. cbn [map formatted role content].
    now rewrite <- !app_assoc.
  - now rewrite Hw1.
  - now rewrite Hw1.
  - rewrite Hw1. cbn [after_turn Messages now]. intros m Hm Hsid.
    apply in_app_or in Hm as [Hm|[<-|[]]]; [|simpl; lia].
    apply in_app_or in Hm as [Hm|[<-|[]]]; [|simpl; lia].
    specialize (Hnow m Hm Hsid). lia.
Qed.

Lemma second_turn_carries_first_witness :
  let w1 := exec (on_message Sample.env "sock" "hi") Sample.world in
  filter is_chat_request (trace (exec (on_message Sample.env "sock" "again") w1))
  = (filter is_chat_request (trace w1)
     ++ [Issued (ChatCompletionsCreate
                   (context_messages Sample.env Sample.settings
                    ++ [mkChatMsg "system" (prompt Sample.settings)]
                    ++ map formatted (session_history Sample.world "sock")
                    ++ [mkChatMsg "user" "hi";
                        mkChatMsg "assistant" (limit_length "Hello!");
                        mkChatMsg "user" "again"]) false)])%list.
Proof.
  apply (@second_turn_carries_first Sample.env Sample.env "sock" "hi" "again"
           Sample.world Sample.settings "Hello!").
  - simpl. auto.
  - reflexivity.
  - simpl. intros m [].
  - reflexivity.
Defined.

(** Whatever the session, the settings and the answers of the outside, the
    message handler returns without throwing, leaves the sessions, the
    stored variables and the settings as they are, and only adds messages:
    at most two, all of the socket's session, after the ones already
    stored. *)
Theorem on_message_frame (env : Env) (sid text : string) (w : World) :
  result (on_message env sid text) w = Return tt
  /\ ChatSessions (exec (on_message env sid text) w) = ChatSessions w
  /\ ChatVariables (exec (on_message env sid text) w) = ChatVariables w
  /\ Settings (exec (on_message env sid text) w) = Settings w
  /\ exists added,
       Messages (exec (on_message env sid text) w) = (Messages w ++ added)%list
       /\ List.length added <= 2
       /\ forall m, In m added -> msg_sessionId m = sid.
Proof.
  unfold result, exec.
  destruct (in_dec string_dec sid (ChatSessions w)) as [Hin|Hnot].
  - destruct (Settings w) as [gs|] eqn:Hsettings.
    + rewrite (on_message_run env sid text w Hin Hsettings).
      destruct (chat_completion env _) as [|[raw|]];
        cbn [fst snd after_turn after_user ChatSessions ChatVariables Settings
             Messages];
        (repeat split; try reflexivity; try assumption);
        try (rewrite <- app_assoc);
        eexists; (split; [reflexivity|]); (split; [simpl; lia|]);
        simpl; intros m Hm;
        repeat (destruct Hm as [<-|Hm]; [reflexivity|]); contradiction.
    + rewrite (on_message_without_settings_run env sid text w Hin Hsettings).
      cbn [fst snd after_user ChatSessions ChatVariables Settings Messages].
      repeat split; try reflexivity; try assumption.
      eexists; (split; [reflexivity|]); (split; [simpl; lia|]).
      simpl. intros m [<-|[]]. reflexivity.
  - rewrite (on_message_unknown_run env sid text w Hnot). simpl.
    repeat split. exists []. rewrite app_nil_r. repeat split; simpl; [lia|tauto].
Qed.

(** ** Knowledge blocks with any number of failed fetches *)

Lemma concat_all_filter {A : Type} (f : A -> string) (ok : A -> bool) (l : list A) :
  (forall x, ok x = false -> f x = "") ->
  concat_all (map f (filter ok l)) = concat_all (map f l).
Proof.
  intros Hempty. induction l as [|x l IH]; simpl; [reflexivity|].
  destruct (ok x) eqn:Hx; simpl; [now rewrite IH|].
  now rewrite (Hempty x Hx), IH.
Qed.

Lemma sheets_trace_errors (env : Env) (sheetIds : list string) :
  count is_console_error (sheets_trace env sheetIds)
  = 2 * List.length (filter (fun id => negb (sheet_fetched env id)) sheetIds).
Proof.
  unfold sheets_trace, count.
  induction sheetIds as [|id ids IH]; [reflexivity|].
  cbn [flat_map filter]. rewrite filter_app, length_app, IH.
  unfold sheet_events, sheet_fetched.
  destruct (sheets_values_get env id); simpl; lia.
Qed.

(** The sheet block holds exactly the sheets that could be fetched, in
    configured order, whatever the number of failed fetches: with none
    fetched it is the bare label.  The assembly does not throw and
    touches no table, and each failed fetch is logged twice (by the
    fetcher and by the loop). *)
Theorem sheet_block_of_fetched (env : Env) (sheetId : string)
  (rest : list string) (w : World) :
  result (formatAllSheetDataForContext env (Some (sheetId :: rest))) w
  = Return (("Knowledge Base Information:" ++ Js.nl)
            ++ concat_all (map (rendered_sheet env)
                               (filter (sheet_fetched env) (sheetId :: rest))))
  /\ exists added,
       exec (formatAllSheetDataForContext env (Some (sheetId :: rest))) w
       = add_trace w added
       /\ count is_console_error added
          = 2 * List.length (filter (fun id => negb (sheet_fetched env id))
                                    (sheetId :: rest)).
Proof.
  unfold result, exec. rewrite formatAllSheetDataForContext_run. cbn [fst snd].
  split.
  - unfold sheets_block. rewrite sheets_context_rendered.
    rewrite concat_all_filter; [reflexivity|].
    intros id Hid. unfold sheet_fetched in Hid. unfold rendered_sheet.
    now destruct (sheets_values_get env id).
  - eexists. split; [reflexivity|]. apply sheets_trace_errors.
Qed.

Lemma webpages_context_rendered (env : Env) (urls : list string) :
  forall allContext : string,
    webpages_context env urls allContext
    = allContext ++ concat_all (map (rendered_webpage env) urls).
Proof.
  unfold webpages_context.
  induction urls as [|url rest IH]; intros allContext;
    cbn [fold_left map concat_all fold_right].
  - now rewrite string_app_nil_r.
  - rewrite IH. unfold rendered_webpage at 2.
    destruct (webpage_of env url).
    + now rewrite string_app_assoc.
    + reflexivity.
Qed.

Lemma webpages_trace_errors (env : Env) (urls : list string) :
  count is_console_error (webpages_trace env urls)
  = 2 * List.length (filter (fun url => negb (page_fetched env url)) urls).
Proof.
  unfold webpages_trace, count.
  induction urls as [|url rest IH]; [reflexivity|].
  cbn [flat_map filter]. rewrite filter_app, length_app, IH.
  unfold webpage_events, page_fetched.
  destruct (webpage_of env url); simpl; lia.
Qed.

(** The web-page block holds, after its label, the address, the title and
    the text of exactly the pages that could be fetched, in configured
    order; a page that cannot be fetched is logged and left out, and the
    assembly neither throws nor touches a table. *)
Theorem webpage_block_of_fetched (env : Env) (url : string)
  (rest : list string) (w : World) :
  result (formatAllWebpageContentForContext env (Some (url :: rest))) w
  = Return (("Webpage Knowledge Base:" ++ Js.nl)
            ++ concat_all (map (rendered_webpage env)
                               (filter (page_fetched env) (url :: rest))))
  /\ exists added,
       exec (formatAllWebpageContentForContext env (Some (url :: rest))) w
       = add_trace w added
       /\ count is_console_error added
          = 2 * List.length (filter (fun u => negb (page_fetched env u))
                                    (url :: rest)).
Proof.
  unfold result, exec. rewrite formatAllWebpageContentForContext_run.
  cbn [fst snd]. split.
  - unfold webpages_block. rewrite webpages_context_rendered.
    rewrite concat_all_filter; [reflexivity|].
    intros u Hu. unfold page_fetched in Hu. unfold rendered_webpage.
    now destruct (webpage_of env u).
  - eexists. split; [reflexivity|]. apply webpages_trace_errors.
Qed.

(** ** Teardown in every case *)

Lemma teardown_cases (env : Env) (sid : string) (w : World) :
  teardown env sid w =
  match headers_of (Settings w) with
  | [] => (Return tt, destroyed sid (add_trace w (export_trace env sid w)))
  | h :: hs =>
      let request :=
        ChatCompletionsCreate (extraction_messages w sid (h :: hs)) true in
      match extraction_completion env (extraction_messages w sid (h :: hs)) with
      | ExtractionRejected =>
          (Throw "rejected",
           add_trace w [Issued request; Settled request false;
                        ConsoleError "Error analyzing chat for variables:"])
      | ExtractionMalformed =>
          (Throw "SyntaxError",
           add_trace w [Issued request; Settled request true;
                        ConsoleError "Error analyzing chat for variables:"])
      | ExtractionObject members =>
          (Return tt, torn_down env w sid (h :: hs) members)
      end
  end.
Proof.
  destruct (headers_of (Settings w)) as [|h hs] eqn:Hheaders.
  - unfold teardown. unfold bind at 1.
    rewrite (analyzeChatForVariables_no_headers env sid w Hheaders).
    unfold bind at 1. now rewrite writeVariablesToSpreadsheet_trace.
  - cbv zeta.
    destruct (extraction_completion env (extraction_messages w sid (h :: hs)))
      as [| |members] eqn:Hreply.
    + unfold teardown. unfold bind at 1.
      now rewrite (analyzeChatForVariables_run env sid w Hheaders), Hreply.
    + unfold teardown. unfold bind at 1.
      now rewrite (analyzeChatForVariables_run env sid w Hheaders), Hreply.
    + exact (teardown_run env sid w Hheaders Hreply).
Qed.

Lemma torn_apart_refl (sid : string) (w : World) (tr : list Event) :
  torn_apart sid w (add_trace w tr).
Proof.
  unfold torn_apart, add_trace. cbn [Settings ChatVariables ChatSessions Messages].
  split; [reflexivity|]. split.
  - exists []. rewrite app_nil_r. split; [reflexivity|]. intros v [].
  - repeat split; auto.
Qed.

Lemma torn_apart_destroyed (sid : string) (w : World) (tr : list Event)
  (stored : list ChatVariable) (t : nat) (tr' : list Event) :
  (forall v, In v stored -> sessionId v = sid) ->
  torn_apart sid w
    (add_trace
       (destroyed sid
          (add_trace
             (mkWorld (ChatSessions w) (Messages w)
                      (ChatVariables w ++ stored) (Settings w) t
                      (trace w ++ tr)) tr')) []).
Proof.
  intros Hstored.
  unfold torn_apart, destroyed, add_trace.
  cbn [Settings ChatVariables ChatSessions Messages].
  split; [reflexivity|]. split; [exists stored; auto|].
  split; [|split; [|split]].
  - intros s Hs. now apply filter_In in Hs.
  - intros m Hm. now apply filter_In in Hm.
  - intros s Hne Hs. apply filter_In. split; [assumption|].
    apply Bool.negb_true_iff. now apply String.eqb_neq.
  - intros m Hne Hm. apply filter_In. split; [assumption|].
    apply Bool.negb_true_iff. now apply String.eqb_neq.
Qed.

Lemma torn_apart_trace (sid : string) (w w' : World) (tr : list Event) :
  torn_apart sid w w' -> torn_apart sid w (add_trace w' tr).
Proof. unfold torn_apart, add_trace. now cbn [Settings ChatVariables ChatSessions Messages]. Qed.

Lemma teardown_torn_apart (env : Env) (sid : string) (w : World) :
  torn_apart sid w (exec (teardown env sid) w).
Proof.
  unfold exec. rewrite teardown_cases.
  destruct (headers_of (Settings w)) as [|h hs].
  - cbn [snd].
    pose proof (@torn_apart_destroyed sid w [] [] (now w)
                  (export_trace env sid w)) as H.
    rewrite add_trace_nil in H.
    replace (mkWorld (ChatSessions w) (Messages w) (ChatVariables w ++ [])
                     (Settings w) (now w) (trace w ++ [])) with w in H
      by (destruct w; simpl; now rewrite !app_nil_r).
    apply H. intros v [].
  - cbv zeta.
    destruct (extraction_completion env (extraction_messages w sid (h :: hs)))
      as [| |members]; cbn [snd]; try apply torn_apart_refl.
    unfold torn_down, extracted, after_extraction.
    match goal with
    | |- torn_apart _ _ ?x => rewrite <- (add_trace_nil x)
    end.
    apply torn_apart_destroyed.
    intros v Hv. now apply stamped_In in Hv.
Qed.

(** Whatever the outcome, a teardown (by deleteSession, with or without a
    session id in the request, by disconnect, or by the delete route)
    leaves the settings alone, never removes a stored variable and stores
    new ones for the torn-down session only, and never adds a session or
    a message nor removes those of another session. *)
Theorem teardown_keeps_others (env : Env) (socket_id sid : string)
  (data_sessionId : option string) (w : World) :
  torn_apart (or_socket_id data_sessionId socket_id) w
             (exec (on_deleteSession env socket_id data_sessionId) w)
  /\ torn_apart socket_id w (exec (on_disconnect env socket_id) w)
  /\ torn_apart sid w (exec (delete_session env sid) w).
Proof.
  split; [|split].
  - pose proof (teardown_torn_apart env
                  (or_socket_id data_sessionId socket_id) w) as H.
    unfold exec in *. unfold on_deleteSession, try_catch.
    unfold bind at 1.
    destruct (teardown env (or_socket_id data_sessionId socket_id) w)
      as [[[]|e] w'] eqn:Hrun; cbn [snd] in *.
    + unfold socket_emit. rewrite observe_run. cbn [snd].
      now apply torn_apart_trace.
    + unfold bind, console_error, socket_emit. rewrite !observe_run.
      cbn [snd]. now apply torn_apart_trace, torn_apart_trace.
  - pose proof (teardown_torn_apart env socket_id w) as H.
    unfold exec in *. unfold on_disconnect, try_catch.
    destruct (teardown env socket_id w) as [[[]|e] w'] eqn:Hrun; cbn [snd] in *.
    + assumption.
    + unfold console_error. rewrite observe_run. cbn [snd].
      now apply torn_apart_trace.
  - pose proof (teardown_torn_apart env sid w) as H.
    unfold exec in *. unfold delete_session, try_catch.
    unfold bind at 1.
    destruct (teardown env sid w) as [[[]|e] w'] eqn:Hrun; cbn [snd] in *.
    + assumption.
    + unfold bind, console_error. rewrite observe_run. cbn [snd].
      now apply torn_apart_trace.
Qed.

(** When the extraction of a teardown fails (the request is rejected, or
    its answer cannot be parsed), the teardown stops there on each of its
    three paths: nothing is exported, and the session, its messages and
    the stored variables stay as they were.  The deleteSession handler
    emits the error event, the disconnect handler only logs, and the
    delete route answers 500. *)
Theorem extraction_failure_aborts_teardown (env : Env) (sid : string) (w : World)
  (h : string) (hs : list string) :
  headers_of (Settings w) = h :: hs ->
  (forall members,
      extraction_completion env (extraction_messages w sid (h :: hs))
      <> ExtractionObject members) ->
  let request :=
    ChatCompletionsCreate (extraction_messages w sid (h :: hs)) true in
  exists fulfilled : bool,
    on_deleteSession env sid None w
    = (Return tt,
       add_trace w [Issued request; Settled request fulfilled;
                    ConsoleError "Error analyzing chat for variables:";
                    ConsoleError "Error deleting session via websocket:";
                    SocketEmit "error" "Error deleting session"])
    /\ on_disconnect env sid w
       = (Return tt,
          add_trace w [Issued request; Settled request fulfilled;
                       ConsoleError "Error analyzing chat for variables:";
                       ConsoleError "Error in disconnect handler:"])
    /\ delete_session env sid w
       = (Return server_error,
          add_trace w [Issued request; Settled request fulfilled;
                       ConsoleError "Error analyzing chat for variables:";
                       ConsoleError "Error deleting session:"]).
Proof.
  intros Hheaders Hfail request.
  pose proof (teardown_cases env sid w) as Hrun.
  rewrite Hheaders in Hrun. cbv zeta in Hrun. fold request in Hrun.
  destruct (extraction_completion env (extraction_messages w sid (h :: hs)))
    as [| |members] eqn:Hreply.
  - exists false.
    unfold on_deleteSession, on_disconnect, delete_session, or_socket_id,
      try_catch, bind.
    rewrite Hrun. unfold console_error, socket_emit, ret.
    rewrite !observe_run, !add_trace_app. auto.
  - exists true.
    unfold on_deleteSession, on_disconnect, delete_session, or_socket_id,
      try_catch, bind.
    rewrite Hrun. unfold console_error, socket_emit, ret.
    rewrite !observe_run, !add_trace_app. auto.
  - now destruct (Hfail members).
Qed.

Lemma extraction_failure_aborts_teardown_witness :
  let env :=
    mkEnv (sheets_values_get Sample.env) (webpage_of Sample.env)
          (chat_completion Sample.env) (fun _ => ExtractionMalformed)
          (sheets_values_append Sample.env) in
  let request :=
    ChatCompletionsCreate
      (extraction_messages Sample.world_chat "sock" ["name"; "email"]) true in
  exists fulfilled : bool,
    on_deleteSession env "sock" None Sample.world_chat
    = (Return tt,
       add_trace Sample.world_chat
         [Issued request; Settled request fulfilled;
          ConsoleError "Error analyzing chat for variables:";
          ConsoleError "Error deleting session via websocket:";
          SocketEmit "error" "Error deleting session"])
    /\ on_disconnect env "sock" Sample.world_chat
       = (Return tt,
          add_trace Sample.world_chat
            [Issued request; Settled request fulfilled;
             ConsoleError "Error analyzing chat for variables:";
             ConsoleError "Error in disconnect handler:"])
    /\ delete_session env "sock" Sample.world_chat
       = (Return server_error,
          add_trace Sample.world_chat
            [Issued request; Settled request fulfilled;
             ConsoleError "Error analyzing chat for variables:";
             ConsoleError "Error deleting session:"]).
Proof.
  apply (@extraction_failure_aborts_teardown
           (mkEnv (sheets_values_get Sample.env) (webpage_of Sample.env)
                  (chat_completion Sample.env) (fun _ => ExtractionMalformed)
                  (sheets_values_append Sample.env))
           "sock" Sample.world_chat "name" ["email"]).
  - reflexivity.
  - intros members. simpl. discriminate.
Defined.

(** With no extraction field configured (or no settings row), a teardown
    asks the backend nothing and stores no variable, and still deletes the
    session and its messages. *)
Theorem teardown_without_fields (env : Env) (sid : string) (w : World) :
  headers_of (Settings w) = [] ->
  result (on_disconnect env sid) w = Return tt
  /\ ChatVariables (exec (on_disconnect env sid) w) = ChatVariables w
  /\ count is_extraction_request (trace (exec (on_disconnect env sid) w))
     = count is_extraction_request (trace w)
  /\ ~ In sid (ChatSessions (exec (on_disconnect env sid) w))
  /\ (forall m, In m (Messages (exec (on_disconnect env sid) w)) ->
                msg_sessionId m <> sid).
Proof.
  intros Hheaders.
  pose proof (teardown_cases env sid w) as Hrun. rewrite Hheaders in Hrun.
  unfold result, exec, on_disconnect, try_catch. rewrite Hrun.
  unfold destroyed, add_trace.
  cbn [fst snd ChatVariables ChatSessions Messages trace].
  split; [reflexivity|]. split; [reflexivity|]. split; [|split].
  - now rewrite count_app, export_trace_extraction, Nat.add_0_r.
  - intros Hin. apply filter_In in Hin as [_ Hne].
    now rewrite String.eqb_refl in Hne.
  - intros m Hin Heq. apply filter_In in Hin as [_ Hne].
    now rewrite Heq, String.eqb_refl in Hne.
Qed.

Lemma teardown_without_fields_witness :
  let w := mkWorld ["sock"] [mkMessage "sock" "user" "hi" 0] [] None 1 [] in
  result (on_disconnect Sample.env "sock") w = Return tt
  /\ ChatVariables (exec (on_disconnect Sample.env "sock") w) = ChatVariables w
  /\ count is_extraction_request (trace (exec (on_disconnect Sample.env "sock") w))
     = count is_extraction_request (trace w)
  /\ ~ In "sock" (ChatSessions (exec (on_disconnect Sample.env "sock") w))
  /\ (forall m, In m (Messages (exec (on_disconnect Sample.env "sock") w)) ->
                msg_sessionId m <> "sock").
Proof.
  apply (@teardown_without_fields Sample.env "sock"
           (mkWorld ["sock"] [mkMessage "sock" "user" "hi" 0] [] None 1 [])).
  reflexivity.
Defined.

(** A failed write to the target spreadsheet does not block a teardown:
    the row is attempted, the failure is logged, and the session and its
    messages are deleted and the deletion is confirmed to the client, with
    no error event. *)
Theorem export_failure_does_not_block (env : Env) (sid : string) (w : World)
  (gs : GlobalSettings) (h : string) (hs : list string)
  (members : list (string * Js.value)) (c : ascii) (t : string) :
  Settings w = Some gs ->
  extractionHeaders gs = Some (h :: hs) ->
  Js.inherited h = false ->
  targetSpreadsheetId gs = Some (String c t) ->
  extraction_completion env (extraction_messages w sid (h :: hs))
    = ExtractionObject members ->
  (forall target row, sheets_values_append env target row = false) ->
  let request :=
    ChatCompletionsCreate (extraction_messages w sid (h :: hs)) true in
  result (on_deleteSession env sid None) w = Return tt
  /\ (exists row,
        trace (exec (on_deleteSession env sid None) w)
        = (trace w
           ++ [Issued request; Settled request true;
               Issued (SheetsValuesAppend (String c t) row);
               Settled (SheetsValuesAppend (String c t) row) false;
               ConsoleError "Error writing to spreadsheet:";
               SocketEmit "sessionDeleted" sid])%list)
  /\ ~ In sid (ChatSessions (exec (on_deleteSession env sid None) w))
  /\ (forall m, In m (Messages (exec (on_deleteSession env sid None) w)) ->
                msg_sessionId m <> sid).
Proof.
  intros Hsettings Hheaders Hinherited Htarget Hreply Hfail request.
  assert (Hh : headers_of (Settings w) = h :: hs).
  { rewrite Hsettings. simpl. now rewrite Hheaders. }
  unfold result, exec.
  rewrite (on_deleteSession_run env sid w Hh Hreply). cbn [fst snd].
  destruct (torn_down_facts env w sid (h :: hs) members)
    as [_ [_ [Hsx [Hgone [Hmsgs Htrace]]]]].
  split; [reflexivity|]. split; [|split].
  - cbn [add_trace trace]. rewrite Htrace. fold request.
    unfold export_trace. rewrite Hsx, Hsettings. unfold target_of.
    rewrite Htarget.
    destruct (session_variables (extracted w sid (h :: hs) members) sid)
      as [|v vs] eqn:Hvars.
    + exfalso.
      destruct (add_missing_complete (h :: hs) (Js.parse_members members) h)
        as [value Hvalue]; [now left | assumption |].
      apply (proj2 (In_entries _ _)) in Hvalue.
      destruct (@In_stamped sid h value _ (now w) Hvalue) as [t' Ht'].
      assert (Hin : In (mkChatVariable sid h (Js.ToString value) t')
                       (session_variables (extracted w sid (h :: hs) members) sid)).
      { apply In_order_by, filter_In. split.
        - unfold extracted, after_extraction. cbn [ChatVariables].
          apply in_or_app. now right.
        - simpl. apply String.eqb_refl. }
      now rewrite Hvars in Hin.
    + rewrite <- Hvars. unfold append_events. rewrite Hfail.
      eexists. rewrite <- !app_assoc. reflexivity.
  - exact Hgone.
  - exact Hmsgs.
Qed.

Lemma export_failure_does_not_block_witness :
  let env :=
    mkEnv (sheets_values_get Sample.env) (webpage_of Sample.env)
          (chat_completion Sample.env) (extraction_completion Sample.env)
          (fun _ _ => false) in
  let request :=
    ChatCompletionsCreate
      (extraction_messages Sample.world_chat "sock" ["name"; "email"]) true in
  result (on_deleteSession env "sock" None) Sample.world_chat = Return tt
  /\ (exists row,
        trace (exec (on_deleteSession env "sock" None) Sample.world_chat)
        = (trace Sample.world_chat
           ++ [Issued request; Settled request true;
               Issued (SheetsValuesAppend "T" row);
               Settled (SheetsValuesAppend "T" row) false;
               ConsoleError "Error writing to spreadsheet:";
               SocketEmit "sessionDeleted" "sock"])%list)
  /\ ~ In "sock" (ChatSessions (exec (on_deleteSession env "sock" None)
                                     Sample.world_chat))
  /\ (forall m, In m (Messages (exec (on_deleteSession env "sock" None)
                                     Sample.world_chat)) ->
                msg_sessionId m <> "sock").
Proof.
  apply (@export_failure_does_not_block
           (mkEnv (sheets_values_get Sample.env) (webpage_of Sample.env)
                  (chat_completion Sample.env) (extraction_completion Sample.env)
                  (fun _ _ => false))
           "sock" Sample.world_chat Sample.settings "name" ["email"]
           [("email", Js.VStr "a@x.com"); ("age", Js.VNum 41)] "T"%char "").
  - reflexivity.
  - reflexivity.
  - reflexivity.
  - reflexivity.
  - reflexivity.
  - reflexivity.
Defined.

(** ** One record per field and run *)

Lemma insert_index_perm (p : string * Js.value) (l : list (string * Js.value)) :
  Permutation (Js.insert_index p l) (p :: l).
Proof.
  induction l as [|q l IH]; simpl; [reflexivity|].
  destruct (N.leb (Js.index_of p) (Js.index_of q)); [reflexivity|].
  rewrite IH. apply perm_swap.
Qed.

Lemma sort_index_perm (l : list (string * Js.value)) :
  Permutation (Js.sort_index l) l.
Proof.
  induction l as [|p l IH]; simpl; [reflexivity|].
  rewrite insert_index_perm. now constructor.
Qed.

Lemma filter_partition_perm {A : Type} (f : A -> bool) (l : list A) :
  Permutation (filter f l ++ filter (fun x => negb (f x)) l) l.
Proof.
  induction l as [|x l IH]; simpl; [reflexivity|].
  destruct (f x); simpl.
  - now constructor.
  - rewrite <- Permutation_middle. now constructor.
Qed.

Lemma entries_perm (o : Js.object) : Permutation (Js.entries o) o.
Proof.
  unfold Js.entries. rewrite sort_index_perm. apply filter_partition_perm.
Qed.

Lemma stamped_names (sid : string) (entries : list (string * Js.value)) :
  forall t : nat,
    map variableName (stamped sid entries t) = map fst entries
    /\ map timestamp (stamped sid entries t) = seq t (List.length entries).
Proof.
  induction entries as [|[name value] rest IH]; intros t; simpl; [auto|].
  destruct (IH (S t)) as [Hn Ht]. now rewrite Hn, Ht.
Qed.

(** One extraction stores each field name once: the records of a run have
    pairwise distinct names, one per key of the completed answer, so
    within a run no field has two values for the export to choose from. *)
Theorem one_record_per_field (env : Env) (sid : string) (w : World)
  (h : string) (hs : list string) (members : list (string * Js.value)) :
  headers_of (Settings w) = h :: hs ->
  extraction_completion env (extraction_messages w sid (h :: hs))
    = ExtractionObject members ->
  exists stored : list ChatVariable,
    ChatVariables (exec (analyzeChatForVariables env sid) w)
    = (ChatVariables w ++ stored)%list
    /\ NoDup (map variableName stored)
    /\ Permutation (map variableName stored)
         (map fst (add_missing (h :: hs) (Js.parse_members members))).
Proof.
  intros Hheaders Hreply.
  set (o := add_missing (h :: hs) (Js.parse_members members)).
  exists (stamped sid (Js.entries o) (now w)).
  unfold exec. rewrite (analyzeChatForVariables_run env sid w Hheaders), Hreply.
  fold o. cbn [snd after_extraction ChatVariables].
  destruct (stamped_names sid (Js.entries o) (now w)) as [Hnames Htimes].
  assert (Hperm : Permutation (map fst (Js.entries o)) (map fst o))
    by (apply Permutation_map, entries_perm).
  split; [reflexivity|]. split.
  - rewrite Hnames. apply (Permutation_NoDup (Permutation_sym Hperm)).
    unfold o, add_missing.
    apply (proj1 (proj2 (add_missing_fold _ _))), NoDup_parse_members.
  - now rewrite Hnames.
Qed.

Lemma one_record_per_field_witness :
  exists stored : list ChatVariable,
    ChatVariables (exec (analyzeChatForVariables Sample.env "sock") Sample.world_chat)
    = (ChatVariables Sample.world_chat ++ stored)%list
    /\ NoDup (map variableName stored)
    /\ Permutation (map variableName stored)
         (map fst (add_missing ["name"; "email"]
                     (Js.parse_members [("email", Js.VStr "a@x.com");
                                        ("age", Js.VNum 41)]))).
Proof.
  apply (@one_record_per_field Sample.env "sock" Sample.world_chat "name" ["email"]
           [("email", Js.VStr "a@x.com"); ("age", Js.VNum 41)]).
  - reflexivity.
  - reflexivity.
Defined.

(** ** Starting a chat *)

(** Starting a chat creates the socket's session when there is none; a
    second start for the same socket is refused by the primary key and
    logged, and changes nothing else: the session is never listed twice
    and its stored messages are kept. *)
Theorem startChat_once (sid : string) (w : World) :
  NoDup (ChatSessions w) ->
  result (on_startChat sid) w = Return tt
  /\ In sid (ChatSessions (exec (on_startChat sid) w))
  /\ NoDup (ChatSessions (exec (on_startChat sid) w))
  /\ Messages (exec (on_startChat sid) w) = Messages w
  /\ (In sid (ChatSessions w) ->
      exec (on_startChat sid) w
      = add_trace w [ConsoleError "Error creating session:"])
  /\ (~ In sid (ChatSessions w) ->
      ChatSessions (exec (on_startChat sid) w) = (ChatSessions w ++ [sid])%list
      /\ trace (exec (on_startChat sid) w) = trace w).
Proof.
  intros Hnd. unfold result, exec, on_startChat, try_catch, bind.
  unfold ChatSession_create.
  destruct (existsb (String.eqb sid) (ChatSessions w)) eqn:Hex.
  - assert (Hin : In sid (ChatSessions w)).
    { apply existsb_exists in Hex as [x [Hx Heq]].
      apply String.eqb_eq in Heq. now subst. }
    unfold console_error. rewrite observe_run.
    cbn [fst snd add_trace ChatSessions Messages].
    split; [reflexivity|]. split; [assumption|]. split; [assumption|].
    split; [reflexivity|]. split; [reflexivity|].
    intros Hnot. contradiction.
  - assert (Hnot : ~ In sid (ChatSessions w)).
    { intros Hin. assert (existsb (String.eqb sid) (ChatSessions w) = true).
      { apply existsb_exists. exists sid. split; [assumption|].
        apply String.eqb_refl. }
      congruence. }
    unfold ret. cbn [fst snd ChatSessions Messages trace].
    split; [reflexivity|]. split; [|split; [|split; [|split]]].
    + apply in_or_app. right. now left.
    + apply NoDup_app; [assumption | repeat constructor; intros [] |].
      intros x Hx [<-|[]]. contradiction.
    + reflexivity.
    + intros Hin. contradiction.
    + intros _. split; reflexivity.
Qed.

Lemma startChat_once_witness :
  result (on_startChat "sock") Sample.world_chat = Return tt
  /\ In "sock" (ChatSessions (exec (on_startChat "sock") Sample.world_chat))
  /\ NoDup (ChatSessions (exec (on_startChat "sock") Sample.world_chat))
  /\ Messages (exec (on_startChat "sock") Sample.world_chat)
     = Messages Sample.world_chat
  /\ (In "sock" (ChatSessions Sample.world_chat) ->
      exec (on_startChat "sock") Sample.world_chat
      = add_trace Sample.world_chat [ConsoleError "Error creating session:"])
  /\ (~ In "sock" (ChatSessions Sample.world_chat) ->
      ChatSessions (exec (on_startChat "sock") Sample.world_chat)
      = (ChatSessions Sample.world_chat ++ ["sock"])%list
      /\ trace (exec (on_startChat "sock") Sample.world_chat)
         = trace Sample.world_chat).
Proof.
  apply (@startChat_once "sock" Sample.world_chat).
  simpl. repeat constructor. intros [].
Defined.

(** ** The variables route *)

Lemma insert_by_perm {A : Type} (before : A -> A -> bool) (x : A) (l : list A) :
  Permutation (insert_by before x l) (x :: l).
Proof.
  induction l as [|y l IH]; simpl; [reflexivity|].
  destruct (before x y); [reflexivity|].
  rewrite IH. apply perm_swap.
Qed.

Lemma order_by_perm {A : Type} (before : A -> A -> bool) (l : list A) :
  Permutation (order_by before l) l.
Proof.
  induction l as [|x l IH]; simpl; [reflexivity|].
  rewrite insert_by_perm. now constructor.
Qed.

(** The variables route answers 200 with the stored variables of the named
    session and no others, each as often as it is stored, the latest
    first; it changes nothing. *)
Theorem get_variables_latest_first (sid : string) (w : World) :
  exists variables : list ChatVariable,
    get_variables sid w = (Return (mkResponse 200 (JsonVariables variables)), w)
    /\ Permutation variables
         (filter (fun v => String.eqb (sessionId v) sid) (ChatVariables w))
    /\ (forall v, In v variables <-> In v (ChatVariables w) /\ sessionId v = sid)
    /\ StronglySorted (fun a b => timestamp b <= timestamp a) variables.
Proof.
  exists (session_variables w sid).
  split; [reflexivity|]. split; [apply order_by_perm|]. split.
  - intros v. unfold session_variables. rewrite In_order_by, filter_In.
    now rewrite String.eqb_eq.
  - apply order_by_desc_sorted.
Qed.

(** ** The knowledge-base routes *)

Lemma set_sheetIds_same (gs : GlobalSettings) (ids : list string) :
  knowledgeBaseSheetIds gs = Some ids -> set_sheetIds gs (Some ids) = gs.
Proof. destruct gs. simpl. now intros ->. Qed.

Lemma set_urls_same (gs : GlobalSettings) (urls : list string) :
  knowledgeBaseUrls gs = Some urls -> set_urls gs (Some urls) = gs.
Proof. destruct gs. simpl. now intros ->. Qed.

Lemma includes_In (arr : list string) (x : string) :
  includes arr x = true <-> In x arr.
Proof.
  unfold includes. rewrite existsb_exists. split.
  - intros [y [Hy Heq]]. apply String.eqb_eq in Heq. now subst.
  - intros Hin. exists x. split; [assumption | apply String.eqb_refl].
Qed.

Lemma without_In (arr : list string) (x y : string) :
  In y (without arr x) <-> In y arr /\ y <> x.
Proof.
  unfold without. rewrite filter_In, Bool.negb_true_iff, String.eqb_neq. tauto.
Qed.

Lemma without_absent (arr : list string) (x : string) :
  ~ In x arr -> without arr x = arr.
Proof.
  intros Hnot. unfold without. induction arr as [|y arr IH]; simpl; [reflexivity|].
  destruct (String.eqb_spec y x) as [->|Hne]; simpl.
  - destruct Hnot. now left.
  - rewrite IH; [reflexivity|]. intros Hin. apply Hnot. now right.
Qed.

Lemma without_snoc (arr : list string) (x : string) :
  ~ In x arr -> without (arr ++ [x]) x = arr.
Proof.
  intros Hnot. unfold without. rewrite filter_app. simpl.
  rewrite String.eqb_refl. simpl. rewrite app_nil_r.
  now apply without_absent.
Qed.

Lemma post_knowledge_base_add_run (sheetId : string) (w : World)
  (gs : GlobalSettings) (ids : list string) :
  Settings w = Some gs ->
  knowledgeBaseSheetIds gs = Some ids ->
  let ids' := if includes ids sheetId then ids else (ids ++ [sheetId])%list in
  post_knowledge_base true sheetId "add" w
  = (Return (mkResponse 200 (JsonSuccessSheetIds ids')),
     with_settings w (set_sheetIds gs (Some ids'))).
Proof.
  intros Hsettings Hids ids'. subst ids'.
  unfold post_knowledge_base, try_catch.
  unfold bind at 1. unfold GlobalSettings_findByPk. rewrite Hsettings.
  cbn [negb]. cbv iota. unfold bind at 1.
  change (String.eqb "add" "add") with true. cbv iota. rewrite Hids.
  destruct (includes ids sheetId); cbn [negb]; cbv iota; unfold ret, bind.
  - unfold GlobalSettings_save. rewrite Hids. cbn [ids_of].
    now rewrite (set_sheetIds_same gs Hids).
  - unfold GlobalSettings_save. reflexivity.
Qed.

Lemma post_knowledge_base_remove_run (sheetId : string) (w : World)
  (gs : GlobalSettings) :
  Settings w = Some gs ->
  let ids' := without (ids_of (knowledgeBaseSheetIds gs)) sheetId in
  post_knowledge_base true sheetId "remove" w
  = (Return (mkResponse 200 (JsonSuccessSheetIds ids')),
     with_settings w (set_sheetIds gs (Some ids'))).
Proof.
  intros Hsettings ids'. subst ids'.
  unfold post_knowledge_base, try_catch.
  unfold bind at 1. unfold GlobalSettings_findByPk. rewrite Hsettings.
  cbn [negb]. cbv iota. unfold bind at 1.
  change (String.eqb "remove" "add") with false.
  change (String.eqb "remove" "remove") with true. cbv iota.
  unfold ret, bind, GlobalSettings_save. reflexivity.
Qed.

Lemma knowledge_base_add_facts (sheetId : string) (w : World)
  (gs : GlobalSettings) (ids : list string) :
  Settings w = Some gs ->
  knowledgeBaseSheetIds gs = Some ids ->
  exists ids' : list string,
    post_knowledge_base true sheetId "add" w
    = (Return (mkResponse 200 (JsonSuccessSheetIds ids')),
       with_settings w (set_sheetIds gs (Some ids')))
    /\ In sheetId ids'.
Proof.
  intros Hsettings Hids.
  exists (if includes ids sheetId then ids else (ids ++ [sheetId])%list).
  split; [exact (post_knowledge_base_add_run sheetId w Hsettings Hids)|].
  destruct (includes ids sheetId) eqn:Hinc.
  - now apply includes_In.
  - apply in_or_app. right. now left.
Qed.

(** Adding an accessible sheet to a configured list answers 200 with the
    new list: the sheet is put at the end when it is not listed, and the
    list is left as it is when it is, so the sheet is listed afterwards, a
    list without repetition stays so, and adding the same sheet again
    changes nothing. *)
Theorem knowledge_base_add (sheetId : string) (w : World)
  (gs : GlobalSettings) (ids : list string) :
  Settings w = Some gs ->
  knowledgeBaseSheetIds gs = Some ids ->
  exists ids' : list string,
    post_knowledge_base true sheetId "add" w
    = (Return (mkResponse 200 (JsonSuccessSheetIds ids')),
       with_settings w (set_sheetIds gs (Some ids')))
    /\ In sheetId ids'
    /\ (ids' = ids \/ (~ In sheetId ids /\ ids' = (ids ++ [sheetId])%list))
    /\ (NoDup ids -> NoDup ids')
    /\ post_knowledge_base true sheetId "add"
         (with_settings w (set_sheetIds gs (Some ids')))
       = (Return (mkResponse 200 (JsonSuccessSheetIds ids')),
          with_settings w (set_sheetIds gs (Some ids'))).
Proof.
  intros Hsettings Hids.
  exists (if includes ids sheetId then ids else (ids ++ [sheetId])%list).
  split; [exact (post_knowledge_base_add_run sheetId w Hsettings Hids)|].
  assert (Hin : In sheetId
                   (if includes ids sheetId then ids else (ids ++ [sheetId])%list)).
  { destruct (includes ids sheetId) eqn:Hinc.
    - now apply includes_In.
    - apply in_or_app. right. now left. }
  split; [exact Hin|]. split; [|split].
  - destruct (includes ids sheetId) eqn:Hinc; [now left|]. right.
    split; [|reflexivity]. intros H. apply includes_In in H. congruence.
  - intros Hnd. destruct (includes ids sheetId) eqn:Hinc; [assumption|].
    apply NoDup_app; [assumption | repeat constructor; intros [] |].
    intros x Hx [<-|[]]. apply includes_In in Hx. congruence.
  - set (ids' := if includes ids sheetId then ids else (ids ++ [sheetId])%list) in *.
    pose proof (@post_knowledge_base_add_run sheetId
                  (with_settings w (set_sheetIds gs (Some ids')))
                  (set_sheetIds gs (Some ids')) ids' eq_refl eq_refl) as Hrun.
    cbv zeta in Hrun. apply includes_In in Hin. rewrite Hin in Hrun.
    rewrite Hrun. unfold with_settings, set_sheetIds. reflexivity.
Qed.

Lemma knowledge_base_add_witness :
  exists ids' : list string,
    post_knowledge_base true "s9" "add" Sample.world
    = (Return (mkResponse 200 (JsonSuccessSheetIds ids')),
       with_settings Sample.world (set_sheetIds Sample.settings (Some ids')))
    /\ In "s9" ids'
    /\ (ids' = ["s1"; "s2"; "s3"]
        \/ (~ In "s9" ["s1"; "s2"; "s3"]
            /\ ids' = (["s1"; "s2"; "s3"] ++ ["s9"])%list))
    /\ (NoDup ["s1"; "s2"; "s3"] -> NoDup ids')
    /\ post_knowledge_base true "s9" "add"
         (with_settings Sample.world (set_sheetIds Sample.settings (Some ids')))
       = (Return (mkResponse 200 (JsonSuccessSheetIds ids')),
          with_settings Sample.world (set_sheetIds Sample.settings (Some ids'))).
Proof.
  apply (@knowledge_base_add "s9" Sample.world Sample.settings ["s1"; "s2"; "s3"]).
  - reflexivity.
  - reflexivity.
Defined.

(** Removing an accessible sheet answers 200 with the list without it: the
    sheet is no longer listed, the other sheets keep their order, and a
    null list becomes the empty list.  Removing a sheet that was just
    added to a list that did not have it gives the list back. *)
Theorem knowledge_base_remove (sheetId : string) (w : World)
  (gs : GlobalSettings) :
  Settings w = Some gs ->
  let ids := ids_of (knowledgeBaseSheetIds gs) in
  post_knowledge_base true sheetId "remove" w
  = (Return (mkResponse 200 (JsonSuccessSheetIds (without ids sheetId))),
     with_settings w (set_sheetIds gs (Some (without ids sheetId))))
  /\ ~ In sheetId (without ids sheetId)
  /\ (forall x, x <> sheetId -> (In x (without ids sheetId) <-> In x ids))
  /\ (exists removed, Permutation ids (without ids sheetId ++ removed)
                      /\ forall x, In x removed -> x = sheetId)
  /\ (~ In sheetId ids ->
      knowledgeBaseSheetIds gs = Some ids ->
      Settings (exec (post_knowledge_base true sheetId "remove")
                     (exec (post_knowledge_base true sheetId "add") w))
      = Some gs).
Proof.
  intros Hsettings ids.
  split; [exact (post_knowledge_base_remove_run sheetId w Hsettings)|].
  split; [|split; [|split]].
  - rewrite without_In. tauto.
  - intros x Hne. rewrite without_In. tauto.
  - exists (filter (fun y => negb (negb (String.eqb y sheetId))) ids). split.
    + symmetry. apply (filter_partition_perm
                         (fun y => negb (String.eqb y sheetId))).
    + intros x Hx. apply filter_In in Hx as [_ Hx].
      rewrite Bool.negb_involutive in Hx. now apply String.eqb_eq.
  - intros Hnot Hids. unfold exec.
    pose proof (@post_knowledge_base_add_run sheetId w gs ids Hsettings Hids)
      as Hadd.
    cbv zeta in Hadd.
    destruct (includes ids sheetId) eqn:Hinc;
      [apply includes_In in Hinc; contradiction|].
    rewrite Hadd. cbn [snd].
    rewrite (@post_knowledge_base_remove_run sheetId
               (with_settings w (set_sheetIds gs (Some (ids ++ [sheetId])%list)))
               (set_sheetIds gs (Some (ids ++ [sheetId])%list)) eq_refl).
    cbn [snd with_settings Settings set_sheetIds knowledgeBaseSheetIds ids_of
         prompt knowledgeBaseUrls extractionHeaders targetSpreadsheetId].
    rewrite (@without_snoc ids sheetId Hnot).
    f_equal. destruct gs. simpl in Hids. now rewrite Hids.
Qed.

Lemma knowledge_base_remove_witness :
  let ids := ids_of (knowledgeBaseSheetIds Sample.settings) in
  post_knowledge_base true "s2" "remove" Sample.world
  = (Return (mkResponse 200 (JsonSuccessSheetIds (without ids "s2"))),
     with_settings Sample.world
       (set_sheetIds Sample.settings (Some (without ids "s2"))))
  /\ ~ In "s2" (without ids "s2")
  /\ (forall x, x <> "s2" -> (In x (without ids "s2") <-> In x ids))
  /\ (exists removed, Permutation ids (without ids "s2" ++ removed)
                      /\ forall x, In x removed -> x = "s2")
  /\ (~ In "s2" ids ->
      knowledgeBaseSheetIds Sample.settings = Some ids ->
      Settings (exec (post_knowledge_base true "s2" "remove")
                     (exec (post_knowledge_base true "s2" "add") Sample.world))
      = Some Sample.settings).
Proof.
  apply (@knowledge_base_remove "s2" Sample.world Sample.settings).
  reflexivity.
Defined.

(** The knowledge-base route never throws, and a request it refuses
    changes no table: without a settings row it answers 404; a sheet that
    cannot be accessed is refused with 400 whatever the action, so such a
    sheet cannot be removed either; and adding to a null list fails with
    500. *)
Theorem knowledge_base_refused (accessible : bool) (sheetId action : string)
  (w : World) :
  exists (response : Response) (w' : World),
    post_knowledge_base accessible sheetId action w = (Return response, w')
    /\ (status response <> 200 -> exists tr, w' = add_trace w tr)
    /\ (Settings w = None -> response = not_found)
    /\ (Settings w <> None -> accessible = false -> status response = 400)
    /\ (forall gs, Settings w = Some gs -> accessible = true ->
                   action = "add" -> knowledgeBaseSheetIds gs = None ->
                   status response = 500).
Proof.
  unfold post_knowledge_base, try_catch.
  unfold bind at 1. unfold GlobalSettings_findByPk.
  destruct (Settings w) as [gs|] eqn:Hsettings.
  - destruct accessible; cbn [negb]; cbv iota.
    + unfold bind at 1.
      destruct (String.eqb_spec action "add") as [->|Hadd].
      * destruct (knowledgeBaseSheetIds gs) as [ids|] eqn:Hids.
        -- destruct (negb (includes ids sheetId)); unfold ret, bind;
             unfold GlobalSettings_save; do 2 eexists;
             (split; [reflexivity|]); cbn [status];
             (split; [intros H; now destruct H|]);
             (split; [discriminate|]); (split; [discriminate|]);
             intros gs' [= <-] _ _ Hnone; congruence.
        -- unfold throw, bind, console_error, ret. rewrite observe_run.
           do 2 eexists. split; [reflexivity|]. cbn [status server_error].
           split; [eauto|]. split; [discriminate|]. split; [discriminate|].
           reflexivity.
      * destruct (String.eqb action "remove"); unfold ret, bind;
          unfold GlobalSettings_save; do 2 eexists;
          (split; [reflexivity|]); cbn [status];
          (split; [intros H; now destruct H|]);
          (split; [discriminate|]); (split; [discriminate|]);
          intros gs' _ _ Hact; contradiction.
    + unfold bind, console_error, ret. rewrite observe_run.
      do 2 eexists. split; [reflexivity|]. cbn [status].
      split; [eauto|]. split; [discriminate|]. split; [reflexivity|].
      discriminate.
  - unfold ret. exists not_found, w. split; [reflexivity|].
    split; [intros _; exists []; now rewrite add_trace_nil|].
    split; [reflexivity|]. split; [intros H; now destruct H|]. discriminate.
Qed.

Lemma issued_sheet_configured (env : Env) (gs : GlobalSettings) (sheetId : string) :
  In (Issued (SheetsValuesGet sheetId)) (context_trace env gs) ->
  In sheetId (ids_of (knowledgeBaseSheetIds gs)).
Proof.
  intros He. unfold context_trace in He. apply in_app_or in He as [He|He].
  - unfold sheets_trace in He. apply in_flat_map in He as [id [Hid He]].
    unfold sheet_events in He.
    destruct (sheets_values_get env id); simpl in He;
      repeat (destruct He as [He|He]; [try discriminate He|]);
      try contradiction; injection He as <-; assumption.
  - unfold webpages_trace in He. apply in_flat_map in He as [u [_ He]].
    unfold webpage_events in He.
    destruct (webpage_of env u); simpl in He;
      repeat (destruct He as [He|He]; [discriminate He|]); contradiction.
Qed.

Lemma on_message_fetches (env : Env) (sid text : string) (w : World)
  (gs : GlobalSettings) (sheetId : string) :
  In sid (ChatSessions w) ->
  Settings w = Some gs ->
  exists added,
    trace (exec (on_message env sid text) w) = (trace w ++ added)%list
    /\ (In (Issued (SheetsValuesGet sheetId)) added
        <-> In sheetId (ids_of (knowledgeBaseSheetIds gs))).
Proof.
  intros Hsession Hsettings.
  unfold exec. rewrite (on_message_run env sid text w Hsession Hsettings).
  assert (Hctx : forall tl,
             (forall e, In e tl -> forall id, e <> Issued (SheetsValuesGet id)) ->
             (In (Issued (SheetsValuesGet sheetId)) (context_trace env gs ++ tl)
              <-> In sheetId (ids_of (knowledgeBaseSheetIds gs)))).
  { intros tl Htl. rewrite in_app_iff. split.
    - intros [H|H]; [now apply issued_sheet_configured in H|].
      now destruct (Htl _ H sheetId).
    - intros H. left. unfold context_trace. apply in_or_app. left.
      now apply issued_sheets. }
  destruct (chat_completion env _) as [|[raw|]];
    cbn [snd after_turn after_user trace];
    eexists; (split; [reflexivity|]); rewrite <- app_assoc; apply Hctx;
    intros e He id; simpl in He;
    repeat (destruct He as [<-|He]; [discriminate|]); contradiction.
Qed.

(** The routes drive the turns: once a sheet has been added, the next
    turn of a session fetches it; once it has been removed, the next
    turn does not. *)
Theorem knowledge_base_route_drives_turn (env : Env) (sid text sheetId : string)
  (w : World) (gs : GlobalSettings) (ids : list string) :
  In sid (ChatSessions w) ->
  Settings w = Some gs ->
  knowledgeBaseSheetIds gs = Some ids ->
  (exists added,
     trace (exec (on_message env sid text)
                 (exec (post_knowledge_base true sheetId "add") w))
     = (trace w ++ added)%list
     /\ In (Issued (SheetsValuesGet sheetId)) added)
  /\ (exists added,
        trace (exec (on_message env sid text)
                    (exec (post_knowledge_base true sheetId "remove") w))
        = (trace w ++ added)%list
        /\ ~ In (Issued (SheetsValuesGet sheetId)) added).
Proof.
  intros Hsession Hsettings Hids. split.
  - destruct (knowledge_base_add_facts sheetId w Hsettings Hids)
      as [ids' [Hrun Hin]].
    unfold exec at 2. rewrite Hrun. cbn [snd].
    destruct (@on_message_fetches env sid text
                (with_settings w (set_sheetIds gs (Some ids')))
                (set_sheetIds gs (Some ids')) sheetId Hsession eq_refl)
      as [added [Htrace Hiff]].
    exists added. split; [exact Htrace|]. apply Hiff. exact Hin.
  - unfold exec at 2.
    rewrite (post_knowledge_base_remove_run sheetId w Hsettings). cbn [snd].
    destruct (@on_message_fetches env sid text
                (with_settings w
                   (set_sheetIds gs
                      (Some (without (ids_of (knowledgeBaseSheetIds gs)) sheetId))))
                (set_sheetIds gs
                   (Some (without (ids_of (knowledgeBaseSheetIds gs)) sheetId)))
                sheetId Hsession eq_refl)
      as [added [Htrace Hiff]].
    exists added. split; [exact Htrace|]. rewrite Hiff.
    cbn [set_sheetIds knowledgeBaseSheetIds ids_of]. rewrite without_In. tauto.
Qed.

Lemma knowledge_base_route_drives_turn_witness :
  (exists added,
     trace (exec (on_message Sample.env "sock" "hi")
                 (exec (post_knowledge_base true "s9" "add") Sample.world))
     = (trace Sample.world ++ added)%list
     /\ In (Issued (SheetsValuesGet "s9")) added)
  /\ (exists added,
        trace (exec (on_message Sample.env "sock" "hi")
                    (exec (post_knowledge_base true "s9" "remove") Sample.world))
        = (trace Sample.world ++ added)%list
        /\ ~ In (Issued (SheetsValuesGet "s9")) added).
Proof.
  apply (@knowledge_base_route_drives_turn Sample.env "sock" "hi" "s9"
           Sample.world Sample.settings ["s1"; "s2"; "s3"]).
  - simpl. auto.
  - reflexivity.
  - reflexivity.
Defined.

(** ** The URL route *)

Lemma post_knowledge_base_url_run (env : Env) (url action : string)
  (w : World) (gs : GlobalSettings) (urls : list string) (page : Webpage) :
  Settings w = Some gs ->
  knowledgeBaseUrls gs = Some urls ->
  webpage_of env url = Some page ->
  let urls' :=
    if String.eqb action "add"
    then if includes urls url then urls else (urls ++ [url])%list
    else if String.eqb action "remove" then without urls url
         else urls in
  post_knowledge_base_url env url action w
  = (Return (mkResponse 200 (JsonSuccessUrls (Some urls'))),
     add_trace (with_settings w (set_urls gs (Some urls')))
               [Issued (AxiosGet url); Settled (AxiosGet url) true]).
Proof.
  intros Hsettings Hurls Hpage urls'. subst urls'.
  unfold post_knowledge_base_url. unfold try_catch at 1.
  unfold bind at 1. unfold GlobalSettings_findByPk. rewrite Hsettings.
  unfold bind at 1. unfold try_catch at 1. unfold bind at 1.
  rewrite fetchWebpageContent_run, Hpage. unfold ret at 1.
  cbn [negb]. cbv iota. unfold bind at 1. rewrite Hurls.
  destruct (String.eqb action "add").
  - destruct (includes urls url); cbn [negb]; cbv iota;
      unfold ret, bind, GlobalSettings_save.
    + rewrite Hurls, (set_urls_same gs Hurls). reflexivity.
    + reflexivity.
  - destruct (String.eqb action "remove");
      unfold ret, bind, GlobalSettings_save.
    + reflexivity.
    + rewrite Hurls, (set_urls_same gs Hurls). reflexivity.
Qed.

(** A URL is added only after its page has been fetched: with the page
    reachable and a configured list, adding answers 200 and lists the URL
    once more only if it was not listed (a list without repetition stays
    so), and removing answers 200 with the list without it.  The fetch
    shows in the trace and nothing else changes. *)
Theorem knowledge_base_url_add_remove (env : Env) (url : string) (w : World)
  (gs : GlobalSettings) (urls : list string) (page : Webpage) :
  Settings w = Some gs ->
  knowledgeBaseUrls gs = Some urls ->
  webpage_of env url = Some page ->
  (exists urls',
     post_knowledge_base_url env url "add" w
     = (Return (mkResponse 200 (JsonSuccessUrls (Some urls'))),
        add_trace (with_settings w (set_urls gs (Some urls')))
                  [Issued (AxiosGet url); Settled (AxiosGet url) true])
     /\ In url urls'
     /\ (forall x, In x urls' <-> x = url \/ In x urls)
     /\ (NoDup urls -> NoDup urls'))
  /\ post_knowledge_base_url env url "remove" w
     = (Return (mkResponse 200 (JsonSuccessUrls (Some (without urls url)))),
        add_trace (with_settings w (set_urls gs (Some (without urls url))))
                  [Issued (AxiosGet url); Settled (AxiosGet url) true])
  /\ ~ In url (without urls url)
  /\ (forall x, x <> url -> (In x (without urls url) <-> In x urls)).
Proof.
  intros Hsettings Hurls Hpage.
  split; [|split; [|split]].
  - exists (if includes urls url then urls else (urls ++ [url])%list).
    split; [exact (@post_knowledge_base_url_run env url "add" w gs urls page
                     Hsettings Hurls Hpage)|].
    destruct (includes urls url) eqn:Hinc.
    + apply includes_In in Hinc. split; [assumption|]. split; [|auto].
      intros x. split; [auto|]. intros [->|H]; assumption.
    + assert (Hnot : ~ In url urls).
      { intros H. apply includes_In in H. congruence. }
      split; [apply in_or_app; right; now left|]. split.
      * intros x. rewrite in_app_iff. simpl. intuition.
      * intros Hnd. apply NoDup_app; [assumption | repeat constructor; intros [] |].
        intros x Hx [<-|[]]. contradiction.
  - exact (@post_knowledge_base_url_run env url "remove" w gs urls page
             Hsettings Hurls Hpage).
  - rewrite without_In. tauto.
  - intros x Hne. rewrite without_In. tauto.
Qed.

Lemma knowledge_base_url_add_remove_witness :
  (exists urls',
     post_knowledge_base_url Sample.env "https://b.example" "add" Sample.world
     = (Return (mkResponse 200 (JsonSuccessUrls (Some urls'))),
        add_trace (with_settings Sample.world
                     (set_urls Sample.settings (Some urls')))
                  [Issued (AxiosGet "https://b.example");
                   Settled (AxiosGet "https://b.example") true])
     /\ In "https://b.example" urls'
     /\ (forall x, In x urls' <-> x = "https://b.example"
                                  \/ In x ["https://a.example"])
     /\ (NoDup ["https://a.example"] -> NoDup urls'))
  /\ post_knowledge_base_url Sample.env "https://b.example" "remove" Sample.world
     = (Return (mkResponse 200
                  (JsonSuccessUrls
                     (Some (without ["https://a.example"] "https://b.example")))),
        add_trace (with_settings Sample.world
                     (set_urls Sample.settings
                        (Some (without ["https://a.example"] "https://b.example"))))
                  [Issued (AxiosGet "https://b.example");
                   Settled (AxiosGet "https://b.example") true])
  /\ ~ In "https://b.example" (without ["https://a.example"] "https://b.example")
  /\ (forall x, x <> "https://b.example" ->
                (In x (without ["https://a.example"] "https://b.example")
                 <-> In x ["https://a.example"])).
Proof.
  apply (@knowledge_base_url_add_remove Sample.env "https://b.example"
           Sample.world Sample.settings ["https://a.example"]
           (mkWebpage "A" "about a")).
  - reflexivity.
  - reflexivity.
  - reflexivity.
Defined.

(** A URL whose page cannot be fetched is refused with 400 whatever the
    action, so a page that has gone away cannot be removed through the
    route; the failed fetch is logged and no table changes. *)
Theorem knowledge_base_url_unreachable (env : Env) (url action : string)
  (w : World) (gs : GlobalSettings) :
  Settings w = Some gs ->
  webpage_of env url = None ->
  post_knowledge_base_url env url action w
  = (Return (mkResponse 400 (JsonError "Invalid or inaccessible URL")),
     add_trace w [Issued (AxiosGet url); Settled (AxiosGet url) false;
                  ConsoleError "Error fetching webpage:"]).
Proof.
  intros Hsettings Hpage.
  unfold post_knowledge_base_url. unfold try_catch at 1.
  unfold bind at 1. unfold GlobalSettings_findByPk. rewrite Hsettings.
  unfold bind at 1. unfold try_catch at 1. unfold bind at 1.
  rewrite fetchWebpageContent_run, Hpage. reflexivity.
Qed.

Lemma knowledge_base_url_unreachable_witness :
  post_knowledge_base_url
    (mkEnv (sheets_values_get Sample.env) (fun _ => None)
           (chat_completion Sample.env) (extraction_completion Sample.env)
           (sheets_values_append Sample.env))
    "https://a.example" "remove" Sample.world
  = (Return (mkResponse 400 (JsonError "Invalid or inaccessible URL")),
     add_trace Sample.world
       [Issued (AxiosGet "https://a.example");
        Settled (AxiosGet "https://a.example") false;
        ConsoleError "Error fetching webpage:"]).
Proof.
  apply (@knowledge_base_url_unreachable _ "https://a.example" "remove"
           Sample.world Sample.settings).
  - reflexivity.
  - reflexivity.
Defined.

(** ** The extraction settings routes *)

Lemma extraction_requests_of_run (env : Env) (sid : string) (w : World) :
  filter is_extraction_request (trace (exec (analyzeChatForVariables env sid) w))
  = (filter is_extraction_request (trace w)
     ++ match headers_of (Settings w) with
        | [] => []
        | h :: hs =>
            [Issued (ChatCompletionsCreate
                       (extraction_messages w sid (h :: hs)) true)]
        end)%list.
Proof.
  unfold exec.
  destruct (headers_of (Settings w)) as [|h hs] eqn:Hheaders.
  - rewrite (analyzeChatForVariables_no_headers env sid w Hheaders).
    now rewrite app_nil_r.
  - rewrite (analyzeChatForVariables_run env sid w Hheaders).
    destruct (extraction_completion env (extraction_messages w sid (h :: hs)));
      cbn [snd add_trace after_extraction trace]; now rewrite filter_app.
Qed.

(** The headers route answers 200 and stores the list as given; from then
    on an extraction asks the backend for exactly these fields over the
    session's transcript (and asks nothing when the list is empty), and an
    export writes one cell per field of the new list, in its order. *)
Theorem extraction_headers_route_drives_extraction (env : Env) (sid : string)
  (headers : list string) (w : World) (gs : GlobalSettings) :
  Settings w = Some gs ->
  let w1 := exec (post_extraction_headers headers) w in
  post_extraction_headers headers w
  = (Return (mkResponse 200 (JsonSuccessHeaders (Some headers))),
     with_settings w (set_headers gs (Some headers)))
  /\ filter is_extraction_request
       (trace (exec (analyzeChatForVariables env sid) w1))
     = (filter is_extraction_request (trace w)
        ++ match headers with
           | [] => []
           | _ :: _ =>
               [Issued (ChatCompletionsCreate
                          [mkChatMsg "system" (extractionPrompt headers);
                           mkChatMsg "user"
                             (Js.join Js.nl (map content (session_history w sid)))]
                          true)]
           end)%list
  /\ (forall target,
         target_of (Settings w) = Some (gs, target) ->
         session_variables w sid <> [] ->
         filter is_append_request
           (trace (exec (writeVariablesToSpreadsheet env sid) w1))
         = (filter is_append_request (trace w)
            ++ [Issued (SheetsValuesAppend target
                          (export_rowData headers (session_variables w sid)))])%list).
Proof.
  intros Hsettings w1.
  assert (Hrun : post_extraction_headers headers w
                 = (Return (mkResponse 200 (JsonSuccessHeaders (Some headers))),
                    with_settings w (set_headers gs (Some headers)))).
  { unfold post_extraction_headers, try_catch, bind, GlobalSettings_findByPk.
    now rewrite Hsettings. }
  assert (Hw1 : w1 = with_settings w (set_headers gs (Some headers))).
  { unfold w1, exec. now rewrite Hrun. }
  split; [exact Hrun|]. split.
  - rewrite extraction_requests_of_run, Hw1.
    cbn [with_settings Settings trace headers_of set_headers extractionHeaders].
    destruct headers; reflexivity.
  - intros target Htarget Hvars. unfold exec.
    assert (Htarget1 : target_of (Settings w1)
                       = Some (set_headers gs (Some headers), target)).
    { rewrite Hw1. cbn [with_settings Settings].
      rewrite Hsettings in Htarget. unfold target_of in *.
      cbn [set_headers targetSpreadsheetId].
      destruct (targetSpreadsheetId gs) as [[|c t]|]; try discriminate.
      now injection Htarget as <-. }
    rewrite (writeVariablesToSpreadsheet_run env sid w1 Htarget1).
    assert (Hsame : session_variables w1 sid = session_variables w sid)
      by now rewrite Hw1.
    rewrite Hsame.
    destruct (session_variables w sid) as [|v vs] eqn:Hv; [contradiction|].
    cbn [snd add_trace trace]. rewrite filter_app. f_equal; [now rewrite Hw1|].
    cbn [headers_of set_headers extractionHeaders]. unfold append_events.
    now destruct (sheets_values_append env target _).
Qed.

Lemma extraction_headers_route_drives_extraction_witness :
  let w1 := exec (post_extraction_headers ["city"; "name"]) Sample.name_twice in
  post_extraction_headers ["city"; "name"] Sample.name_twice
  = (Return (mkResponse 200 (JsonSuccessHeaders (Some ["city"; "name"]))),
     with_settings Sample.name_twice
       (set_headers Sample.settings (Some ["city"; "name"])))
  /\ filter is_extraction_request
       (trace (exec (analyzeChatForVariables Sample.env "sock") w1))
     = (filter is_extraction_request (trace Sample.name_twice)
        ++ [Issued (ChatCompletionsCreate
                      [mkChatMsg "system" (extractionPrompt ["city"; "name"]);
                       mkChatMsg "user"
                         (Js.join Js.nl
                            (map content (session_history Sample.name_twice "sock")))]
                      true)])%list
  /\ (forall target,
         target_of (Settings Sample.name_twice) = Some (Sample.settings, target) ->
         session_variables Sample.name_twice "sock" <> [] ->
         filter is_append_request
           (trace (exec (writeVariablesToSpreadsheet Sample.env "sock") w1))
         = (filter is_append_request (trace Sample.name_twice)
            ++ [Issued (SheetsValuesAppend target
                          (export_rowData ["city"; "name"]
                             (session_variables Sample.name_twice "sock")))])%list).
Proof.
  apply (@extraction_headers_route_drives_extraction Sample.env "sock"
           ["city"; "name"] Sample.name_twice Sample.settings).
  reflexivity.
Defined.

(** The target route stores an accessible spreadsheet as the export
    target, and the next export of a session with stored variables
    appends its row there; a spreadsheet that cannot be accessed is
    refused with 400 and the target stays as it was. *)
Theorem target_route_drives_export (env : Env) (sid : string) (c : ascii)
  (t : string) (w : World) (gs : GlobalSettings) :
  Settings w = Some gs ->
  session_variables w sid <> [] ->
  let w1 := exec (post_target_spreadsheet true (String c t)) w in
  post_target_spreadsheet true (String c t) w
  = (Return (mkResponse 200 (JsonSuccessTarget (Some (String c t)))),
     with_settings w (set_target gs (Some (String c t))))
  /\ filter is_append_request
       (trace (exec (writeVariablesToSpreadsheet env sid) w1))
     = (filter is_append_request (trace w)
        ++ [Issued (SheetsValuesAppend (String c t)
                      (export_rowData (headers_of (Some gs))
                                      (session_variables w sid)))])%list
  /\ post_target_spreadsheet false (String c t) w
     = (Return (mkResponse 400 (JsonError "Invalid or inaccessible Google Sheet ID")),
        add_trace w [ConsoleError "Error validating sheet access:"]).
Proof.
  intros Hsettings Hvars w1.
  assert (Hrun : post_target_spreadsheet true (String c t) w
                 = (Return (mkResponse 200 (JsonSuccessTarget (Some (String c t)))),
                    with_settings w (set_target gs (Some (String c t))))).
  { unfold post_target_spreadsheet, try_catch, bind, GlobalSettings_findByPk.
    now rewrite Hsettings. }
  assert (Hw1 : w1 = with_settings w (set_target gs (Some (String c t)))).
  { unfold w1, exec. now rewrite Hrun. }
  split; [exact Hrun|]. split.
  - unfold exec.
    assert (Htarget1 : target_of (Settings w1)
                       = Some (set_target gs (Some (String c t)), String c t))
      by now rewrite Hw1.
    rewrite (writeVariablesToSpreadsheet_run env sid w1 Htarget1).
    assert (Hsame : session_variables w1 sid = session_variables w sid)
      by now rewrite Hw1.
    rewrite Hsame.
    destruct (session_variables w sid) as [|v vs] eqn:Hv; [contradiction|].
    cbn [snd add_trace trace]. rewrite filter_app. f_equal; [now rewrite Hw1|].
    cbn [headers_of set_target extractionHeaders]. unfold append_events.
    now destruct (sheets_values_append env (String c t) _).
  - unfold post_target_spreadsheet, try_catch, bind, GlobalSettings_findByPk.
    rewrite Hsettings. cbn [negb]. unfold console_error, ret.
    now rewrite observe_run.
Qed.

Lemma target_route_drives_export_witness :
  let w1 := exec (post_target_spreadsheet true "U") Sample.name_twice in
  post_target_spreadsheet true "U" Sample.name_twice
  = (Return (mkResponse 200 (JsonSuccessTarget (Some "U"))),
     with_settings Sample.name_twice (set_target Sample.settings (Some "U")))
  /\ filter is_append_request
       (trace (exec (writeVariablesToSpreadsheet Sample.env "sock") w1))
     = (filter is_append_request (trace Sample.name_twice)
        ++ [Issued (SheetsValuesAppend "U"
                      (export_rowData (headers_of (Some Sample.settings))
                         (session_variables Sample.name_twice "sock")))])%list
  /\ post_target_spreadsheet false "U" Sample.name_twice
     = (Return (mkResponse 400 (JsonError "Invalid or inaccessible Google Sheet ID")),
        add_trace Sample.name_twice [ConsoleError "Error validating sheet access:"]).
Proof.
  apply (@target_route_drives_export Sample.env "sock" "U"%char "" Sample.name_twice
           Sample.settings).
  - reflexivity.
  - simpl. discriminate.
Defined.

(** The prompt route stores the text it is given and changes no other
    setting: reading the prompt back gives that text, and it is the
    system prompt of the next turn's request. *)
Theorem prompt_route_round_trip (env : Env) (sid text p : string) (w : World)
  (gs : GlobalSettings) :
  Settings w = Some gs ->
  In sid (ChatSessions w) ->
  let w1 := exec (post_prompt p) w in
  post_prompt p w
  = (Return (mkResponse 200 JsonSuccess), with_settings w (set_prompt gs p))
  /\ get_prompt w1 = (Return (mkResponse 200 (JsonPrompt p)), w1)
  /\ In (Issued (ChatCompletionsCreate
                   (context_messages env gs
                    ++ mkChatMsg "system" p
                    :: map formatted (history_with w sid text)) false))
        (trace (exec (on_message env sid text) w1)).
Proof.
  intros Hsettings Hsession w1.
  assert (Hrun : post_prompt p w
                 = (Return (mkResponse 200 JsonSuccess),
                    with_settings w (set_prompt gs p))).
  { unfold post_prompt, try_catch, bind, GlobalSettings_findByPk.
    now rewrite Hsettings. }
  assert (Hw1 : w1 = with_settings w (set_prompt gs p)).
  { unfold w1, exec. now rewrite Hrun. }
  split; [exact Hrun|]. split.
  - rewrite Hw1. reflexivity.
  - unfold exec.
    assert (Hs1 : Settings w1 = Some (set_prompt gs p)) by now rewrite Hw1.
    assert (Hin1 : In sid (ChatSessions w1)) by now rewrite Hw1.
    rewrite (on_message_run env sid text w1 Hin1 Hs1).
    rewrite turn_messages_layout.
    assert (Hh : history_with w1 sid text = history_with w sid text)
      by now rewrite Hw1.
    rewrite Hh.
    change (context_messages env (set_prompt gs p)) with (context_messages env gs).
    cbn [set_prompt prompt].
    destruct (chat_completion env _) as [|[raw|]];
      cbn [snd after_turn after_user trace];
      apply in_or_app; right; apply in_or_app; left;
      apply in_or_app; right; simpl; auto.
Qed.

Lemma prompt_route_round_trip_witness :
  let w1 := exec (post_prompt "Be brief.") Sample.world in
  post_prompt "Be brief." Sample.world
  = (Return (mkResponse 200 JsonSuccess),
     with_settings Sample.world (set_prompt Sample.settings "Be brief."))
  /\ get_prompt w1 = (Return (mkResponse 200 (JsonPrompt "Be brief.")), w1)
  /\ In (Issued (ChatCompletionsCreate
                   (context_messages Sample.env Sample.settings
                    ++ mkChatMsg "system" "Be brief."
                    :: map formatted (history_with Sample.world "sock" "hi")) false))
        (trace (exec (on_message Sample.env "sock" "hi") w1)).
Proof.
  apply (@prompt_route_round_trip Sample.env "sock" "hi" "Be brief." Sample.world
           Sample.settings).
  - reflexivity.
  - simpl. auto.
Defined.

(** The settings routes read back what was stored: after the headers and
    the target have been posted, the extraction settings are these two;
    after a sheet has been added, the listed sheets are the former ones
    followed, if it was not among them, by the new one. *)
Theorem settings_routes_read_back (headers : list string) (c : ascii)
  (t sheetId : string) (w : World) (gs : GlobalSettings) (ids : list string) :
  Settings w = Some gs ->
  knowledgeBaseSheetIds gs = Some ids ->
  let w2 := exec (post_target_spreadsheet true (String c t))
                 (exec (post_extraction_headers headers) w) in
  let w3 := exec (post_knowledge_base true sheetId "add") w in
  get_extraction_settings w2
  = (Return (mkResponse 200
               (JsonExtractionSettings headers (Some (String c t)))), w2)
  /\ get_knowledge_base w3
     = (Return (mkResponse 200
                  (JsonSheetIds (if includes ids sheetId then ids
                                 else (ids ++ [sheetId])%list))), w3)
  /\ get_knowledge_base w = (Return (mkResponse 200 (JsonSheetIds ids)), w).
Proof.
  intros Hsettings Hids w2 w3.
  assert (Hw2 : w2 = with_settings w
                       (set_target (set_headers gs (Some headers))
                                   (Some (String c t)))).
  { unfold w2, exec, post_target_spreadsheet, post_extraction_headers,
      try_catch, bind, GlobalSettings_findByPk.
    rewrite Hsettings. reflexivity. }
  assert (Hw3 : w3 = with_settings w
                       (set_sheetIds gs
                          (Some (if includes ids sheetId then ids
                                 else (ids ++ [sheetId])%list)))).
  { unfold w3, exec.
    now rewrite (post_knowledge_base_add_run sheetId w Hsettings Hids). }
  split; [|split].
  - rewrite Hw2. reflexivity.
  - rewrite Hw3. reflexivity.
  - unfold get_knowledge_base, try_catch, bind, GlobalSettings_findByPk.
    now rewrite Hsettings, Hids.
Qed.

Lemma settings_routes_read_back_witness :
  let w2 := exec (post_target_spreadsheet true "U")
                 (exec (post_extraction_headers ["city"]) Sample.world) in
  let w3 := exec (post_knowledge_base true "s9" "add") Sample.world in
  get_extraction_settings w2
  = (Return (mkResponse 200 (JsonExtractionSettings ["city"] (Some "U"))), w2)
  /\ get_knowledge_base w3
     = (Return (mkResponse 200
                  (JsonSheetIds (if includes ["s1"; "s2"; "s3"] "s9"
                                 then ["s1"; "s2"; "s3"]
                                 else (["s1"; "s2"; "s3"] ++ ["s9"])%list))), w3)
  /\ get_knowledge_base Sample.world
     = (Return (mkResponse 200 (JsonSheetIds ["s1"; "s2"; "s3"])), Sample.world).
Proof.
  apply (@settings_routes_read_back ["city"] "U"%char "" "s9" Sample.world
           Sample.settings ["s1"; "s2"; "s3"]).
  - reflexivity.
  - reflexivity.
Defined.

(** ** A session named in the request *)

Lemma teardown_returns (env : Env) (sid : string) (w : World) :
  (forall msgs, exists members,
      extraction_completion env msgs = ExtractionObject members) ->
  exists w',
    teardown env sid w = (Return tt, w')
    /\ ~ In sid (ChatSessions w')
    /\ (forall m, In m (Messages w') -> msg_sessionId m <> sid).
Proof.
  intros Hanswers. rewrite teardown_cases.
  assert (Hdestroyed : forall x,
             ~ In sid (ChatSessions (destroyed sid x))
             /\ (forall m, In m (Messages (destroyed sid x)) ->
                           msg_sessionId m <> sid)).
  { intros x. unfold destroyed. cbn [ChatSessions Messages]. split.
    - intros Hin. apply filter_In in Hin as [_ Hne].
      now rewrite String.eqb_refl in Hne.
    - intros m Hin Heq. apply filter_In in Hin as [_ Hne].
      now rewrite Heq, String.eqb_refl in Hne. }
  destruct (headers_of (Settings w)) as [|h hs].
  - eexists. split; [reflexivity|]. apply Hdestroyed.
  - cbv zeta.
    destruct (Hanswers (extraction_messages w sid (h :: hs))) as [members ->].
    eexists. split; [reflexivity|]. unfold torn_down. apply Hdestroyed.
Qed.

(** The deleteSession handler tears down the session named in the request,
    whichever socket sends it: with a backend that answers, a request that
    names another session deletes that session and its messages and
    confirms it by name, while the sender's own session and messages stay
    as they are. *)
Theorem deleteSession_names_any_session (env : Env) (socket_id : string)
  (c : ascii) (t : string) (w : World) :
  String c t <> socket_id ->
  (forall msgs, exists members,
      extraction_completion env msgs = ExtractionObject members) ->
  let w' := exec (on_deleteSession env socket_id (Some (String c t))) w in
  ~ In (String c t) (ChatSessions w')
  /\ (forall m, In m (Messages w') -> msg_sessionId m <> String c t)
  /\ (In socket_id (ChatSessions w) -> In socket_id (ChatSessions w'))
  /\ (forall m, msg_sessionId m = socket_id -> In m (Messages w) ->
                In m (Messages w'))
  /\ exists tr, trace w'
                = (trace w ++ tr ++ [SocketEmit "sessionDeleted" (String c t)])%list.
Proof.
  intros Hother Hanswers w'.
  destruct (teardown_returns env (String c t) w Hanswers)
    as [w1 [Hrun [Hgone Hmsgs]]].
  pose proof (teardown_torn_apart env (String c t) w) as Hframe.
  unfold exec in Hframe. rewrite Hrun in Hframe. cbn [snd] in Hframe.
  destruct Hframe as [_ [_ [_ [_ [Hkeep_s Hkeep_m]]]]].
  assert (Hw' : w' = add_trace w1 [SocketEmit "sessionDeleted" (String c t)]).
  { unfold w', exec, on_deleteSession, or_socket_id, try_catch, bind.
    rewrite Hrun. unfold socket_emit. now rewrite observe_run. }
  rewrite Hw'. cbn [add_trace ChatSessions Messages trace].
  split; [exact Hgone|]. split; [exact Hmsgs|]. split; [|split].
  - apply Hkeep_s. congruence.
  - intros m Hsid. apply Hkeep_m. congruence.
  - assert (Htrace : exists tr, trace w1 = (trace w ++ tr)%list).
    { pose proof (teardown_cases env (String c t) w) as Hcases.
      rewrite Hrun in Hcases.
      destruct (headers_of (Settings w)) as [|h hs].
      - injection Hcases as ->. unfold destroyed, add_trace. cbn [trace]. eauto.
      - cbv zeta in Hcases.
        destruct (extraction_completion env _) as [| |members];
          try discriminate Hcases.
        injection Hcases as ->.
        destruct (torn_down_facts env w (String c t) (h :: hs) members)
          as [_ [_ [_ [_ [_ Ht]]]]].
        rewrite Ht. eauto. }
    destruct Htrace as [tr Htr]. exists tr. now rewrite Htr, <- app_assoc.
Qed.

Lemma deleteSession_names_any_session_witness :
  let w' := exec (on_deleteSession Sample.env "intruder" (Some "sock"))
                 (mkWorld ["sock"; "intruder"]
                          [mkMessage "sock" "user" "I am Ann" 0;
                           mkMessage "intruder" "user" "hello" 1] []
                          (Some Sample.settings) 2 []) in
  ~ In "sock" (ChatSessions w')
  /\ (forall m, In m (Messages w') -> msg_sessionId m <> "sock")
  /\ (In "intruder" (ChatSessions
                       (mkWorld ["sock"; "intruder"]
                          [mkMessage "sock" "user" "I am Ann" 0;
                           mkMessage "intruder" "user" "hello" 1] []
                          (Some Sample.settings) 2 [])) ->
      In "intruder" (ChatSessions w'))
  /\ (forall m, msg_sessionId m = "intruder" ->
                In m (Messages
                        (mkWorld ["sock"; "intruder"]
                           [mkMessage "sock" "user" "I am Ann" 0;
                            mkMessage "intruder" "user" "hello" 1] []
                           (Some Sample.settings) 2 [])) ->
                In m (Messages w'))
  /\ exists tr, trace w'
                = (trace (mkWorld ["sock"; "intruder"]
                            [mkMessage "sock" "user" "I am Ann" 0;
                             mkMessage "intruder" "user" "hello" 1] []
                            (Some Sample.settings) 2 [])
                   ++ tr ++ [SocketEmit "sessionDeleted" "sock"])%list.
Proof.
  apply (@deleteSession_names_any_session Sample.env "intruder" "s"%char "ock").
  - discriminate.
  - intros msgs. eexists. reflexivity.
Defined.
